(** * troccomcp: an MCP server in front of the TROCCO REST API

    A shallow embedding of [src/index.ts].  The program is a thin layer of
    HTTP glue: a request wrapper ([troccoRequest]), a cursor-pagination loop
    ([withPagination]), two tool operations ([listConnections],
    [createDatamartDefinition]) and the dispatcher registered for
    [CallToolRequestSchema].

    The file has three layers:
    - [JS]: the values the program handles at run time and the handful of
      ECMAScript / WHATWG primitives it calls on them ([JSON.stringify],
      template literals, object spread, [URLSearchParams]);
    - [Zod]: the schema combinators the two input schemas are built from;
    - the program itself, written in a state-and-exception monad over a
      world made of the remote server and the log of [fetch] calls. *)

From Stdlib Require Import ZArith String Ascii List Bool Lia DecimalString.
Import ListNotations.

#[local] Set Warnings "-register-all".

Local Open Scope string_scope.
Local Open Scope Z_scope.

(* ================================================================= *)
(** ** Run-time values *)

Module JS.

(** A JavaScript value as the program meets it: what [JSON.parse] can
    return, plus [undefined] (missing properties, absent arguments).
    Numbers are the integer-valued ones (identifiers, status codes), which
    print as plain decimals; the program never computes with a number, it
    only passes it along or prints it.  Strings are sequences of bytes
    (UTF-8 text).  An object is its list of own properties in property
    order, each key once. *)
Inductive value : Type :=
| VUndefined
| VNull
| VBool (b : bool)
| VNumber (n : Z)
| VString (s : string)
| VArray (elems : list value)
| VObject (props : list (string * value)).

(** Own-property lookup in a property list. *)
Fixpoint lookup {A : Type} (k : string) (props : list (string * A)) : option A :=
  match props with
  | [] => None
  | (k', v) :: rest => if String.eqb k k' then Some v else lookup k rest
  end.

(** [obj[k] = v] on a property list: an existing key keeps its place, a new
    key goes last. *)
Fixpoint set_prop {A : Type} (k : string) (v : A) (props : list (string * A))
  : list (string * A) :=
  match props with
  | [] => [(k, v)]
  | (k', v') :: rest =>
      if String.eqb k k' then (k', v) :: rest else (k', v') :: set_prop k v rest
  end.

(** [{...a, ...b}]: the properties of [a], then those of [b] assigned one by
    one in order. *)
Definition spread {A : Type} (a b : list (string * A)) : list (string * A) :=
  fold_left (fun acc kv => set_prop (fst kv) (snd kv) acc) b a.

Definition keys {A : Type} (props : list (string * A)) : list string :=
  map fst props.

(** [v.k] for a value that is known not to be null or undefined.  The
    property names this program reads ([items], [next_cursor], [id], [name],
    [description], the field names of the two schemas) are not defined on
    the prototypes of strings, numbers, booleans or arrays, so on those the
    read gives [undefined]. *)
Definition prop (v : value) (k : string) : value :=
  match v with
  | VObject props =>
      match lookup k props with
      | Some x => x
      | None => VUndefined
      end
  | _ => VUndefined
  end.

(** [v == null]. *)
Definition nullish (v : value) : bool :=
  match v with
  | VUndefined | VNull => true
  | _ => false
  end.

(** [v?.k]. *)
Definition opt_prop (v : value) (k : string) : value :=
  if nullish v then VUndefined else prop v k.

(** ToBoolean. *)
Definition truthy (v : value) : bool :=
  match v with
  | VUndefined | VNull => false
  | VBool b => b
  | VNumber n => negb (n =? 0)
  | VString s => negb (String.eqb s "")
  | VArray _ | VObject _ => true
  end.

Definition Number_toString (n : Z) : string :=
  NilZero.string_of_int (Z.to_int n).

Definition join (sep : string) (parts : list string) : string :=
  String.concat sep parts.

(** ToString, as used by template literals and by [URLSearchParams] on the
    values of its initialiser. *)
Fixpoint ToString (v : value) : string :=
  match v with
  | VUndefined => "undefined"
  | VNull => "null"
  | VBool true => "true"
  | VBool false => "false"
  | VNumber n => Number_toString n
  | VString s => s
  | VArray elems =>
      join "," (map (fun e => if nullish e then "" else ToString e) elems)
  | VObject _ => "[object Object]"
  end.

(* ----------------------------------------------------------------- *)
(** *** JSON.stringify *)

Definition dquote : string := String (ascii_of_nat 34) EmptyString.

Definition hex_digit (lower : bool) (d : nat) : ascii :=
  if (d <? 10)%nat then ascii_of_nat (48 + d)
  else ascii_of_nat ((if lower then 87 else 55) + d).

Definition hex_byte (lower : bool) (c : ascii) : string :=
  let n := nat_of_ascii c in
  String (hex_digit lower (n / 16)) (String (hex_digit lower (n mod 16)) EmptyString).

Definition quote_char (c : ascii) : string :=
  let n := nat_of_ascii c in
  if (n =? 34)%nat then "\" ++ dquote
  else if (n =? 92)%nat then "\\"
  else if (n =? 8)%nat then "\b"
  else if (n =? 9)%nat then "\t"
  else if (n =? 10)%nat then "\n"
  else if (n =? 12)%nat then "\f"
  else if (n =? 13)%nat then "\r"
  else if (n <? 32)%nat then "\u00" ++ hex_byte true c
  else String c EmptyString.

Fixpoint quote_chars (s : string) : string :=
  match s with
  | EmptyString => EmptyString
  | String c rest => quote_char c ++ quote_chars rest
  end.

Definition QuoteJSONString (s : string) : string :=
  dquote ++ quote_chars s ++ dquote.

Definition newline : string := String (ascii_of_nat 10) EmptyString.

(** The bracketed, separated rendering shared by arrays and objects. *)
Definition wrap (opening closing gap stepback indent : string) (partial : list string)
  : string :=
  match partial with
  | [] => opening ++ closing
  | _ =>
      if String.eqb gap ""
      then opening ++ join "," partial ++ closing
      else opening ++ newline ++ indent
           ++ join ("," ++ newline ++ indent) partial
           ++ newline ++ stepback ++ closing
  end.

(** SerializeJSONProperty with indentation unit [gap], at indentation
    [indent].  [None] is [undefined]: the property is left out of an
    object and printed as [null] in an array. *)
Fixpoint SerializeJSONProperty (gap indent : string) (v : value) : option string :=
  match v with
  | VUndefined => None
  | VNull => Some "null"
  | VBool true => Some "true"
  | VBool false => Some "false"
  | VNumber n => Some (Number_toString n)
  | VString s => Some (QuoteJSONString s)
  | VArray elems =>
      let inner := indent ++ gap in
      Some (wrap "[" "]" gap indent inner
              (map (fun e =>
                      match SerializeJSONProperty gap inner e with
                      | Some s => s
                      | None => "null"
                      end) elems))
  | VObject props =>
      let inner := indent ++ gap in
      Some (wrap "{" "}" gap indent inner
              (flat_map (fun kv =>
                           match SerializeJSONProperty gap inner (snd kv) with
                           | Some s =>
                               [QuoteJSONString (fst kv) ++ ":"
                                ++ (if String.eqb gap "" then "" else " ") ++ s]
                           | None => []
                           end) props))
  end.

(** [JSON.stringify(v)]. *)
Definition JSON_stringify (v : value) : option string :=
  SerializeJSONProperty "" "" v.

(** [JSON.stringify(v, null, 2)]. *)
Definition JSON_stringify_pretty (v : value) : option string :=
  SerializeJSONProperty "  " "" v.

(* ----------------------------------------------------------------- *)
(** *** URLSearchParams *)

(** The application/x-www-form-urlencoded byte serializer. *)
Definition urlencode_char (c : ascii) : string :=
  let n := nat_of_ascii c in
  if (n =? 32)%nat then "+"
  else if ((48 <=? n) && (n <=? 57) || (65 <=? n) && (n <=? 90)
           || (97 <=? n) && (n <=? 122)
           || (n =? 42) || (n =? 45) || (n =? 46) || (n =? 95))%nat
       then String c EmptyString
       else "%" ++ hex_byte false c.

Fixpoint urlencode (s : string) : string :=
  match s with
  | EmptyString => EmptyString
  | String c rest => urlencode_char c ++ urlencode rest
  end.

(** [new URLSearchParams(record)]: one name/value pair per own property,
    the value converted to a string. *)
Definition URLSearchParams (record : list (string * value)) : list (string * string) :=
  map (fun kv => (fst kv, ToString (snd kv))) record.

(** [`${params}`] for a [URLSearchParams]. *)
Definition URLSearchParams_toString (pairs : list (string * string)) : string :=
  join "&" (map (fun kv => urlencode (fst kv) ++ "=" ++ urlencode (snd kv)) pairs).

(** Iterating a value with spread syntax ([...v] in an argument list):
    arrays give their elements, strings their characters (byte by byte
    here), anything else in this universe is not iterable. *)
Definition iterate (v : value) : option (list value) :=
  match v with
  | VArray elems => Some elems
  | VString s =>
      Some (map (fun c => VString (String c EmptyString)) (list_ascii_of_string s))
  | _ => None
  end.

End JS.

(* ================================================================= *)
(** ** Zod schemas *)

Module Zod.
Import JS.

(** The combinators the two input schemas use.  [ZString n] is
    [z.string().min(n)] (and [z.string()] for [n = 0]); [ZDescribe] only
    attaches documentation. *)
Inductive schema : Type :=
| ZString (min : nat)
| ZNumber
| ZBoolean
| ZEnum (options : list string)
| ZOptional (inner : schema)
| ZDescribe (description : string) (inner : schema)
| ZObject (shape : list (string * schema)).

Inductive issue_code : Type :=
| invalid_type
| invalid_enum_value
| too_small.

Record ZodIssue : Type := mkIssue { code : issue_code; path : list string }.

Definition has_key {A : Type} (k : string) (props : list (string * A)) : bool :=
  match lookup k props with
  | Some _ => true
  | None => false
  end.

Definition is_undefined (v : value) : bool :=
  match v with
  | VUndefined => true
  | _ => false
  end.

Definition mem (s : string) (options : list string) : bool :=
  existsb (String.eqb s) options.

(** One pass of a schema over a value: the issues found (none when the value
    conforms) and the parsed output.  Objects are parsed in the default
    strip mode: the output carries the keys of the shape only, in the order
    of the shape, and a key is left out when the input does not have it and
    its parsed value is [undefined]. *)
Fixpoint run (at_path : list string) (s : schema) (v : value)
  : list ZodIssue * value :=
  match s with
  | ZString min =>
      match v with
      | VString str =>
          if (String.length str <? min)%nat
          then ([mkIssue too_small at_path], v)
          else ([], v)
      | _ => ([mkIssue invalid_type at_path], v)
      end
  | ZNumber =>
      match v with
      | VNumber _ => ([], v)
      | _ => ([mkIssue invalid_type at_path], v)
      end
  | ZBoolean =>
      match v with
      | VBool _ => ([], v)
      | _ => ([mkIssue invalid_type at_path], v)
      end
  | ZEnum options =>
      match v with
      | VString str =>
          if mem str options then ([], v)
          else ([mkIssue invalid_enum_value at_path], v)
      | _ => ([mkIssue invalid_type at_path], v)
      end
  | ZOptional inner =>
      if is_undefined v then ([], VUndefined) else run at_path inner v
  | ZDescribe _ inner => run at_path inner v
  | ZObject shape =>
      match v with
      | VObject props =>
          let fields :=
            (fix fields (shape : list (string * schema))
               : list ZodIssue * list (string * value) :=
               match shape with
               | [] => ([], [])
               | (k, sk) :: rest =>
                   let r := run (at_path ++ [k])%list sk (prop v k) in
                   let rs := fields rest in
                   ((fst r ++ fst rs)%list,
                    if negb (is_undefined (snd r)) || has_key k props
                    then (k, snd r) :: snd rs
                    else snd rs)
               end) shape in
          (fst fields, VObject (snd fields))
      | _ => ([mkIssue invalid_type at_path], v)
      end
  end.

Inductive parsed : Type :=
| Valid (data : value)
| Invalid (issues : list ZodIssue).

(** [schema.safeParse(v)]. *)
Definition safeParse (s : schema) (v : value) : parsed :=
  match run [] s v with
  | ([], data) => Valid data
  | (issues, _) => Invalid issues
  end.

End Zod.

(* ================================================================= *)
(** ** The world: exceptions, the remote server, the log of calls *)

Import JS.

Definition VERSION : string := "0.1.0".

(** What a JavaScript computation can end with.  [OutOfFuel] is not a
    behaviour of the program: it marks a run of the model that was cut
    before the pagination loop finished. *)
Inductive exn : Type :=
| Error (message : string)
| TypeError (message : string)
| SyntaxError (message : string)
| ZodError (issues : list Zod.ZodIssue).

Inductive outcome (A : Type) : Type :=
| Return (a : A)
| Throw (e : exn)
| OutOfFuel.

Arguments Return {A} a.
Arguments Throw {A} e.
Arguments OutOfFuel {A}.

(** The second argument of [fetch], as [troccoRequest] builds it.  A [body]
    of [None] is the [undefined] the source writes there: no body is sent. *)
Record RequestInit : Type := mkInit {
  init_method : string;
  init_headers : list (string * string);
  init_body : option string
}.

Record Request : Type := mkRequest {
  request_url : string;
  request_init : RequestInit
}.

(** A response as far as the program looks at it: the status line, and the
    body as [response.json()] decodes it ([None] when the body is not JSON
    text). *)
Record Response : Type := mkResponse {
  status : Z;
  json_body : option value
}.

(** [response.ok]. *)
Definition ok (r : Response) : bool :=
  (200 <=? status r) && (status r <=? 299).

(** One entry of the log of network calls: the request that went out and
    what came back ([None]: the connection failed and [fetch] rejected). *)
Record Exchange : Type := mkExchange {
  sent : Request;
  received : option Response
}.

(** [type RequestOptions = { method?: ...; body?: unknown }]. *)
Record RequestOptions : Type := mkOptions {
  method : option string;
  body : value
}.

(** The default [options = {}]. *)
Definition no_options : RequestOptions :=
  {| method := None; body := VUndefined |}.

(** [type PaginationResponse<Item> = { items: Item[]; next_cursor: string | null }] *)
Record PaginationResponse : Type := mkPage {
  items : list value;
  next_cursor : option string
}.

(** The JSON value a well-typed page is on the wire. *)
Definition page_json (p : PaginationResponse) : value :=
  VObject [("items", VArray (items p));
           ("next_cursor", match next_cursor p with
                           | Some c => VString c
                           | None => VNull
                           end)].

(** The request object handed to the [CallToolRequestSchema] handler, reduced
    to [request.params]. *)
Record CallToolRequest : Type := mkCall {
  name : string;
  arguments : value
}.

Section Program.

(** The remote side: any state machine answering requests. *)
Context {Remote : Type}.
Variable server : Remote -> Request -> option Response * Remote.

Record World : Type := mkWorld {
  remote : Remote;
  TROCCO_API_KEY : option string;   (* process.env.TROCCO_API_KEY *)
  calls : list Exchange
}.

Definition M (A : Type) : Type := World -> outcome A * World.

Definition ret {A : Type} (a : A) : M A := fun w => (Return a, w).

Definition throw {A : Type} (e : exn) : M A := fun w => (Throw e, w).

Definition out_of_fuel {A : Type} : M A := fun w => (OutOfFuel, w).

Definition bind {A B : Type} (m : M A) (k : A -> M B) : M B :=
  fun w =>
    match m w with
    | (Return a, w') => k a w'
    | (Throw e, w') => (Throw e, w')
    | (OutOfFuel, w') => (OutOfFuel, w')
    end.

Notation "x <- m ;; k" := (bind m (fun x => k))
  (at level 100, m at next level, right associativity).

Fixpoint mapM {A B : Type} (f : A -> M B) (l : list A) : M (list B) :=
  match l with
  | [] => ret []
  | a :: rest =>
      b <- f a ;;
      bs <- mapM f rest ;;
      ret (b :: bs)
  end.

(** [v.k] where [v] may be anything: reading a property of [null] or
    [undefined] throws. *)
Definition get (v : value) (k : string) : M value :=
  if nullish v
  then throw (TypeError ("Cannot read properties of " ++ ToString v))
  else ret (prop v k).

(** [`${process.env.TROCCO_API_KEY}`]. *)
Definition api_key_text : M string :=
  fun w =>
    (Return (match TROCCO_API_KEY w with
             | Some k => k
             | None => "undefined"
             end), w).

(** [await fetch(url, init)]: the request reaches the server and is
    logged with its answer. *)
Definition fetch (url : string) (init : RequestInit) : M Response :=
  fun w =>
    let req := mkRequest url init in
    let (answer, remote') := server (remote w) req in
    let w' := {| remote := remote';
                 TROCCO_API_KEY := TROCCO_API_KEY w;
                 calls := calls w ++ [mkExchange req answer] |} in
    match answer with
    | Some response => (Return response, w')
    | None => (Throw (TypeError "fetch failed"), w')
    end.

(** [await response.json()]. *)
Definition Response_json (response : Response) : M value :=
  match json_body response with
  | Some v => ret v
  | None => throw (SyntaxError "Unexpected token")
  end.

(* ================================================================= *)
(** ** The program *)

(** [options.method || "GET"]. *)
Definition method_or_GET (options : RequestOptions) : string :=
  match method options with
  | Some m => if String.eqb m "" then "GET" else m
  | None => "GET"
  end.

(** [options.body ? JSON.stringify(options.body) : undefined]. *)
Definition body_or_undefined (options : RequestOptions) : option string :=
  if truthy (body options) then JSON_stringify (body options) else None.

Definition troccoRequest (url : string) (options : RequestOptions) : M value :=
  key <- api_key_text ;;
  let headers :=
    [("Accept", "application/json");
     ("Content-Type", "application/json");
     ("User-Agent", "troccomcp/" ++ VERSION);
     ("Authorization", "Token " ++ key)] in
  response <- fetch url {| init_method := method_or_GET options;
                           init_headers := headers;
                           init_body := body_or_undefined options |} ;;
  if negb (ok response)
  then throw (Error ("TROCCO API request failed: "
                     ++ Number_toString (status response)))
  else Response_json response.

Definition ListConnectionsInputSchema : Zod.schema :=
  Zod.ZObject
    [("connectionType",
      Zod.ZEnum ["bigquery"; "gcs"; "google_spreadsheet"; "snowflake"; "mysql";
                 "s3"; "salesforce"; "postgresql"; "google_analytics4"])].

Definition CreateDatamartDefinitionInputSchema : Zod.schema :=
  Zod.ZObject
    [("name", Zod.ZString 1);
     ("dataWarehouseType", Zod.ZEnum ["bigquery"]);
     ("description", Zod.ZOptional (Zod.ZString 0));
     ("isRunnableConcurrently", Zod.ZBoolean);
     ("datamartBigqueryOption",
      Zod.ZDescribe "required if dataWarehouseType is bigquery"
        (Zod.ZOptional
           (Zod.ZObject
              [("bigqueryConnectionId", Zod.ZNumber);
               ("queryMode", Zod.ZEnum ["insert"]);
               ("query", Zod.ZString 0);
               ("destinationDataset", Zod.ZString 0);
               ("destinationTable", Zod.ZString 0);
               ("writeDisposition", Zod.ZEnum ["append"; "truncate"])])))].

(** [schema.parse(v)]: the parsed data, or a thrown [ZodError]. *)
Definition Zod_parse (s : Zod.schema) (v : value) : M value :=
  match Zod.safeParse s v with
  | Zod.Valid data => ret data
  | Zod.Invalid issues => throw (ZodError issues)
  end.

(** The query record of one page request:
    [{...params, ...(nextCursor == null ? {limit: "5"}
                                        : {limit: "5", cursor: nextCursor})}]. *)
Definition page_query (params : list (string * value)) (nextCursor : value)
  : list (string * value) :=
  spread (spread [] params)
         (if nullish nextCursor
          then [("limit", VString "5")]
          else [("limit", VString "5"); ("cursor", nextCursor)]).

Definition page_url (url : string) (params : list (string * value))
  (nextCursor : value) : string :=
  url ++ "?" ++ URLSearchParams_toString (URLSearchParams (page_query params nextCursor)).

(** The body of the [do ... while] loop: one request, the page's items and
    the cursor it names. *)
Definition fetch_page (url : string) (params : list (string * value))
  (options : RequestOptions) (nextCursor : value) : M (list value * value) :=
  data <- troccoRequest (page_url url params nextCursor) options ;;
  data_items <- get data "items" ;;
  match iterate data_items with
  | None => throw (TypeError "data.items is not iterable")
  | Some page_items =>
      next <- get data "next_cursor" ;;
      ret (page_items, next)
  end.

(** The [do ... while (nextCursor != null)] loop, entered with the items
    gathered so far ([acc], the source's array [items]) and the current
    cursor.  [fuel] bounds the number of iterations of the model; the source
    has no bound. *)
Fixpoint withPagination_loop (fuel : nat) (url : string)
  (params : list (string * value)) (options : RequestOptions)
  (acc : list value) (nextCursor : value) : M (list value) :=
  match fuel with
  | O => out_of_fuel
  | S fuel' =>
      page <- fetch_page url params options nextCursor ;;
      let acc := (acc ++ fst page)%list in
      let nextCursor := snd page in
      if negb (nullish nextCursor)
      then withPagination_loop fuel' url params options acc nextCursor
      else ret acc
  end.

Definition withPagination (fuel : nat) (url : string)
  (params : list (string * value)) (options : RequestOptions) : M (list value) :=
  withPagination_loop fuel url params options [] VNull.

(** The callback of [connections.map] in [listConnections]. *)
Definition project_connection (connection : value) : M value :=
  id <- get connection "id" ;;
  name <- get connection "name" ;;
  description <- get connection "description" ;;
  ret (VObject [("id", id); ("name", name); ("description", description)]).

Definition listConnections (fuel : nat) (input : value) : M (list value) :=
  connectionType <- get input "connectionType" ;;
  let url := "https://trocco.io/api/connections/" ++ ToString connectionType in
  connections <- withPagination fuel url [] no_options ;;
  mapM project_connection connections.

(** The [body] of the POST request of [createDatamartDefinition]. *)
Definition datamart_request_body (input : value) : M value :=
  name <- get input "name" ;;
  dataWarehouseType <- get input "dataWarehouseType" ;;
  description <- get input "description" ;;
  isRunnableConcurrently <- get input "isRunnableConcurrently" ;;
  option <- get input "datamartBigqueryOption" ;;
  ret (VObject
         [("name", name);
          ("data_warehouse_type", dataWarehouseType);
          ("description", description);
          ("is_runnable_concurrently", isRunnableConcurrently);
          ("datamart_bigquery_option",
           VObject
             [("bigquery_connection_id", opt_prop option "bigqueryConnectionId");
              ("query_mode", opt_prop option "queryMode");
              ("query", opt_prop option "query");
              ("destination_dataset", opt_prop option "destinationDataset");
              ("destination_table", opt_prop option "destinationTable");
              ("write_disposition", opt_prop option "writeDisposition")])]).

(** The object [createDatamartDefinition] returns, built from the decoded
    response. *)
Definition datamart_result (datamartDefinition : value) : M value :=
  id <- get datamartDefinition "id" ;;
  name <- get datamartDefinition "name" ;;
  data_warehouse_type <- get datamartDefinition "data_warehouse_type" ;;
  description <- get datamartDefinition "description" ;;
  is_runnable_concurrently <- get datamartDefinition "is_runnable_concurrently" ;;
  datamart_bigquery_option <- get datamartDefinition "datamart_bigquery_option" ;;
  ret (VObject
         [("id", id);
          ("name", name);
          ("data_warehouse_type", data_warehouse_type);
          ("description", description);
          ("is_runnable_concurrently", is_runnable_concurrently);
          ("datamart_bigquery_option", datamart_bigquery_option)]).

Definition datamart_url : string := "https://trocco.io/api/datamart_definitions".

Definition createDatamartDefinition (input : value) : M value :=
  request_body <- datamart_request_body input ;;
  let options := {| method := Some "POST"; body := request_body |} in
  datamartDefinition <- troccoRequest datamart_url options ;;
  datamart_result datamartDefinition.

(** [{ content: [{ type: "text", text: JSON.stringify(result, null, 2) }] }] *)
Definition text_content (result : value) : value :=
  VObject
    [("content",
      VArray
        [VObject [("type", VString "text");
                  ("text", match JSON_stringify_pretty result with
                           | Some text => VString text
                           | None => VUndefined
                           end)]])].

(** The handler registered for [CallToolRequestSchema]. *)
Definition CallToolRequest_handler (fuel : nat) (request : CallToolRequest)
  : M value :=
  if negb (truthy (arguments request))
  then throw (Error "Arguments are required")
  else if String.eqb (name request) "list_connections" then
    input <- Zod_parse ListConnectionsInputSchema (arguments request) ;;
    connections <- listConnections fuel input ;;
    ret (text_content (VArray connections))
  else if String.eqb (name request) "create_datamart_definition" then
    input <- Zod_parse CreateDatamartDefinitionInputSchema (arguments request) ;;
    result <- createDatamartDefinition input ;;
    ret (text_content result)
  else throw (Error ("Unknown tool name: " ++ name request)).

End Program.

Arguments mkWorld {Remote} remote TROCCO_API_KEY calls.
Arguments remote {Remote} w.
Arguments TROCCO_API_KEY {Remote} w.
Arguments calls {Remote} w.

(* ================================================================= *)
(** ** Two remote sides used in the statements *)

(** A mocked endpoint: it answers with the scripted responses in order,
    whatever is asked, and fails the connection once the script is used up. *)
Definition scripted (script : list Response) (_ : Request)
  : option Response * list Response :=
  match script with
  | [] => (None, [])
  | r :: rest => (Some r, rest)
  end.

(** A server that answers every request with the same response. *)
Definition constant (r : Response) (_ : unit) (_ : Request)
  : option Response * unit :=
  (Some r, tt).

Definition ok_page (p : PaginationResponse) : Response :=
  {| status := 200; json_body := Some (page_json p) |}.

(** A script whose first page has no items but names a cursor. *)
Definition empty_then_last : list Response :=
  [ok_page (mkPage [] (Some "c1")); ok_page (mkPage [VNumber 1] None)].

(** The requests of a log, in the order they were made. *)
Definition requests (log : list Exchange) : list Request :=
  map sent log.

(* ================================================================= *)
(** ** Vocabulary of the statements *)

(** The request [troccoRequest url options] hands to [fetch] when the
    environment holds [key]. *)
Definition outgoing (key : option string) (url : string) (options : RequestOptions)
  : Request :=
  mkRequest url
    {| init_method := method_or_GET options;
       init_headers :=
         [("Accept", "application/json");
          ("Content-Type", "application/json");
          ("User-Agent", "troccomcp/" ++ VERSION);
          ("Authorization", "Token " ++ match key with
                                        | Some k => k
                                        | None => "undefined"
                                        end)];
       init_body := body_or_undefined options |}.

(** The world after one more exchange. *)
Definition after {Remote : Type} (w : World (Remote := Remote)) (remote' : Remote)
  (req : Request) (answer : option Response) : World :=
  mkWorld remote' (TROCCO_API_KEY w) (calls w ++ [mkExchange req answer]).

(** What [response.json()] settles to. *)
Definition decoded (r : Response) : outcome value :=
  match json_body r with
  | Some v => Return v
  | None => Throw (SyntaxError "Unexpected token")
  end.

(** The settlement of [troccoRequest] on a given answer. *)
Definition settle (answer : option Response) : outcome value :=
  match answer with
  | None => Throw (TypeError "fetch failed")
  | Some r =>
      if ok r then decoded r
      else Throw (Error ("TROCCO API request failed: " ++ Number_toString (status r)))
  end.

(** The cursor a page answer names: [data.next_cursor], [undefined] when
    there is no decoded body to read it from. *)
Definition answer_cursor (answer : option Response) : value :=
  match answer with
  | Some r =>
      match json_body r with
      | Some data => prop data "next_cursor"
      | None => VUndefined
      end
  | None => VUndefined
  end.

(** The request the loop makes for a given cursor. *)
Definition page_request (key : option string) (url : string)
  (params : list (string * value)) (options : RequestOptions) (cursor : value)
  : Request :=
  outgoing key (page_url url params cursor) options.

(** What the loop body makes of the settlement of its request. *)
Definition read_page (o : outcome value) : outcome (list value * value) :=
  match o with
  | Return data =>
      if nullish data
      then Throw (TypeError ("Cannot read properties of " ++ ToString data))
      else match iterate (prop data "items") with
           | Some page_items => Return (page_items, prop data "next_cursor")
           | None => Throw (TypeError "data.items is not iterable")
           end
  | Throw e => Throw e
  | OutOfFuel => OutOfFuel
  end.

(** [N] well-typed pages: the first [N-1] name the cursors [c1..cN-1], the
    last names none. *)
Definition paged (front : list (list value * string)) (last : list value)
  : list PaginationResponse :=
  (map (fun p => mkPage (fst p) (Some (snd p))) front ++ [mkPage last None])%list.

Definition cursor_value (p : PaginationResponse) : value :=
  match next_cursor p with
  | Some c => VString c
  | None => VNull
  end.

(** The exchanges of a run over the given pages, entered with cursor [c]. *)
Fixpoint dialogue (key : option string) (url : string)
  (params : list (string * value)) (options : RequestOptions) (c : value)
  (pages : list PaginationResponse) : list Exchange :=
  match pages with
  | [] => []
  | p :: rest =>
      mkExchange (page_request key url params options c) (Some (ok_page p))
      :: dialogue key url params options (cursor_value p) rest
  end.

(** The server, asked for the pages from cursor [c] on in state [s],
    eventually gives an answer that names no cursor. *)
Inductive reaches_last_page {Remote : Type}
  (server : Remote -> Request -> option Response * Remote)
  (key : option string) (url : string) (params : list (string * value))
  (options : RequestOptions) : value -> Remote -> Prop :=
| last_page_now (c : value) (s : Remote) :
    nullish (answer_cursor (fst (server s (page_request key url params options c))))
    = true ->
    reaches_last_page server key url params options c s
| last_page_later (c : value) (s : Remote) :
    reaches_last_page server key url params options
      (answer_cursor (fst (server s (page_request key url params options c))))
      (snd (server s (page_request key url params options c))) ->
    reaches_last_page server key url params options c s.

(** The object [listConnections] makes of one raw connection. *)
Definition projected (connection : value) : value :=
  VObject [("id", prop connection "id");
           ("name", prop connection "name");
           ("description", prop connection "description")].

(** The URL [listConnections] pages through. *)
Definition connections_url (input : value) : string :=
  "https://trocco.io/api/connections/" ++ ToString (prop input "connectionType").

(** The request body of [createDatamartDefinition], as a function of the
    input object. *)
Definition datamart_body (input : value) : value :=
  let option := prop input "datamartBigqueryOption" in
  VObject
    [("name", prop input "name");
     ("data_warehouse_type", prop input "dataWarehouseType");
     ("description", prop input "description");
     ("is_runnable_concurrently", prop input "isRunnableConcurrently");
     ("datamart_bigquery_option",
      VObject
        [("bigquery_connection_id", opt_prop option "bigqueryConnectionId");
         ("query_mode", opt_prop option "queryMode");
         ("query", opt_prop option "query");
         ("destination_dataset", opt_prop option "destinationDataset");
         ("destination_table", opt_prop option "destinationTable");
         ("write_disposition", opt_prop option "writeDisposition")])].

(** The POST request of [createDatamartDefinition]. *)
Definition datamart_request (key : option string) (input : value) : Request :=
  outgoing key datamart_url {| method := Some "POST"; body := datamart_body input |}.

(** camelCase to snake_case: an upper-case letter becomes an underscore and
    its lower-case letter. *)
Fixpoint snake_case (s : string) : string :=
  match s with
  | EmptyString => EmptyString
  | String c rest =>
      let n := nat_of_ascii c in
      if ((65 <=? n) && (n <=? 90))%nat
      then String "_" (String (ascii_of_nat (n + 32)) (snake_case rest))
      else String c (snake_case rest)
  end.

(* ----------------------------------------------------------------- *)
(** *** Sample data *)

(** A raw connection with two fields more than [Connection] has, and a
    world whose server holds it on a single page. *)
Definition orders_record : value :=
  VObject [("id", VString "7"); ("created_at", VString "2025-01-01");
           ("name", VString "orders"); ("description", VString "replica");
           ("port", VNumber 3306)].

Definition orders_world : World :=
  mkWorld [ok_page (mkPage [orders_record] None)] None [].

(** A fully populated create-definition input, its request body, and the
    response of a server that echoes the body under the id 42. *)
Definition sales_input : value :=
  VObject [("name", VString "daily_sales");
           ("dataWarehouseType", VString "bigquery");
           ("description", VString "sales per day");
           ("isRunnableConcurrently", VBool false);
           ("datamartBigqueryOption",
            VObject [("bigqueryConnectionId", VNumber 3);
                     ("queryMode", VString "insert");
                     ("query", VString "select 1");
                     ("destinationDataset", VString "mart");
                     ("destinationTable", VString "sales");
                     ("writeDisposition", VString "append")])].

Definition sales_record : value :=
  VObject [("id", VNumber 42);
           ("name", VString "daily_sales");
           ("data_warehouse_type", VString "bigquery");
           ("description", VString "sales per day");
           ("is_runnable_concurrently", VBool false);
           ("datamart_bigquery_option",
            VObject [("bigquery_connection_id", VNumber 3);
                     ("query_mode", VString "insert");
                     ("query", VString "select 1");
                     ("destination_dataset", VString "mart");
                     ("destination_table", VString "sales");
                     ("write_disposition", VString "append")])].

(** A create-definition input without the nested option block. *)
Definition bare_input : value :=
  VObject [("name", VString "daily_sales");
           ("dataWarehouseType", VString "bigquery");
           ("isRunnableConcurrently", VBool true)].

(* ----------------------------------------------------------------- *)
(** *** Traces of the pagination loop *)

(** The four headers of every request. *)
Definition trocco_headers (key : option string) : list (string * string) :=
  [("Accept", "application/json");
   ("Content-Type", "application/json");
   ("User-Agent", "troccomcp/0.1.0");
   ("Authorization", "Token " ++ match key with
                                 | Some k => k
                                 | None => "undefined"
                                 end)].

(** A chain of page exchanges entered with cursor [c]: each request is the
    page request for the cursor in force, and a further exchange follows
    only on an answer that names a cursor, for that cursor. *)
Fixpoint chained (key : option string) (url : string)
  (params : list (string * value)) (options : RequestOptions) (c : value)
  (log : list Exchange) : Prop :=
  match log with
  | [] => True
  | e :: rest =>
      sent e = page_request key url params options c
      /\ (rest = []
          \/ (nullish (answer_cursor (received e)) = false
              /\ chained key url params options (answer_cursor (received e)) rest))
  end.

(* ----------------------------------------------------------------- *)
(** *** The input types the schemas stand for *)

Definition is_string (v : value) : Prop := exists s, v = VString s.

Definition string_or_absent (v : value) : Prop :=
  v = VUndefined \/ is_string v.

(** The nine connection types. *)
Definition connection_types : list string :=
  ["bigquery"; "gcs"; "google_spreadsheet"; "snowflake"; "mysql"; "s3";
   "salesforce"; "postgresql"; "google_analytics4"].

(** The nested option block of a create-definition input, as
    [z.infer] types it. *)
Definition bigquery_option_ok (o : value) : Prop :=
  (exists props, o = VObject props)
  /\ (exists n, prop o "bigqueryConnectionId" = VNumber n)
  /\ prop o "queryMode" = VString "insert"
  /\ is_string (prop o "query")
  /\ is_string (prop o "destinationDataset")
  /\ is_string (prop o "destinationTable")
  /\ (prop o "writeDisposition" = VString "append"
      \/ prop o "writeDisposition" = VString "truncate").

(** A create-definition input, as [z.infer] types it (with the name not
    empty). *)
Definition create_input_ok (args : value) : Prop :=
  (exists props, args = VObject props)
  /\ (exists n, prop args "name" = VString n /\ n <> "")
  /\ prop args "dataWarehouseType" = VString "bigquery"
  /\ string_or_absent (prop args "description")
  /\ (exists b, prop args "isRunnableConcurrently" = VBool b)
  /\ (prop args "datamartBigqueryOption" = VUndefined
      \/ bigquery_option_ok (prop args "datamartBigqueryOption")).

(** The properties of a parsed object ([[]] for anything else). *)
Definition data_props (v : value) : list (string * value) :=
  match v with
  | VObject props => props
  | _ => []
  end.

(** A schema that hands its input on unchanged. *)
Definition flat (s : Zod.schema) : Prop :=
  forall p v, snd (Zod.run p s v) = v.

(** The pages of a script that all name a cursor. *)
Definition cursor_pages (front : list (list value * string)) : list PaginationResponse :=
  map (fun p => mkPage (fst p) (Some (snd p))) front.

(** The bytes the form-urlencoded serializer lets through or produces:
    letters, digits, [*], [-], [.], [_], and the [+] and [%] of its own
    escapes. *)
Definition form_safe (c : ascii) : bool :=
  let n := nat_of_ascii c in
  ((48 <=? n) && (n <=? 57) || (65 <=? n) && (n <=? 90) || (97 <=? n) && (n <=? 122)
   || (n =? 42) || (n =? 45) || (n =? 46) || (n =? 95) || (n =? 43) || (n =? 37))%nat.

(* ----------------------------------------------------------------- *)
(** *** The tool registry *)

Section Registry.

Context {Remote : Type}.

(** The handler registered for [ListToolsRequestSchema].  The conversion
    [zodToJsonSchema] of the zod-to-json-schema package is a parameter. *)
Definition ListToolsRequest_handler (zodToJsonSchema : Zod.schema -> value)
  : M (Remote := Remote) value :=
  ret
    (VObject
       [("tools",
         VArray
           [VObject
              [("name", VString "list_connections");
               ("description", VString "List TROCCO connections of a given type");
               ("inputSchema", zodToJsonSchema ListConnectionsInputSchema)];
            VObject
              [("name", VString "create_datamart_definition");
               ("description", VString "Create a TROCCO datamart definition");
               ("inputSchema", zodToJsonSchema CreateDatamartDefinitionInputSchema)]])]).

End Registry.

(** The tool names of a listing. *)
Definition tool_names (listing : outcome value) : list string :=
  match listing with
  | Return v =>
      match prop v "tools" with
      | VArray tools =>
          flat_map (fun tool => match prop tool "name" with
                                | VString s => [s]
                                | _ => []
                                end) tools
      | _ => []
      end
  | _ => []
  end.

(* ----------------------------------------------------------------- *)
(** *** The second copy of the server

    The repository holds a second copy of the server, without the
    create-definition tool: its [troccoRequest], [withPagination] and
    [ListConnectionsInputSchema] are the ones above, letter for letter; its
    [listConnections] and its dispatcher differ. *)

Module Part000.

Section Program.

Context {Remote : Type}.
Variable server : Remote -> Request -> option Response * Remote.

Definition listConnections (fuel : nat) (input : value) : M (list value) :=
  bind (get input "connectionType") (fun connectionType =>
  let url := "https://trocco.io/api/connections/" ++ ToString connectionType in
  withPagination server fuel url [] no_options).

Definition CallToolRequest_handler (fuel : nat) (request : CallToolRequest)
  : M value :=
  if negb (truthy (arguments request))
  then throw (Error "Arguments are required")
  else if String.eqb (name request) "list_connections" then
    bind (Zod_parse ListConnectionsInputSchema (arguments request)) (fun input =>
    bind (listConnections fuel input) (fun connections =>
    ret (text_content (VArray connections))))
  else throw (Error ("Unknown tool name: " ++ name request)).

End Program.

End Part000.

(* ----------------------------------------------------------------- *)
(** *** Reading the log *)

(** The items of a page answer: [data.items] as the loop iterates it,
    nothing when there is no readable page. *)
Definition answer_items (answer : option Response) : list value :=
  match answer with
  | Some r =>
      match json_body r with
      | Some d =>
          match iterate (prop d "items") with
          | Some page_items => page_items
          | None => []
          end
      | None => []
      end
  | None => []
  end.

(** The message of the error [troccoRequest] throws for a response. *)
Definition status_message (r : Response) : string :=
  "TROCCO API request failed: " ++ Number_toString (status r).

(** A response that cannot be read as a page: a status outside 200..299, a
    body that is not JSON, a decoded body that is null, or one whose [items]
    cannot be iterated. *)
Definition failed_page (r : Response) : Prop :=
  ~ 200 <= status r <= 299
  \/ json_body r = None
  \/ exists d, json_body r = Some d
               /\ (nullish d = true \/ iterate (prop d "items") = None).

(** The cursor in force after the pages [front], entered with [c]. *)
Definition cursor_after (c : value) (front : list (list value * string)) : value :=
  fold_left (fun _ p => VString (snd p)) front c.

(* ----------------------------------------------------------------- *)
(** *** More sample data *)

Definition s3_url : string := "https://trocco.io/api/connections/s3".

Definition endless_page : Response :=
  ok_page (mkPage [VNumber 1] (Some "again")).

Definition tagged_params : list (string * value) :=
  [("type", VString "x"); ("cursor", VString "stale"); ("limit", VString "100")].

Definition nameless_input : value :=
  VObject [("name", VString "");
           ("dataWarehouseType", VString "bigquery");
           ("isRunnableConcurrently", VBool true)].

Definition s3_call : CallToolRequest :=
  mkCall "list_connections"
    (VObject [("connectionType", VString "s3"); ("verbose", VBool true)]).

Definition failing_world : World :=
  mkWorld [ok_page (mkPage [orders_record] (Some "c1")); mkResponse 500 None] None [].

(* ================================================================= *)
(** ** Running the monad *)

Section Facts.

Context {Remote : Type}.
Variable server : Remote -> Request -> option Response * Remote.

Lemma ok_range (r : Response) : ok r = true <-> 200 <= status r <= 299.
Proof.
  unfold ok. rewrite andb_true_iff, !Z.leb_le. tauto.
Qed.

(** [troccoRequest] makes exactly one exchange and settles on its answer. *)
Lemma troccoRequest_run (url : string) (options : RequestOptions) (w : World) :
  troccoRequest server url options w =
  let req := outgoing (TROCCO_API_KEY w) url options in
  (settle (fst (server (remote w) req)),
   after w (snd (server (remote w) req)) req (fst (server (remote w) req))).
Proof.
  unfold troccoRequest, bind, api_key_text, fetch, outgoing, after, settle; simpl.
  destruct (server _ _) as [[r|] remote']; simpl; [|reflexivity].
  destruct (ok r); simpl; [|reflexivity].
  unfold Response_json, decoded, ret, throw.
  destruct (json_body r); reflexivity.
Qed.

End Facts.

(* ================================================================= *)
(** ** Property lists *)

Section PropertyLists.

Context {A : Type}.

Lemma lookup_set_prop (k k' : string) (v : A) (props : list (string * A)) :
  lookup k (set_prop k' v props) = if String.eqb k k' then Some v else lookup k props.
Proof.
  induction props as [|[k0 v0] rest IH]; simpl.
  - reflexivity.
  - destruct (String.eqb k' k0) eqn:E; simpl.
    + apply String.eqb_eq in E; subst k0.
      destruct (String.eqb k k'); reflexivity.
    + rewrite IH. destruct (String.eqb k k0) eqn:E0; [|reflexivity].
      apply String.eqb_eq in E0; subst k0.
      rewrite String.eqb_sym, E. reflexivity.
Qed.

(** Spreading an object that has no key [k] leaves [k] as it was. *)
Lemma lookup_spread_absent (k : string) (b : list (string * A)) :
  lookup k b = None -> forall a, lookup k (spread a b) = lookup k a.
Proof.
  unfold spread.
  induction b as [|[k1 v1] rest IH]; simpl; intros H a.
  - reflexivity.
  - destruct (String.eqb k k1) eqn:E; [discriminate|].
    rewrite IH by assumption. rewrite lookup_set_prop, E. reflexivity.
Qed.

End PropertyLists.

Lemma lookup_URLSearchParams (k : string) (record : list (string * value)) :
  lookup k (URLSearchParams record) = option_map ToString (lookup k record).
Proof.
  unfold URLSearchParams.
  induction record as [|[k0 v0] rest IH]; simpl; [reflexivity|].
  destruct (String.eqb k k0); [reflexivity|exact IH].
Qed.

(** Every page request asks for five items. *)
Lemma page_query_limit (params : list (string * value)) (c : value) :
  lookup "limit" (URLSearchParams (page_query params c)) = Some "5".
Proof.
  rewrite lookup_URLSearchParams. unfold page_query, spread at 1.
  destruct (nullish c); simpl; rewrite !lookup_set_prop; reflexivity.
Qed.

(** The first page request has the cursor parameter of the base parameters,
    that is none when they have none. *)
Lemma page_query_first (params : list (string * value)) (c : value) :
  nullish c = true ->
  lookup "cursor" (URLSearchParams (page_query params c))
  = option_map ToString (lookup "cursor" (spread [] params)).
Proof.
  intros H. rewrite lookup_URLSearchParams. unfold page_query, spread at 1.
  rewrite H; simpl. rewrite lookup_set_prop. reflexivity.
Qed.

(** A later page request carries the cursor it was given. *)
Lemma page_query_cursor (params : list (string * value)) (c : value) :
  nullish c = false ->
  lookup "cursor" (URLSearchParams (page_query params c)) = Some (ToString c).
Proof.
  intros H. rewrite lookup_URLSearchParams. unfold page_query, spread at 1.
  rewrite H; simpl. rewrite !lookup_set_prop. reflexivity.
Qed.

(** With the default [params = {}] the two shapes of the URL. *)
Lemma page_url_first (url : string) :
  page_url url [] VNull = url ++ "?limit=5".
Proof. reflexivity. Qed.

Lemma page_url_next (url c : string) :
  page_url url [] (VString c) = url ++ "?limit=5&cursor=" ++ urlencode c.
Proof. reflexivity. Qed.

(* ================================================================= *)
(** ** One iteration of the pagination loop *)

Section Pagination.

Context {Remote : Type}.
Variable server : Remote -> Request -> option Response * Remote.
Variables (url : string) (params : list (string * value)) (options : RequestOptions).

Lemma fetch_page_run (c : value) (w : World) :
  fetch_page server url params options c w =
  let req := page_request (TROCCO_API_KEY w) url params options c in
  (read_page (settle (fst (server (remote w) req))),
   after w (snd (server (remote w) req)) req (fst (server (remote w) req))).
Proof.
  unfold fetch_page, bind. rewrite troccoRequest_run. simpl.
  fold (page_request (TROCCO_API_KEY w) url params options c).
  destruct (settle _) as [data| |]; simpl; try reflexivity.
  unfold get. destruct (nullish data) eqn:N; simpl; [reflexivity|].
  unfold ret at 1. destruct (iterate (prop data "items")); reflexivity.
Qed.

(** A page that was read names the cursor of its answer. *)
Lemma read_page_cursor (answer : option Response) (page_items : list value)
  (next : value) :
  read_page (settle answer) = Return (page_items, next) ->
  next = answer_cursor answer.
Proof.
  unfold settle, decoded, answer_cursor.
  destruct answer as [r|]; simpl; [|discriminate].
  destruct (ok r); simpl; [|discriminate].
  destruct (json_body r) as [data|]; simpl; [|discriminate].
  destruct (nullish data); [discriminate|].
  destruct (iterate (prop data "items")); [|discriminate].
  intros H; injection H; auto.
Qed.

Lemma read_page_fuel (answer : option Response) :
  read_page (settle answer) <> OutOfFuel.
Proof.
  unfold settle, decoded.
  destruct answer as [r|]; simpl; [|discriminate].
  destruct (ok r); simpl; [|discriminate].
  destruct (json_body r) as [data|]; simpl; [|discriminate].
  destruct (nullish data); [discriminate|].
  destruct (iterate (prop data "items")); discriminate.
Qed.

(** The loop, one iteration unfolded. *)
Lemma withPagination_loop_step (fuel : nat) (acc : list value) (c : value) (w : World) :
  withPagination_loop server (S fuel) url params options acc c w =
  match fetch_page server url params options c w with
  | (Return page, w') =>
      if nullish (snd page)
      then (Return (acc ++ fst page)%list, w')
      else withPagination_loop server fuel url params options (acc ++ fst page)%list
             (snd page) w'
  | (Throw e, w') => (Throw e, w')
  | (OutOfFuel, w') => (OutOfFuel, w')
  end.
Proof.
  simpl. unfold bind.
  destruct (fetch_page server url params options c w) as [[page| |] w']; try reflexivity.
  destruct (nullish (snd page)); reflexivity.
Qed.

End Pagination.

(* ================================================================= *)
(** ** Pagination against a scripted sequence of pages *)

Section Scripted.

Variables (url : string) (params : list (string * value)) (options : RequestOptions).

Lemma fetch_page_scripted (c : value) (p : PaginationResponse)
  (rest : list Response) (key : option string) (log : list Exchange) :
  fetch_page scripted url params options c (mkWorld (ok_page p :: rest) key log)
  = (Return (items p, cursor_value p),
     mkWorld rest key
       (log ++ [mkExchange (page_request key url params options c)
                  (Some (ok_page p))])%list).
Proof.
  rewrite fetch_page_run. simpl. unfold after, cursor_value; simpl.
  destruct (next_cursor p); reflexivity.
Qed.

(** The loop over the scripted pages: every page is requested once, in
    order, each with the cursor of the page before. *)
Lemma withPagination_loop_scripted (front : list (list value * string))
  (last : list value) (rest : list Response) (key : option string) :
  forall (fuel : nat) (acc : list value) (c : value) (log : list Exchange),
    (length front < fuel)%nat ->
    withPagination_loop scripted fuel url params options acc c
      (mkWorld (map ok_page (paged front last) ++ rest)%list key log)
    = (Return (acc ++ concat (map items (paged front last)))%list,
       mkWorld rest key
         (log ++ dialogue key url params options c (paged front last))%list).
Proof.
  induction front as [|[its cur] front IH]; intros fuel acc c log Hfuel;
    (destruct fuel as [|fuel]; [inversion Hfuel|]);
    rewrite withPagination_loop_step.
  - change (map ok_page (paged [] last) ++ rest)%list
      with (ok_page (mkPage last None) :: rest).
    rewrite fetch_page_scripted. simpl. rewrite app_nil_r. reflexivity.
  - change (map ok_page (paged ((its, cur) :: front) last) ++ rest)%list
      with (ok_page (mkPage its (Some cur))
            :: (map ok_page (paged front last) ++ rest)%list).
    rewrite fetch_page_scripted.
    cbn [snd fst cursor_value next_cursor items nullish].
    rewrite IH by (simpl in Hfuel; lia).
    change (paged ((its, cur) :: front) last)
      with (mkPage its (Some cur) :: paged front last).
    cbn [map concat dialogue cursor_value next_cursor items].
    rewrite <- !app_assoc. reflexivity.
Qed.

Lemma requests_app (l1 l2 : list Exchange) :
  requests (l1 ++ l2) = (requests l1 ++ requests l2)%list.
Proof. apply map_app. Qed.

(** The requests of the dialogue are the page requests for the entry cursor
    followed by the cursors of all pages but the last. *)
Lemma requests_dialogue (key : option string) (front : list (list value * string))
  (last : list value) :
  forall c,
    requests (dialogue key url params options c (paged front last))
    = map (page_request key url params options)
        (c :: map (fun p => VString (snd p)) front).
Proof.
  induction front as [|[its cur] front IH]; intros c; simpl.
  - reflexivity.
  - fold (paged front last). unfold requests in *. rewrite IH. reflexivity.
Qed.

End Scripted.

(** C1.  Pagination completeness.  Let the server answer with [N] pages,
    the first [N-1] naming the cursors [c1..cN-1] and the last naming none
    (whatever responses are scripted after them).  Then, with fuel for [N]
    iterations, [withPagination] returns the concatenation of the items of
    the pages in page order and leaves the responses after the [N]-th
    unread; it makes exactly [N] requests, the page requests for no cursor
    and then for [c1..cN-1] in this order; every one of them has the query
    parameter [limit = "5"]; the first has no [cursor] parameter (the base
    [params] having none) and the request after page [i] has
    [cursor = ci].  With the default [params = {}] their URLs are
    [url?limit=5] and [url?limit=5&cursor=ci].  For [N = 1] the single
    request is the cursor-less one and the result is the page's items. *)
Theorem withPagination_complete :
  forall (front : list (list value * string)) (last : list value)
    (rest : list Response) (fuel : nat) (url : string)
    (params : list (string * value)) (options : RequestOptions)
    (key : option string) (log : list Exchange),
    lookup "cursor" params = None ->
    (length front < fuel)%nat ->
    let pages := paged front last in
    let cursors := map (fun p => VString (snd p)) front in
    let run :=
      withPagination scripted fuel url params options
        (mkWorld (map ok_page pages ++ rest)%list key log) in
    fst run = Return (concat (map items pages))
    /\ remote (snd run) = rest
    /\ requests (calls (snd run))
       = (requests log
          ++ map (page_request key url params options) (VNull :: cursors))%list
    /\ length (VNull :: cursors) = length pages
    /\ (forall c, lookup "limit" (URLSearchParams (page_query params c)) = Some "5")
    /\ lookup "cursor" (URLSearchParams (page_query params VNull)) = None
    /\ (forall c : string,
          lookup "cursor" (URLSearchParams (page_query params (VString c))) = Some c)
    /\ page_url url [] VNull = url ++ "?limit=5"
    /\ (forall c : string,
          page_url url [] (VString c) = url ++ "?limit=5&cursor=" ++ urlencode c)
    /\ (front = [] ->
        fst run = Return last
        /\ requests (calls (snd run))
           = (requests log ++ [page_request key url params options VNull])%list).
Proof.
  intros front last rest fuel url params options key log Hcur Hfuel pages cursors run.
  assert (Hrun : run = (Return (concat (map items pages)),
                        mkWorld rest key
                          (log ++ dialogue key url params options VNull pages)%list)).
  { subst run pages. unfold withPagination.
    rewrite withPagination_loop_scripted by assumption. reflexivity. }
  assert (Hreq : requests (calls (snd run))
                 = (requests log
                    ++ map (page_request key url params options) (VNull :: cursors))%list).
  { rewrite Hrun. simpl calls. rewrite requests_app. subst pages.
    rewrite requests_dialogue. reflexivity. }
  split; [rewrite Hrun; reflexivity|].
  split; [rewrite Hrun; reflexivity|].
  split; [exact Hreq|].
  split.
  { subst pages cursors. unfold paged. simpl.
    rewrite length_app, !length_map. simpl. lia. }
  split; [intros c; apply page_query_limit|].
  split.
  { rewrite page_query_first by reflexivity.
    rewrite lookup_spread_absent by assumption. reflexivity. }
  split.
  { intros c. rewrite page_query_cursor by reflexivity. reflexivity. }
  split; [reflexivity|].
  split; [intros c; reflexivity|].
  intros Hfront. split.
  - rewrite Hrun. subst pages. rewrite Hfront. simpl. rewrite app_nil_r. reflexivity.
  - rewrite Hreq. subst cursors. rewrite Hfront. reflexivity.
Qed.

(** C1 at a concrete script of two pages. *)
Lemma withPagination_complete_witness :
  lookup "cursor" ([] : list (string * value)) = None
  /\ (1 < 2)%nat
  /\ fst (withPagination scripted 2 "https://trocco.io/api/connections/s3" []
            no_options
            (mkWorld [ok_page (mkPage [VNumber 1; VNumber 2] (Some "c1"));
                      ok_page (mkPage [VNumber 3] None)] None []))
     = Return [VNumber 1; VNumber 2; VNumber 3].
Proof.
  split; [reflexivity|]. split; [lia|].
  exact (proj1 (withPagination_complete [([VNumber 1; VNumber 2], "c1")] [VNumber 3]
                  [] 2 "https://trocco.io/api/connections/s3" [] no_options None []
                  eq_refl (le_n 2))).
Defined.

(* ================================================================= *)
(** ** Termination of the pagination loop *)

Section Termination.

Context {Remote : Type}.
Variable server : Remote -> Request -> option Response * Remote.
Variables (url : string) (params : list (string * value)) (options : RequestOptions).

(** The loop only adds to the log of calls. *)
Lemma withPagination_loop_log (fuel : nat) :
  forall (acc : list value) (c : value) (w : World),
    exists more,
      calls (snd (withPagination_loop server fuel url params options acc c w))
      = (calls w ++ more)%list.
Proof.
  induction fuel as [|fuel IH]; intros acc c w.
  - exists []. simpl. rewrite app_nil_r. reflexivity.
  - rewrite withPagination_loop_step, fetch_page_run. cbv zeta.
    set (req := page_request (TROCCO_API_KEY w) url params options c).
    destruct (read_page _) as [page| |];
      try (eexists; reflexivity).
    destruct (nullish (snd page)); [eexists; reflexivity|].
    destruct (IH (acc ++ fst page)%list (snd page)
                (after w (snd (server (remote w) req)) req
                   (fst (server (remote w) req)))) as [more Hmore].
    rewrite Hmore. cbn [calls after]. rewrite <- app_assoc. eexists. reflexivity.
Qed.

(** The first thing the loop does is one request, for the cursor it was
    entered with. *)
Lemma withPagination_loop_first (fuel : nat) (acc : list value) (c : value)
  (w : World) :
  exists rest,
    calls (snd (withPagination_loop server (S fuel) url params options acc c w))
    = (calls w
       ++ mkExchange (page_request (TROCCO_API_KEY w) url params options c)
            (fst (server (remote w)
                    (page_request (TROCCO_API_KEY w) url params options c)))
       :: rest)%list.
Proof.
  rewrite withPagination_loop_step, fetch_page_run. cbv zeta.
  set (req := page_request (TROCCO_API_KEY w) url params options c).
  destruct (read_page _) as [page| |];
    try (exists []; reflexivity).
  destruct (nullish (snd page)); [exists []; reflexivity|].
  destruct (withPagination_loop_log fuel (acc ++ fst page)%list (snd page)
              (after w (snd (server (remote w) req)) req
                 (fst (server (remote w) req)))) as [more Hmore].
  rewrite Hmore. cbn [calls after]. rewrite <- app_assoc. exists more. reflexivity.
Qed.

(** A run that returns made its requests up to the first answer naming no
    cursor, and none after it. *)
Lemma withPagination_loop_stops (fuel : nat) :
  forall (acc : list value) (c : value) (w w' : World) (result : list value),
    withPagination_loop server fuel url params options acc c w = (Return result, w') ->
    exists front last,
      calls w' = (calls w ++ front ++ [last])%list
      /\ Forall (fun e => nullish (answer_cursor (received e)) = false) front
      /\ nullish (answer_cursor (received last)) = true.
Proof.
  induction fuel as [|fuel IH]; intros acc c w w' result H.
  - discriminate.
  - rewrite withPagination_loop_step, fetch_page_run in H. cbv zeta in H.
    set (req := page_request (TROCCO_API_KEY w) url params options c) in *.
    destruct (read_page (settle (fst (server (remote w) req)))) as [page| |] eqn:R;
      try discriminate.
    destruct page as [page_items next].
    apply read_page_cursor in R. simpl in H.
    destruct (nullish next) eqn:N.
    + injection H as _ Hw. subst w'. exists [], (mkExchange req (fst (server (remote w) req))).
      simpl. rewrite <- R. auto.
    + apply IH in H. destruct H as (front & last & Hcalls & Hfront & Hlast).
      exists (mkExchange req (fst (server (remote w) req)) :: front), last.
      split; [|split].
      * rewrite Hcalls. simpl. rewrite <- app_assoc. reflexivity.
      * constructor; [simpl; rewrite <- R; exact N|exact Hfront].
      * exact Hlast.
Qed.

(** Against a server that eventually names no cursor the loop ends: from
    some amount of fuel on, every run gives one and the same result, and it
    is not the cut-off. *)
Lemma withPagination_loop_terminates (c : value) (s : Remote) (key : option string) :
  reaches_last_page server key url params options c s ->
  forall (acc : list value) (w : World),
    remote w = s -> TROCCO_API_KEY w = key ->
    exists fuel0 result,
      fst result <> OutOfFuel
      /\ forall fuel, (fuel0 <= fuel)%nat ->
           withPagination_loop server fuel url params options acc c w = result.
Proof.
  induction 1 as [c s Hnull|c s Hlater IH]; intros acc w Hs Hk; subst s key;
    set (req := page_request (TROCCO_API_KEY w) url params options c) in *;
    destruct (read_page (settle (fst (server (remote w) req))))
      as [[page_items next]| |] eqn:R;
    try (exfalso; exact (read_page_fuel _ R)).
  - exists 1%nat. eexists. split; [|intros [|fuel] Hfuel; [lia|]].
    2:{ rewrite withPagination_loop_step, fetch_page_run. cbv zeta.
        fold req. rewrite R. apply read_page_cursor in R.
        cbn [fst snd]. rewrite R, Hnull. reflexivity. }
    discriminate.
  - exists 1%nat. eexists. split; [|intros [|fuel] Hfuel; [lia|]].
    2:{ rewrite withPagination_loop_step, fetch_page_run. cbv zeta.
        fold req. rewrite R. reflexivity. }
    discriminate.
  - pose proof (read_page_cursor _ _ _ R) as Hnext.
    destruct (nullish next) eqn:N.
    + exists 1%nat. eexists. split; [|intros [|fuel] Hfuel; [lia|]].
      2:{ rewrite withPagination_loop_step, fetch_page_run. cbv zeta.
          fold req. rewrite R. cbn [fst snd]. rewrite N. reflexivity. }
      discriminate.
    + destruct (IH (acc ++ page_items)%list
                  (after w (snd (server (remote w) req)) req
                     (fst (server (remote w) req))) eq_refl eq_refl)
        as (fuel0 & result & Hresult & Hfuel0).
      exists (S fuel0), result. split; [exact Hresult|].
      intros [|fuel] Hfuel; [lia|].
      rewrite withPagination_loop_step, fetch_page_run. cbv zeta.
      fold req. rewrite R. cbn [fst snd]. rewrite N, Hnext.
      apply Hfuel0. lia.
  - exists 1%nat. eexists. split; [|intros [|fuel] Hfuel; [lia|]].
    2:{ rewrite withPagination_loop_step, fetch_page_run. cbv zeta.
        fold req. rewrite R. reflexivity. }
    discriminate.
Qed.

End Termination.

Section DoWhile.

Context {Remote : Type}.
Variable server : Remote -> Request -> option Response * Remote.
Variables (url : string) (params : list (string * value)) (options : RequestOptions).

(** A page without items but with a cursor does not end the loop: the next
    request is made, for that cursor. *)
Lemma withPagination_loop_empty_page (fuel : nat) (acc : list value) (c : value)
  (w : World) (r : Response) (data : value) :
  let req := page_request (TROCCO_API_KEY w) url params options c in
  fst (server (remote w) req) = Some r ->
  ok r = true ->
  json_body r = Some data ->
  prop data "items" = VArray [] ->
  nullish (prop data "next_cursor") = false ->
  withPagination_loop server (S fuel) url params options acc c w
  = withPagination_loop server fuel url params options acc (prop data "next_cursor")
      (after w (snd (server (remote w) req)) req (Some r)).
Proof.
  intros req Hr Hok Hbody Hitems Hnext.
  rewrite withPagination_loop_step, fetch_page_run. cbv zeta. fold req.
  rewrite Hr. unfold settle, decoded. rewrite Hok, Hbody.
  assert (Hdata : nullish data = false)
    by (destruct data; try reflexivity; discriminate).
  unfold read_page. rewrite Hdata, Hitems. simpl.
  rewrite Hnext, app_nil_r. reflexivity.
Qed.

End DoWhile.

(** C2.  The loop of [withPagination] is a do-while on the cursor.
    - Entered with any fuel at all, it makes at least one request, the one
      without cursor, whatever the server is and whatever [params] are.
    - An answer whose [items] are empty and whose [next_cursor] is not null
      does not stop it: the request for that cursor follows.
    - A run that returns has made its requests exactly up to the first
      answer whose [next_cursor] is null in the sense of the source's
      [!= null] test (null, or absent from the decoded body): every earlier
      answer named a cursor, the last one names none.
    - If the server, asked page after page, eventually gives an answer that
      names no cursor, then [withPagination] terminates: from some amount of
      fuel on, every run ends with one and the same outcome and world, and
      that outcome is a result or an exception, never the cut-off. *)
Theorem withPagination_do_while :
  forall (Remote : Type) (server : Remote -> Request -> option Response * Remote)
    (url : string) (params : list (string * value)) (options : RequestOptions),
    (forall (fuel : nat) (w : World),
        exists rest,
          calls (snd (withPagination server (S fuel) url params options w))
          = (calls w
             ++ mkExchange (page_request (TROCCO_API_KEY w) url params options VNull)
                  (fst (server (remote w)
                          (page_request (TROCCO_API_KEY w) url params options VNull)))
             :: rest)%list)
    /\ (forall (fuel : nat) (w : World) (r : Response) (data : value),
           let req := page_request (TROCCO_API_KEY w) url params options VNull in
           fst (server (remote w) req) = Some r ->
           ok r = true ->
           json_body r = Some data ->
           prop data "items" = VArray [] ->
           nullish (prop data "next_cursor") = false ->
           exists second rest,
             calls (snd (withPagination server (S (S fuel)) url params options w))
             = (calls w ++ mkExchange req (Some r) :: second :: rest)%list
             /\ sent second
                = page_request (TROCCO_API_KEY w) url params options
                    (prop data "next_cursor"))
    /\ (forall (fuel : nat) (w w' : World) (result : list value),
           withPagination server fuel url params options w = (Return result, w') ->
           exists front last,
             calls w' = (calls w ++ front ++ [last])%list
             /\ Forall (fun e => nullish (answer_cursor (received e)) = false) front
             /\ nullish (answer_cursor (received last)) = true)
    /\ (forall w : World,
           reaches_last_page server (TROCCO_API_KEY w) url params options VNull
             (remote w) ->
           exists fuel0 result,
             fst result <> OutOfFuel
             /\ forall fuel, (fuel0 <= fuel)%nat ->
                  withPagination server fuel url params options w = result).
Proof.
  intros Remote server url params options.
  split; [|split; [|split]].
  - intros fuel w. apply withPagination_loop_first.
  - intros fuel w r data req Hr Hok Hbody Hitems Hnext.
    unfold withPagination.
    rewrite (withPagination_loop_empty_page server url params options (S fuel) []
               VNull w r data Hr Hok Hbody Hitems Hnext).
    fold req.
    destruct (withPagination_loop_first server url params options fuel []
                (prop data "next_cursor")
                (after w (snd (server (remote w) req)) req (Some r)))
      as [rest Hrest].
    rewrite Hrest. cbn [calls after TROCCO_API_KEY remote].
    rewrite <- app_assoc. eexists. exists rest. split; reflexivity.
  - intros fuel w w' result H.
    exact (withPagination_loop_stops server url params options fuel [] VNull w w'
             result H).
  - intros w H.
    exact (withPagination_loop_terminates server url params options VNull (remote w)
             (TROCCO_API_KEY w) H [] w eq_refl eq_refl).
Qed.

(** C2 at a script whose first page is empty but names a cursor: the
    empty page is followed by a second request, the run returns after the
    page without cursor, and it does so for every fuel from some bound on. *)
Lemma withPagination_do_while_witness :
  reaches_last_page scripted None "https://trocco.io/api/connections/s3" []
    no_options VNull empty_then_last
  /\ (exists fuel0 result,
         fst result <> OutOfFuel
         /\ forall fuel, (fuel0 <= fuel)%nat ->
              withPagination scripted fuel "https://trocco.io/api/connections/s3" []
                no_options (mkWorld empty_then_last None [])
              = result)
  /\ (exists second rest,
         requests
           (calls (snd (withPagination scripted 2
                          "https://trocco.io/api/connections/s3" [] no_options
                          (mkWorld empty_then_last None []))))
         = page_request None "https://trocco.io/api/connections/s3" [] no_options VNull
           :: second :: rest
         /\ request_url second
            = "https://trocco.io/api/connections/s3?limit=5&cursor=c1")
  /\ (exists front last,
         calls (snd (withPagination scripted 2
                       "https://trocco.io/api/connections/s3" [] no_options
                       (mkWorld empty_then_last None [])))
         = (front ++ [last])%list
         /\ Forall (fun e => nullish (answer_cursor (received e)) = false) front
         /\ nullish (answer_cursor (received last)) = true).
Proof.
  assert (H : reaches_last_page scripted None "https://trocco.io/api/connections/s3"
                [] no_options VNull empty_then_last).
  { apply last_page_later. apply last_page_now. reflexivity. }
  destruct (withPagination_do_while (list Response) scripted
              "https://trocco.io/api/connections/s3" [] no_options)
    as (_ & Hempty & Hstops & Hends).
  split; [exact H|].
  split; [exact (Hends (mkWorld empty_then_last None []) H)|].
  split.
  - destruct (Hempty 0%nat (mkWorld empty_then_last None [])
                (ok_page (mkPage [] (Some "c1")))
                (page_json (mkPage [] (Some "c1")))
                eq_refl eq_refl eq_refl eq_refl eq_refl)
      as (second & rest & Hcalls & Hsecond).
    exists (sent second), (requests rest). split.
    + rewrite Hcalls. reflexivity.
    + rewrite Hsecond. reflexivity.
  - exact (Hstops 2%nat (mkWorld empty_then_last None []) _ _ eq_refl).
Defined.

(* ================================================================= *)
(** ** The HTTP wrapper *)

(** C5.  [troccoRequest] on an answered request: when the status is outside
    200..299 the call throws [Error("TROCCO API request failed: <status>")],
    the same for every such status and without reading the body; when the
    status is inside, the call settles as [response.json()] does, that is
    with the body decoded as JSON.  And the scenario: if the server answers
    [GET https://trocco.io/api/connections/bigquery?limit=5] with status
    500, the [list_connections] tool called with
    [{connectionType: "bigquery"}] throws
    [Error("TROCCO API request failed: 500")] after that single request. *)
Theorem troccoRequest_status :
  forall (Remote : Type) (server : Remote -> Request -> option Response * Remote),
    (forall (url : string) (options : RequestOptions) (w : World)
        (r : Response) (remote' : Remote),
        let req := outgoing (TROCCO_API_KEY w) url options in
        server (remote w) req = (Some r, remote') ->
        (~ 200 <= status r <= 299 ->
         troccoRequest server url options w
         = (Throw (Error ("TROCCO API request failed: " ++ Number_toString (status r))),
            after w remote' req (Some r)))
        /\ (200 <= status r <= 299 ->
            troccoRequest server url options w
            = (decoded r, after w remote' req (Some r))))
    /\ (forall (fuel : nat) (w : World) (r : Response) (remote' : Remote),
           let req := outgoing (TROCCO_API_KEY w)
                        "https://trocco.io/api/connections/bigquery?limit=5"
                        no_options in
           server (remote w) req = (Some r, remote') ->
           status r = 500 ->
           CallToolRequest_handler server (S fuel)
             (mkCall "list_connections"
                (VObject [("connectionType", VString "bigquery")])) w
           = (Throw (Error "TROCCO API request failed: 500"),
              after w remote' req (Some r))).
Proof.
  intros Remote server. split.
  - intros url options w r remote' req Hserver.
    pose proof (troccoRequest_run server url options w) as Hrun.
    cbv zeta in Hrun. fold req in Hrun. rewrite Hserver in Hrun. simpl in Hrun.
    split; intros Hstatus; rewrite Hrun; f_equal.
    + destruct (ok r) eqn:E; [|reflexivity].
      apply ok_range in E. contradiction.
    + apply ok_range in Hstatus. rewrite Hstatus. reflexivity.
  - intros fuel w r remote' req Hserver Hstatus.
    destruct r as [st decoded_body]. simpl in Hstatus. subst st req.
    cbv in Hserver. cbv. rewrite Hserver. reflexivity.
Qed.

(** C5 at three servers: one that answers everything with status 500, one
    with status 404 and a JSON error body, one with status 200. *)
Lemma troccoRequest_status_witness :
  status (mkResponse 500 None) = 500
  /\ fst (CallToolRequest_handler (constant (mkResponse 500 None)) 1
            (mkCall "list_connections"
               (VObject [("connectionType", VString "bigquery")]))
            (mkWorld tt (Some "secret") []))
     = Throw (Error "TROCCO API request failed: 500")
  /\ ~ 200 <= status (mkResponse 404 (Some (VObject [("error", VString "none")])))
        <= 299
  /\ fst (troccoRequest
            (constant (mkResponse 404 (Some (VObject [("error", VString "none")]))))
            "https://trocco.io/api/connections/gcs?limit=5" no_options
            (mkWorld tt (Some "secret") []))
     = Throw (Error "TROCCO API request failed: 404")
  /\ 200 <= status (mkResponse 200 (Some (page_json (mkPage [] None)))) <= 299
  /\ fst (troccoRequest (constant (mkResponse 200 (Some (page_json (mkPage [] None)))))
            "https://trocco.io/api/connections/gcs?limit=5" no_options
            (mkWorld tt (Some "secret") []))
     = Return (VObject [("items", VArray []); ("next_cursor", VNull)]).
Proof.
  assert (H404 : ~ 200 <= status (mkResponse 404
                                    (Some (VObject [("error", VString "none")])))
                   <= 299) by (simpl; lia).
  assert (H200 : 200 <= status (mkResponse 200 (Some (page_json (mkPage [] None))))
                 <= 299) by (simpl; lia).
  split; [reflexivity|]. split.
  { exact (f_equal fst
             (proj2 (troccoRequest_status unit (constant (mkResponse 500 None)))
                0%nat (mkWorld tt (Some "secret") []) (mkResponse 500 None) tt
                eq_refl eq_refl)). }
  split; [exact H404|]. split.
  { exact (f_equal fst
             (proj1 (proj1 (troccoRequest_status unit
                              (constant (mkResponse 404
                                           (Some (VObject [("error", VString "none")])))))
                       "https://trocco.io/api/connections/gcs?limit=5" no_options
                       (mkWorld tt (Some "secret") []) _ tt eq_refl) H404)). }
  split; [exact H200|].
  exact (f_equal fst
           (proj2 (proj1 (troccoRequest_status unit
                            (constant (mkResponse 200
                                         (Some (page_json (mkPage [] None))))))
                     "https://trocco.io/api/connections/gcs?limit=5" no_options
                     (mkWorld tt (Some "secret") []) _ tt eq_refl) H200)).
Defined.

(** The claim of C9 fails for a body that is present but falsy: with
    [options.body = 0] the serialization is ["0"], yet the request goes out
    without a body.  So it is not true that every body value that is given is
    sent serialized. *)
Lemma troccoRequest_body_counterexample :
  JSON_stringify (VNumber 0) = Some "0"
  /\ map (fun e => init_body (request_init (sent e)))
       (calls (snd (troccoRequest (constant (mkResponse 200 (Some VNull)))
                      "https://trocco.io/api/datamart_definitions"
                      {| method := Some "POST"; body := VNumber 0 |}
                      (mkWorld tt None []))))
     = [None]
  /\ ~ (forall options : RequestOptions,
          body options <> VUndefined ->
          map (fun e => init_body (request_init (sent e)))
            (calls (snd (troccoRequest (constant (mkResponse 200 (Some VNull)))
                           "https://trocco.io/api/datamart_definitions" options
                           (mkWorld tt None []))))
          = [JSON_stringify (body options)]).
Proof.
  split; [reflexivity|]. split; [reflexivity|].
  intros H.
  specialize (H {| method := Some "POST"; body := VNumber 0 |}).
  assert (Hpresent : VNumber 0 <> VUndefined) by discriminate.
  specialize (H Hpresent). vm_compute in H. discriminate H.
Qed.

(** C9, amended.  The request [troccoRequest] sends carries a body exactly
    when [options.body] is truthy, and the body is then the JSON
    serialization of that value; when [options.body] is absent or falsy
    ([undefined], [null], [false], [0], the empty string) the request is
    sent without a body. *)
Theorem troccoRequest_body :
  forall (Remote : Type) (server : Remote -> Request -> option Response * Remote)
    (url : string) (options : RequestOptions) (w : World),
    exists e,
      calls (snd (troccoRequest server url options w)) = (calls w ++ [e])%list
      /\ request_url (sent e) = url
      /\ (truthy (body options) = true ->
          exists text,
            JSON_stringify (body options) = Some text
            /\ init_body (request_init (sent e)) = Some text)
      /\ (truthy (body options) = false ->
          init_body (request_init (sent e)) = None).
Proof.
  intros Remote server url options w.
  rewrite troccoRequest_run. cbv zeta. eexists.
  split; [reflexivity|]. split; [reflexivity|].
  simpl. unfold body_or_undefined. split; intros H; rewrite H.
  - destruct (body options) as [| |[|]| | | |]; try discriminate;
      eexists; split; reflexivity.
  - reflexivity.
Qed.

(** C9 (amended) on an object body, and on the falsy body [null]. *)
Lemma troccoRequest_body_witness :
  truthy (body (mkOptions (Some "POST") (VObject [("name", VString "dm")]))) = true
  /\ (exists e text,
         calls (snd (troccoRequest (constant (mkResponse 200 (Some VNull)))
                       "https://trocco.io/api/datamart_definitions"
                       (mkOptions (Some "POST") (VObject [("name", VString "dm")]))
                       (mkWorld tt None [])))
         = [e]
         /\ JSON_stringify (VObject [("name", VString "dm")]) = Some text
         /\ init_body (request_init (sent e)) = Some text)
  /\ truthy (body (mkOptions (Some "POST") VNull)) = false
  /\ (exists e,
         calls (snd (troccoRequest (constant (mkResponse 200 (Some VNull)))
                       "https://trocco.io/api/datamart_definitions"
                       (mkOptions (Some "POST") VNull) (mkWorld tt None [])))
         = [e]
         /\ init_body (request_init (sent e)) = None).
Proof.
  split; [reflexivity|]. split.
  { destruct (troccoRequest_body unit (constant (mkResponse 200 (Some VNull)))
                "https://trocco.io/api/datamart_definitions"
                (mkOptions (Some "POST") (VObject [("name", VString "dm")]))
                (mkWorld tt None []))
      as (e & Hcalls & _ & Hbody & _).
    destruct (Hbody eq_refl) as (text & Htext & Hinit).
    exists e, text. auto. }
  split; [reflexivity|].
  destruct (troccoRequest_body unit (constant (mkResponse 200 (Some VNull)))
              "https://trocco.io/api/datamart_definitions"
              (mkOptions (Some "POST") VNull) (mkWorld tt None []))
    as (e & Hcalls & _ & _ & Hnone).
  exists e. split; [exact Hcalls|exact (Hnone eq_refl)].
Defined.

(* ================================================================= *)
(** ** Validation and dispatch *)

Lemma mem_In (s : string) (options : list string) :
  Zod.mem s options = true <-> In s options.
Proof.
  unfold Zod.mem. rewrite existsb_exists. split.
  - intros (x & Hx & E). apply String.eqb_eq in E. subst x. exact Hx.
  - intros H. exists s. split; [exact H|apply String.eqb_refl].
Qed.

(** The [list_connections] schema rejects every value whose
    [connectionType] is not one of the nine names. *)
Lemma ListConnectionsInputSchema_rejects (args : value) :
  ~ (exists s, prop args "connectionType" = VString s
               /\ In s ["bigquery"; "gcs"; "google_spreadsheet"; "snowflake"; "mysql";
                        "s3"; "salesforce"; "postgresql"; "google_analytics4"]) ->
  exists issue issues,
    Zod.safeParse ListConnectionsInputSchema args = Zod.Invalid (issue :: issues).
Proof.
  intros H. unfold Zod.safeParse, ListConnectionsInputSchema.
  destruct args as [| |b|n|s|elems|props];
    try (eexists; eexists; reflexivity).
  cbn [Zod.run fst snd].
  destruct (prop (VObject props) "connectionType") as [| |b|n|s|elems|props'] eqn:E;
    try (eexists; eexists; reflexivity).
  destruct (Zod.mem s _) eqn:M.
  - exfalso. apply H. exists s. split; [reflexivity|]. apply mem_In. exact M.
  - eexists; eexists; reflexivity.
Qed.

(** C6.  A [list_connections] call whose arguments are present but whose
    [connectionType] is not one of bigquery, gcs, google_spreadsheet,
    snowflake, mysql, s3, salesforce, postgresql, google_analytics4 (a
    different string, a value that is no string, or no value at all) throws
    a [ZodError] with at least one issue, and the world is as before: no
    request was made. *)
Theorem list_connections_validation :
  forall (Remote : Type) (server : Remote -> Request -> option Response * Remote)
    (fuel : nat) (args : value) (w : World),
    truthy args = true ->
    ~ (exists s, prop args "connectionType" = VString s
                 /\ In s ["bigquery"; "gcs"; "google_spreadsheet"; "snowflake";
                          "mysql"; "s3"; "salesforce"; "postgresql";
                          "google_analytics4"]) ->
    exists issue issues,
      CallToolRequest_handler server fuel (mkCall "list_connections" args) w
      = (Throw (ZodError (issue :: issues)), w)
      /\ calls (snd (CallToolRequest_handler server fuel
                       (mkCall "list_connections" args) w))
         = calls w.
Proof.
  intros Remote server fuel args w Hargs Hout.
  destruct (ListConnectionsInputSchema_rejects args Hout) as (issue & issues & Hparse).
  exists issue, issues.
  assert (Hrun : CallToolRequest_handler server fuel (mkCall "list_connections" args) w
                 = (Throw (ZodError (issue :: issues)), w)).
  { unfold CallToolRequest_handler. cbn [arguments name]. rewrite Hargs.
    cbn [negb String.eqb]. unfold Zod_parse. rewrite Hparse. reflexivity. }
  split; [exact Hrun|]. rewrite Hrun. reflexivity.
Qed.

(** C6 at the connection type [oracle]. *)
Lemma list_connections_validation_witness :
  truthy (VObject [("connectionType", VString "oracle")]) = true
  /\ exists issue issues,
       CallToolRequest_handler scripted 5
         (mkCall "list_connections" (VObject [("connectionType", VString "oracle")]))
         (mkWorld empty_then_last None [])
       = (Throw (ZodError (issue :: issues)), mkWorld empty_then_last None []).
Proof.
  split; [reflexivity|].
  assert (Hout : ~ (exists s,
                       prop (VObject [("connectionType", VString "oracle")])
                         "connectionType" = VString s
                       /\ In s ["bigquery"; "gcs"; "google_spreadsheet"; "snowflake";
                                "mysql"; "s3"; "salesforce"; "postgresql";
                                "google_analytics4"])).
  { intros (s & E & Hin). simpl in E. injection E as <-.
    simpl in Hin. repeat (destruct Hin as [Hin|Hin]; [discriminate Hin|]).
    exact Hin. }
  destruct (list_connections_validation (list Response) scripted 5
              (VObject [("connectionType", VString "oracle")])
              (mkWorld empty_then_last None []) eq_refl Hout)
    as (issue & issues & Hrun & _).
  exists issue, issues. exact Hrun.
Defined.

(** The claim of C7 fails for a call that names an unknown tool and has no
    arguments: the handler reports the missing arguments, not the tool.  So
    it is not true that every call of an unknown tool ends in the
    unknown-tool error. *)
Lemma unknown_tool_counterexample :
  CallToolRequest_handler scripted 5 (mkCall "delete_connection" VUndefined)
    (mkWorld empty_then_last None [])
  = (Throw (Error "Arguments are required"), mkWorld empty_then_last None [])
  /\ ~ (forall request : CallToolRequest,
          name request <> "list_connections" ->
          name request <> "create_datamart_definition" ->
          fst (CallToolRequest_handler scripted 5 request
                 (mkWorld empty_then_last None []))
          = Throw (Error ("Unknown tool name: " ++ name request))).
Proof.
  split; [reflexivity|].
  intros H.
  specialize (H (mkCall "delete_connection" VUndefined)).
  assert (H1 : "delete_connection" <> "list_connections") by discriminate.
  assert (H2 : "delete_connection" <> "create_datamart_definition") by discriminate.
  specialize (H H1 H2). vm_compute in H. discriminate H.
Qed.

(** C7, amended.  A call whose tool name is neither [list_connections] nor
    [create_datamart_definition] fails without any request being made: when
    its arguments are present, with [Error("Unknown tool name: <name>")];
    when they are absent, with [Error("Arguments are required")], which the
    handler checks first. *)
Theorem unknown_tool :
  forall (Remote : Type) (server : Remote -> Request -> option Response * Remote)
    (fuel : nat) (request : CallToolRequest) (w : World),
    name request <> "list_connections" ->
    name request <> "create_datamart_definition" ->
    (truthy (arguments request) = true ->
     CallToolRequest_handler server fuel request w
     = (Throw (Error ("Unknown tool name: " ++ name request)), w))
    /\ (truthy (arguments request) = false ->
        CallToolRequest_handler server fuel request w
        = (Throw (Error "Arguments are required"), w)).
Proof.
  intros Remote server fuel request w H1 H2.
  unfold CallToolRequest_handler.
  apply String.eqb_neq in H1. apply String.eqb_neq in H2.
  split; intros Hargs; rewrite Hargs; cbn [negb].
  - rewrite H1, H2. reflexivity.
  - reflexivity.
Qed.

(** C7 (amended) at the tool name [delete_connection], with and without
    arguments. *)
Lemma unknown_tool_witness :
  name (mkCall "delete_connection" (VObject [])) <> "list_connections"
  /\ name (mkCall "delete_connection" (VObject [])) <> "create_datamart_definition"
  /\ truthy (arguments (mkCall "delete_connection" (VObject []))) = true
  /\ CallToolRequest_handler scripted 5 (mkCall "delete_connection" (VObject []))
       (mkWorld empty_then_last None [])
     = (Throw (Error "Unknown tool name: delete_connection"),
        mkWorld empty_then_last None [])
  /\ truthy (arguments (mkCall "delete_connection" VUndefined)) = false
  /\ CallToolRequest_handler scripted 5 (mkCall "delete_connection" VUndefined)
       (mkWorld empty_then_last None [])
     = (Throw (Error "Arguments are required"), mkWorld empty_then_last None []).
Proof.
  assert (H1 : name (mkCall "delete_connection" (VObject [])) <> "list_connections")
    by discriminate.
  assert (H2 : name (mkCall "delete_connection" (VObject []))
               <> "create_datamart_definition") by discriminate.
  split; [exact H1|]. split; [exact H2|]. split; [reflexivity|]. split.
  { exact (proj1 (unknown_tool (list Response) scripted 5
                    (mkCall "delete_connection" (VObject []))
                    (mkWorld empty_then_last None []) H1 H2) eq_refl). }
  split; [reflexivity|].
  exact (proj2 (unknown_tool (list Response) scripted 5
                  (mkCall "delete_connection" VUndefined)
                  (mkWorld empty_then_last None []) H1 H2) eq_refl).
Defined.

(* ================================================================= *)
(** ** The two tool operations *)

Section Operations.

Context {Remote : Type}.
Variable server : Remote -> Request -> option Response * Remote.

Lemma get_defined (v : value) (k : string) (w : World (Remote := Remote)) :
  nullish v = false -> get v k w = (Return (prop v k), w).
Proof. intros H. unfold get. rewrite H. reflexivity. Qed.

Lemma project_connection_run (connection : value) (w : World (Remote := Remote)) :
  nullish connection = false ->
  project_connection connection w = (Return (projected connection), w).
Proof.
  intros H. unfold project_connection, bind. rewrite !get_defined by assumption.
  reflexivity.
Qed.

Lemma mapM_project_connection (raws : list value) (w : World (Remote := Remote)) :
  Forall (fun r => nullish r = false) raws ->
  mapM project_connection raws w = (Return (map projected raws), w).
Proof.
  induction 1 as [|r raws Hr _ IH]; simpl.
  - reflexivity.
  - unfold bind. rewrite project_connection_run by assumption. rewrite IH.
    reflexivity.
Qed.

Lemma listConnections_run (fuel : nat) (input : value) (w : World) :
  nullish input = false ->
  listConnections server fuel input w
  = bind (withPagination server fuel (connections_url input) [] no_options)
      (mapM project_connection) w.
Proof.
  intros H. unfold listConnections. unfold bind at 1.
  rewrite get_defined by assumption. reflexivity.
Qed.

Lemma datamart_request_body_run (input : value) (w : World (Remote := Remote)) :
  nullish input = false ->
  datamart_request_body input w = (Return (datamart_body input), w).
Proof.
  intros H. unfold datamart_request_body, bind. rewrite !get_defined by assumption.
  reflexivity.
Qed.

(** [createDatamartDefinition] makes one POST and rebuilds the record from
    what comes back. *)
Lemma createDatamartDefinition_run (input : value) (w : World) :
  nullish input = false ->
  let req := datamart_request (TROCCO_API_KEY w) input in
  createDatamartDefinition server input w
  = (match settle (fst (server (remote w) req)) with
     | Return d =>
         if nullish d
         then Throw (TypeError ("Cannot read properties of " ++ ToString d))
         else Return
                (VObject
                   [("id", prop d "id");
                    ("name", prop d "name");
                    ("data_warehouse_type", prop d "data_warehouse_type");
                    ("description", prop d "description");
                    ("is_runnable_concurrently", prop d "is_runnable_concurrently");
                    ("datamart_bigquery_option", prop d "datamart_bigquery_option")])
     | Throw e => Throw e
     | OutOfFuel => OutOfFuel
     end,
     after w (snd (server (remote w) req)) req (fst (server (remote w) req))).
Proof.
  intros H req. unfold createDatamartDefinition. unfold bind at 1.
  rewrite datamart_request_body_run by assumption.
  unfold bind. rewrite troccoRequest_run. cbv zeta.
  fold datamart_url. fold (datamart_request (TROCCO_API_KEY w) input). fold req.
  destruct (settle _) as [d| |]; try reflexivity.
  unfold datamart_result, bind, get.
  destruct (nullish d); reflexivity.
Qed.

End Operations.

(** C4.  Field projection.  Whatever records the pages hold (objects with
    any further fields, in any order), [listConnections] returns, for each
    record in order, an object with the keys [id], [name], [description]
    and no other, each value being the record's own. *)
Theorem listConnections_projection :
  forall (Remote : Type) (server : Remote -> Request -> option Response * Remote)
    (fuel : nat) (input : value) (raws : list value) (w w' : World),
    nullish input = false ->
    withPagination server fuel (connections_url input) [] no_options w
    = (Return raws, w') ->
    Forall (fun r => nullish r = false) raws ->
    exists out,
      listConnections server fuel input w = (Return out, w')
      /\ out = map (fun r => VObject [("id", prop r "id");
                                      ("name", prop r "name");
                                      ("description", prop r "description")]) raws
      /\ Forall2 (fun r o =>
                    exists props,
                      o = VObject props
                      /\ keys props = ["id"; "name"; "description"]
                      /\ forall k, In k ["id"; "name"; "description"] ->
                                   prop o k = prop r k)
           raws out.
Proof.
  intros Remote server fuel input raws w w' Hinput Hpages Hraws.
  exists (map projected raws). split; [|split].
  - rewrite listConnections_run by assumption. unfold bind. rewrite Hpages.
    apply mapM_project_connection. exact Hraws.
  - reflexivity.
  - clear. induction raws as [|r raws IH]; constructor; [|exact IH].
    eexists. split; [reflexivity|]. split; [reflexivity|].
    intros k [<-|[<-|[<-|[]]]]; reflexivity.
Qed.

(** C4 on that page. *)
Lemma listConnections_projection_witness :
  nullish (VObject [("connectionType", VString "mysql")]) = false
  /\ Forall (fun r => nullish r = false) [orders_record]
  /\ exists out,
       fst (listConnections scripted 1 (VObject [("connectionType", VString "mysql")])
              orders_world)
       = Return out
       /\ out = [VObject [("id", VString "7"); ("name", VString "orders");
                          ("description", VString "replica")]].
Proof.
  assert (Hraws : Forall (fun r => nullish r = false) [orders_record])
    by (repeat constructor).
  split; [reflexivity|]. split; [exact Hraws|].
  destruct (listConnections_projection (list Response) scripted 1
              (VObject [("connectionType", VString "mysql")]) [orders_record]
              orders_world
              (snd (withPagination scripted 1
                      (connections_url (VObject [("connectionType", VString "mysql")]))
                      [] no_options orders_world))
              eq_refl eq_refl Hraws) as (out & Hrun & Hout & _).
  exists out. split; [rewrite Hrun; reflexivity|exact Hout].
Defined.

(** C3.  Rename fidelity.  Take a create-definition input with every
    field populated, the nested option block included.
    - The request body has one field per input field, the names being the
      snake_case of the input's camelCase names at both levels, in the same
      order, and every value is the input's value.
    - The operation sends it in one POST whose body is the JSON
      serialization of that object; when every field value serializes, the
      text has one member per field.
    - A 2xx response carrying a full record (id, name, data_warehouse_type,
      description, is_runnable_concurrently, datamart_bigquery_option) is
      returned as that record, value for value; in particular a response
      that echoes the request body under a new id gives back every value
      of the input. *)
Theorem createDatamartDefinition_rename :
  forall (Remote : Type) (server : Remote -> Request -> option Response * Remote)
    (n dwt desc conc cid qm q dd dt wd : value) (w : World),
    let option :=
      [("bigqueryConnectionId", cid); ("queryMode", qm); ("query", q);
       ("destinationDataset", dd); ("destinationTable", dt);
       ("writeDisposition", wd)] in
    let input :=
      [("name", n); ("dataWarehouseType", dwt); ("description", desc);
       ("isRunnableConcurrently", conc); ("datamartBigqueryOption", VObject option)] in
    let option' :=
      [("bigquery_connection_id", cid); ("query_mode", qm); ("query", q);
       ("destination_dataset", dd); ("destination_table", dt);
       ("write_disposition", wd)] in
    let body' :=
      [("name", n); ("data_warehouse_type", dwt); ("description", desc);
       ("is_runnable_concurrently", conc);
       ("datamart_bigquery_option", VObject option')] in
    datamart_request_body (VObject input) w = (Return (VObject body'), w)
    /\ keys body' = map snake_case (keys input)
    /\ keys option' = map snake_case (keys option)
    /\ (exists e,
           calls (snd (createDatamartDefinition server (VObject input) w))
           = (calls w ++ [e])%list
           /\ request_url (sent e) = "https://trocco.io/api/datamart_definitions"
           /\ init_method (request_init (sent e)) = "POST"
           /\ init_body (request_init (sent e)) = JSON_stringify (VObject body'))
    /\ (forall sn sdwt sdesc sconc scid sqm sq sdd sdt swd : string,
           JSON_stringify n = Some sn -> JSON_stringify dwt = Some sdwt ->
           JSON_stringify desc = Some sdesc -> JSON_stringify conc = Some sconc ->
           JSON_stringify cid = Some scid -> JSON_stringify qm = Some sqm ->
           JSON_stringify q = Some sq -> JSON_stringify dd = Some sdd ->
           JSON_stringify dt = Some sdt -> JSON_stringify wd = Some swd ->
           JSON_stringify (VObject body')
           = Some ("{" ++ join ","
                     [QuoteJSONString "name" ++ ":" ++ sn;
                      QuoteJSONString "data_warehouse_type" ++ ":" ++ sdwt;
                      QuoteJSONString "description" ++ ":" ++ sdesc;
                      QuoteJSONString "is_runnable_concurrently" ++ ":" ++ sconc;
                      QuoteJSONString "datamart_bigquery_option" ++ ":"
                      ++ "{" ++ join ","
                           [QuoteJSONString "bigquery_connection_id" ++ ":" ++ scid;
                            QuoteJSONString "query_mode" ++ ":" ++ sqm;
                            QuoteJSONString "query" ++ ":" ++ sq;
                            QuoteJSONString "destination_dataset" ++ ":" ++ sdd;
                            QuoteJSONString "destination_table" ++ ":" ++ sdt;
                            QuoteJSONString "write_disposition" ++ ":" ++ swd]
                      ++ "}"]
                   ++ "}"))
    /\ (forall (r : Response) (remote' : Remote) (i n' dwt' desc' conc' opt' : value),
           let req := datamart_request (TROCCO_API_KEY w) (VObject input) in
           let record :=
             VObject [("id", i); ("name", n'); ("data_warehouse_type", dwt');
                      ("description", desc'); ("is_runnable_concurrently", conc');
                      ("datamart_bigquery_option", opt')] in
           server (remote w) req = (Some r, remote') ->
           200 <= status r <= 299 ->
           json_body r = Some record ->
           createDatamartDefinition server (VObject input) w
           = (Return record, after w remote' req (Some r)))
    /\ (forall (r : Response) (remote' : Remote) (i : value),
           let req := datamart_request (TROCCO_API_KEY w) (VObject input) in
           server (remote w) req = (Some r, remote') ->
           200 <= status r <= 299 ->
           json_body r = Some (VObject (("id", i) :: body')) ->
           createDatamartDefinition server (VObject input) w
           = (Return (VObject (("id", i) :: body')), after w remote' req (Some r))).
Proof.
  intros Remote server n dwt desc conc cid qm q dd dt wd w option input option' body'.
  assert (Hbody : datamart_body (VObject input) = VObject body') by reflexivity.
  assert (Hin : forall (r : Response) (remote' : Remote) (record : value),
             server (remote w) (datamart_request (TROCCO_API_KEY w) (VObject input))
             = (Some r, remote') ->
             200 <= status r <= 299 ->
             json_body r = Some record ->
             nullish record = false ->
             createDatamartDefinition server (VObject input) w
             = (Return
                  (VObject
                     [("id", prop record "id");
                      ("name", prop record "name");
                      ("data_warehouse_type", prop record "data_warehouse_type");
                      ("description", prop record "description");
                      ("is_runnable_concurrently",
                       prop record "is_runnable_concurrently");
                      ("datamart_bigquery_option",
                       prop record "datamart_bigquery_option")]),
                after w remote' (datamart_request (TROCCO_API_KEY w) (VObject input))
                  (Some r))).
  { intros r remote' record Hserver Hstatus Hjson Hrecord.
    rewrite createDatamartDefinition_run by reflexivity. cbv zeta.
    rewrite Hserver. cbn [fst snd settle]. apply ok_range in Hstatus.
    rewrite Hstatus. unfold decoded. rewrite Hjson, Hrecord. reflexivity. }
  split; [|split; [|split; [|split; [|split; [|split]]]]].
  - rewrite datamart_request_body_run by reflexivity. rewrite Hbody. reflexivity.
  - reflexivity.
  - reflexivity.
  - rewrite createDatamartDefinition_run by reflexivity. cbv zeta.
    eexists. split; [reflexivity|]. split; [reflexivity|]. split; [reflexivity|].
    cbn [sent request_init init_body datamart_request outgoing].
    unfold body_or_undefined. cbn [body]. rewrite Hbody. reflexivity.
  - intros sn sdwt sdesc sconc scid sqm sq sdd sdt swd
      Hn Hdwt Hdesc Hconc Hcid Hqm Hq Hdd Hdt Hwd.
    unfold JSON_stringify in *. subst body' option'.
    cbn [SerializeJSONProperty flat_map fst snd String.append].
    rewrite Hn, Hdwt, Hdesc, Hconc, Hcid, Hqm, Hq, Hdd, Hdt, Hwd.
    reflexivity.
  - intros r remote' i n' dwt' desc' conc' opt' req record Hserver Hstatus Hjson.
    rewrite (Hin r remote' record Hserver Hstatus Hjson eq_refl). reflexivity.
  - intros r remote' i req Hserver Hstatus Hjson.
    rewrite (Hin r remote' _ Hserver Hstatus Hjson eq_refl). reflexivity.
Qed.

(** C3 on that input and echo: the record comes back as it is, and the
    body text has a member for each of the eleven fields. *)
Lemma createDatamartDefinition_rename_witness :
  200 <= status (mkResponse 201 (Some sales_record)) <= 299
  /\ fst (createDatamartDefinition (constant (mkResponse 201 (Some sales_record)))
            sales_input (mkWorld tt None []))
     = Return sales_record
  /\ JSON_stringify (datamart_body sales_input)
     = Some ("{" ++ join ","
               [QuoteJSONString "name" ++ ":" ++ QuoteJSONString "daily_sales";
                QuoteJSONString "data_warehouse_type" ++ ":"
                ++ QuoteJSONString "bigquery";
                QuoteJSONString "description" ++ ":"
                ++ QuoteJSONString "sales per day";
                QuoteJSONString "is_runnable_concurrently" ++ ":false";
                QuoteJSONString "datamart_bigquery_option" ++ ":"
                ++ "{" ++ join ","
                     [QuoteJSONString "bigquery_connection_id" ++ ":3";
                      QuoteJSONString "query_mode" ++ ":" ++ QuoteJSONString "insert";
                      QuoteJSONString "query" ++ ":" ++ QuoteJSONString "select 1";
                      QuoteJSONString "destination_dataset" ++ ":"
                      ++ QuoteJSONString "mart";
                      QuoteJSONString "destination_table" ++ ":"
                      ++ QuoteJSONString "sales";
                      QuoteJSONString "write_disposition" ++ ":"
                      ++ QuoteJSONString "append"]
                ++ "}"]
             ++ "}").
Proof.
  assert (Hstatus : 200 <= status (mkResponse 201 (Some sales_record)) <= 299)
    by (simpl; lia).
  split; [exact Hstatus|].
  destruct (createDatamartDefinition_rename unit
              (constant (mkResponse 201 (Some sales_record)))
              (VString "daily_sales") (VString "bigquery") (VString "sales per day")
              (VBool false) (VNumber 3) (VString "insert") (VString "select 1")
              (VString "mart") (VString "sales") (VString "append")
              (mkWorld tt None []))
    as (_ & _ & _ & _ & Htext & Hrecord & Hecho).
  split.
  - exact (f_equal fst
             (Hecho (mkResponse 201 (Some sales_record)) tt (VNumber 42)
                eq_refl Hstatus eq_refl)).
  - exact (Htext _ _ _ _ _ _ _ _ _ _ eq_refl eq_refl eq_refl eq_refl eq_refl
             eq_refl eq_refl eq_refl eq_refl eq_refl).
Defined.

Lemma wrap_compact (opening closing stepback indent : string) (partial : list string) :
  partial <> [] ->
  wrap opening closing "" stepback indent partial
  = opening ++ join "," partial ++ closing.
Proof.
  destruct partial; [congruence|reflexivity].
Qed.

(** C10.  When the input has no [datamartBigqueryOption], the request body
    still has the key [datamart_bigquery_option]; its value is the object
    of the six nested fields, all [undefined], which serializes to [{}]; and
    the body text sent by the POST ends with the member
    ["datamart_bigquery_option":{}]. *)
Theorem createDatamartDefinition_empty_option :
  forall (Remote : Type) (server : Remote -> Request -> option Response * Remote)
    (input : value) (w : World),
    nullish input = false ->
    prop input "datamartBigqueryOption" = VUndefined ->
    exists body_props members e,
      datamart_request_body input w = (Return (VObject body_props), w)
      /\ lookup "datamart_bigquery_option" body_props
         = Some (VObject [("bigquery_connection_id", VUndefined);
                          ("query_mode", VUndefined);
                          ("query", VUndefined);
                          ("destination_dataset", VUndefined);
                          ("destination_table", VUndefined);
                          ("write_disposition", VUndefined)])
      /\ JSON_stringify (VObject [("bigquery_connection_id", VUndefined);
                                  ("query_mode", VUndefined);
                                  ("query", VUndefined);
                                  ("destination_dataset", VUndefined);
                                  ("destination_table", VUndefined);
                                  ("write_disposition", VUndefined)])
         = Some "{}"
      /\ calls (snd (createDatamartDefinition server input w)) = (calls w ++ [e])%list
      /\ init_body (request_init (sent e)) = JSON_stringify (VObject body_props)
      /\ JSON_stringify (VObject body_props)
         = Some ("{" ++ join ","
                          (members
                           ++ [(QuoteJSONString "datamart_bigquery_option"
                                ++ ":{}")%string])%list
                 ++ "}").
Proof.
  intros Remote server input w Hinput Hoption.
  pose proof (datamart_request_body_run input w Hinput) as Hbody.
  unfold datamart_body in Hbody. rewrite Hoption in Hbody.
  cbn [opt_prop nullish] in Hbody.
  eexists. eexists. eexists.
  split; [exact Hbody|].
  split; [reflexivity|].
  split; [reflexivity|].
  split.
  { rewrite createDatamartDefinition_run by assumption. reflexivity. }
  split.
  { cbn [sent request_init init_body datamart_request outgoing].
    unfold body_or_undefined. cbn [body]. unfold datamart_body.
    rewrite Hoption. reflexivity. }
  unfold JSON_stringify.
  match goal with
  | |- SerializeJSONProperty _ _ (VObject [?a; ?b; ?c; ?d; ?e]) = _ =>
      change [a; b; c; d; e] with ([a; b; c; d] ++ [e])%list
  end.
  cbn [SerializeJSONProperty]. rewrite flat_map_app.
  rewrite wrap_compact by (intros H; apply app_eq_nil in H; destruct H; discriminate).
  reflexivity.
Qed.

(** C10 on that input. *)
Lemma createDatamartDefinition_empty_option_witness :
  nullish bare_input = false
  /\ prop bare_input "datamartBigqueryOption" = VUndefined
  /\ exists e,
       calls (snd (createDatamartDefinition (constant (mkResponse 201 (Some VNull)))
                     bare_input (mkWorld tt None [])))
       = [e]
       /\ init_body (request_init (sent e))
          = Some ("{" ++ QuoteJSONString "name" ++ ":" ++ QuoteJSONString "daily_sales"
                  ++ "," ++ QuoteJSONString "data_warehouse_type" ++ ":"
                  ++ QuoteJSONString "bigquery"
                  ++ "," ++ QuoteJSONString "is_runnable_concurrently" ++ ":true"
                  ++ "," ++ QuoteJSONString "datamart_bigquery_option" ++ ":{}}").
Proof.
  split; [reflexivity|]. split; [reflexivity|].
  destruct (createDatamartDefinition_empty_option unit
              (constant (mkResponse 201 (Some VNull))) bare_input
              (mkWorld tt None []) eq_refl eq_refl)
    as (body_props & members & e & Hbody & _ & _ & Hcalls & Hinit & _).
  exists e. split; [exact Hcalls|].
  rewrite Hinit. injection Hbody as <-. reflexivity.
Defined.

(* ----------------------------------------------------------------- *)
(** *** The schema interpreter, field by field *)

Lemma is_undefined_true (v : value) : Zod.is_undefined v = true <-> v = VUndefined.
Proof. destruct v; simpl; split; congruence. Qed.

Lemma run_ZString_issues p n v :
  fst (Zod.run p (Zod.ZString n) v) = []
  <-> exists s, v = VString s /\ (String.length s <? n)%nat = false.
Proof.
  destruct v; simpl; try (split; [discriminate|intros (s0 & H & _); discriminate H]).
  destruct (String.length s <? n)%nat eqn:E; simpl; split; try discriminate.
  - intros (s0 & H & H'). injection H as <-. congruence.
  - eauto.
  - reflexivity.
Qed.

Lemma run_ZEnum_issues p options v :
  fst (Zod.run p (Zod.ZEnum options) v) = []
  <-> exists s, v = VString s /\ In s options.
Proof.
  destruct v; simpl; try (split; [discriminate|intros (s0 & H & _); discriminate H]).
  destruct (Zod.mem s options) eqn:E; simpl; split; try discriminate.
  - intros _. exists s. split; [reflexivity|]. apply mem_In. exact E.
  - reflexivity.
  - intros (s0 & H & H'). injection H as <-. apply mem_In in H'. congruence.
Qed.

Lemma run_ZBoolean_issues p v :
  fst (Zod.run p Zod.ZBoolean v) = [] <-> exists b, v = VBool b.
Proof.
  destruct v; simpl; split; try discriminate; eauto;
    intros (b0 & H); discriminate H.
Qed.

Lemma run_ZNumber_issues p v :
  fst (Zod.run p Zod.ZNumber v) = [] <-> exists n, v = VNumber n.
Proof.
  destruct v; simpl; split; try discriminate; eauto;
    intros (b0 & H); discriminate H.
Qed.

Lemma run_ZOptional_issues p s v :
  fst (Zod.run p (Zod.ZOptional s) v) = []
  <-> v = VUndefined \/ fst (Zod.run p s v) = [].
Proof.
  cbn [Zod.run]. destruct (Zod.is_undefined v) eqn:E.
  - apply is_undefined_true in E. subst v. simpl. tauto.
  - split; [tauto|]. intros [->|H]; [discriminate E|exact H].
Qed.

Lemma run_ZObject_nil p props :
  Zod.run p (Zod.ZObject []) (VObject props) = ([], VObject []).
Proof. reflexivity. Qed.

Lemma run_ZObject_cons p k sk rest props :
  Zod.run p (Zod.ZObject ((k, sk) :: rest)) (VObject props)
  = ((fst (Zod.run (p ++ [k]) sk (prop (VObject props) k))
      ++ fst (Zod.run p (Zod.ZObject rest) (VObject props)))%list,
     VObject
       (if negb (Zod.is_undefined (snd (Zod.run (p ++ [k]) sk (prop (VObject props) k))))
           || Zod.has_key k props
        then (k, snd (Zod.run (p ++ [k]) sk (prop (VObject props) k)))
             :: data_props (snd (Zod.run p (Zod.ZObject rest) (VObject props)))
        else data_props (snd (Zod.run p (Zod.ZObject rest) (VObject props))))).
Proof. reflexivity. Qed.

Lemma run_ZObject_issues p shape v :
  fst (Zod.run p (Zod.ZObject shape) v) = []
  <-> exists props,
        v = VObject props
        /\ Forall (fun ks => fst (Zod.run (p ++ [fst ks]) (snd ks) (prop v (fst ks))) = [])
             shape.
Proof.
  destruct v as [| | | | | |props];
    try (split; [discriminate|intros (props0 & H & _); discriminate H]).
  induction shape as [|[k sk] rest IH].
  - split; [|reflexivity]. intros _. exists props. auto.
  - rewrite run_ZObject_cons. cbn [fst snd]. split.
    + intros H. apply app_eq_nil in H. destruct H as [H1 H2].
      apply IH in H2. destruct H2 as (props0 & _ & H2).
      exists props. split; [reflexivity|]. constructor; assumption.
    + intros (props0 & _ & H). inversion H as [|x l H1 H2]; subst.
      cbn [fst snd] in H1. rewrite H1. cbn [app].
      apply IH. exists props. auto.
Qed.

Lemma run_ZObject_keys p shape props k :
  ~ In k (map fst shape) ->
  lookup k (data_props (snd (Zod.run p (Zod.ZObject shape) (VObject props)))) = None.
Proof.
  induction shape as [|[k0 sk] rest IH]; intros Hk.
  - reflexivity.
  - rewrite run_ZObject_cons. cbn [snd data_props].
    assert (Hrest : ~ In k (map fst rest)) by (intros H; apply Hk; right; exact H).
    destruct (_ || _); [|exact (IH Hrest)].
    cbn [lookup]. destruct (String.eqb k k0) eqn:E; [|exact (IH Hrest)].
    apply String.eqb_eq in E. subst k0. exfalso. apply Hk. left. reflexivity.
Qed.

Lemma run_ZObject_prop p shape props k sk :
  NoDup (map fst shape) ->
  In (k, sk) shape ->
  prop (snd (Zod.run p (Zod.ZObject shape) (VObject props))) k
  = snd (Zod.run (p ++ [k]) sk (prop (VObject props) k)).
Proof.
  induction shape as [|[k0 sk0] rest IH]; intros Hnodup Hin; [destruct Hin|].
  rewrite run_ZObject_cons. cbn [snd]. inversion Hnodup as [|x l Hnot Hrest]; subst.
  destruct Hin as [Heq|Hin].
  - injection Heq as -> ->.
    destruct (negb _ || _) eqn:C.
    + cbn [prop lookup]. rewrite String.eqb_refl. reflexivity.
    + apply orb_false_iff in C. destruct C as [C _].
      apply negb_false_iff, is_undefined_true in C. rewrite C.
      cbn [prop]. rewrite run_ZObject_keys by exact Hnot. reflexivity.
  - assert (Hne : String.eqb k k0 = false).
    { apply String.eqb_neq. intros ->. apply Hnot.
      change k0 with (fst (k0, sk)). apply in_map. exact Hin. }
    specialize (IH Hrest Hin).
    destruct (Zod.run p (Zod.ZObject rest) (VObject props)) as [issues data] eqn:E.
    assert (Hdata : data = VObject (data_props data)).
    { destruct rest as [|[k1 sk1] rest'].
      - rewrite run_ZObject_nil in E. injection E as _ <-. reflexivity.
      - rewrite run_ZObject_cons in E. injection E as _ <-. reflexivity. }
    cbn [snd] in *. destruct (negb _ || _).
    + cbn [prop lookup]. rewrite Hne. rewrite Hdata in IH. exact IH.
    + cbn [prop]. rewrite Hdata in IH. exact IH.
Qed.

Lemma safeParse_valid s v d :
  Zod.safeParse s v = Zod.Valid d
  <-> fst (Zod.run [] s v) = [] /\ snd (Zod.run [] s v) = d.
Proof.
  unfold Zod.safeParse. destruct (Zod.run [] s v) as [[|i more] data]; cbn [fst snd].
  - split; [intros H; injection H as <-; auto|intros [_ ->]; reflexivity].
  - split; [discriminate|intros [H _]; discriminate H].
Qed.

Lemma run_ZDescribe p d s v :
  Zod.run p (Zod.ZDescribe d s) v = Zod.run p s v.
Proof. reflexivity. Qed.

Lemma run_ZOptional p s v :
  Zod.run p (Zod.ZOptional s) v
  = if Zod.is_undefined v then ([], VUndefined) else Zod.run p s v.
Proof. reflexivity. Qed.

Lemma ltb_0 n : (n <? 0)%nat = false.
Proof. destruct n; reflexivity. Qed.

Lemma ltb_1 s : (String.length s <? 1)%nat = false <-> s <> "".
Proof.
  destruct s; simpl; split; try congruence; try discriminate. reflexivity.
Qed.

Ltac split_Forall :=
  repeat match goal with
         | H : Forall _ (_ :: _) |- _ =>
             apply Forall_cons_iff in H; destruct H
         | H : Forall _ [] |- _ => clear H
         end.

Lemma bigquery_option_issues p o :
  fst (Zod.run p
         (Zod.ZObject
            [("bigqueryConnectionId", Zod.ZNumber);
             ("queryMode", Zod.ZEnum ["insert"]);
             ("query", Zod.ZString 0);
             ("destinationDataset", Zod.ZString 0);
             ("destinationTable", Zod.ZString 0);
             ("writeDisposition", Zod.ZEnum ["append"; "truncate"])]) o) = []
  <-> bigquery_option_ok o.
Proof.
  rewrite run_ZObject_issues. unfold bigquery_option_ok, is_string. split.
  - intros (props & -> & HF). split_Forall. cbn [fst snd] in *.
    repeat match goal with
           | H : fst (Zod.run _ Zod.ZNumber _) = [] |- _ => apply run_ZNumber_issues in H
           | H : fst (Zod.run _ (Zod.ZEnum _) _) = [] |- _ =>
               apply run_ZEnum_issues in H; destruct H as (? & ? & ?)
           | H : fst (Zod.run _ (Zod.ZString _) _) = [] |- _ =>
               apply run_ZString_issues in H; destruct H as (? & ? & _)
           end.
    repeat match goal with
           | H : In _ (_ :: _) |- _ => destruct H as [<- | H]
           | H : In _ [] |- _ => destruct H
           end; eauto 12.
  - intros ((props & ->) & Hid & Hqm & (q & Hq) & (dd & Hdd) & (dt & Hdt) & Hwd).
    exists props. split; [reflexivity|].
    repeat (apply Forall_cons; [cbn [fst snd]|]); [..|constructor].
    + apply run_ZNumber_issues. exact Hid.
    + apply run_ZEnum_issues. eexists. split; [exact Hqm|]. left. reflexivity.
    + apply run_ZString_issues. eexists. split; [exact Hq|apply ltb_0].
    + apply run_ZString_issues. eexists. split; [exact Hdd|apply ltb_0].
    + apply run_ZString_issues. eexists. split; [exact Hdt|apply ltb_0].
    + apply run_ZEnum_issues. destruct Hwd as [Hwd|Hwd];
        (eexists; split; [exact Hwd|]); [left|right; left]; reflexivity.
Qed.

Lemma create_issues args :
  fst (Zod.run [] CreateDatamartDefinitionInputSchema args) = []
  <-> create_input_ok args.
Proof.
  unfold CreateDatamartDefinitionInputSchema.
  rewrite run_ZObject_issues. unfold create_input_ok, string_or_absent, is_string.
  split.
  - intros (props & -> & HF). split_Forall. cbn [fst snd] in *.
    rewrite run_ZDescribe in *.
    repeat match goal with
           | H : fst (Zod.run _ Zod.ZBoolean _) = [] |- _ => apply run_ZBoolean_issues in H
           | H : fst (Zod.run _ (Zod.ZEnum _) _) = [] |- _ =>
               apply run_ZEnum_issues in H; destruct H as (? & ? & ?)
           | H : fst (Zod.run _ (Zod.ZString 1) _) = [] |- _ =>
               apply run_ZString_issues in H; destruct H as (? & ? & ?)
           | H : fst (Zod.run _ (Zod.ZOptional _) _) = [] |- _ =>
               apply run_ZOptional_issues in H
           end.
    repeat match goal with
           | H : In _ (_ :: _) |- _ => destruct H as [<- | H]
           | H : In _ [] |- _ => destruct H
           end.
    split; [eauto|]. split; [eexists; split; [eassumption|apply ltb_1; assumption]|].
    split; [assumption|]. split.
    { match goal with
      | H : _ \/ fst (Zod.run _ (Zod.ZString 0) _) = [] |- _ =>
          destruct H as [H|H]; [left; exact H|
                                right; apply run_ZString_issues in H;
                                destruct H as (? & ? & _); eauto]
      end. }
    split; [assumption|].
    match goal with
    | H : _ \/ fst (Zod.run _ (Zod.ZObject _) _) = [] |- _ =>
        destruct H as [H|H]; [left; exact H|right; apply bigquery_option_issues in H; exact H]
    end.
  - intros ((props & ->) & (n & Hn & Hne) & Hdwt & Hdesc & Hirc & Hopt).
    exists props. split; [reflexivity|].
    repeat (apply Forall_cons; [cbn [fst snd]|]); [..|constructor].
    + apply run_ZString_issues. eexists. split; [exact Hn|apply ltb_1; exact Hne].
    + apply run_ZEnum_issues. eexists. split; [exact Hdwt|left; reflexivity].
    + apply run_ZOptional_issues. destruct Hdesc as [H|[d H]]; [left; exact H|right].
      apply run_ZString_issues. eexists. split; [exact H|apply ltb_0].
    + apply run_ZBoolean_issues. exact Hirc.
    + rewrite run_ZDescribe. apply run_ZOptional_issues.
      destruct Hopt as [H|H]; [left; exact H|right].
      apply bigquery_option_issues. exact H.
Qed.

Lemma flat_ZString n : flat (Zod.ZString n).
Proof. intros p v. destruct v; simpl; try reflexivity. destruct (_ <? _)%nat; reflexivity. Qed.

Lemma flat_ZEnum options : flat (Zod.ZEnum options).
Proof. intros p v. destruct v; simpl; try reflexivity. destruct (Zod.mem _ _); reflexivity. Qed.

Lemma flat_ZBoolean : flat Zod.ZBoolean.
Proof. intros p v. destruct v; reflexivity. Qed.

Lemma flat_ZNumber : flat Zod.ZNumber.
Proof. intros p v. destruct v; reflexivity. Qed.

Lemma flat_ZOptional s : flat s -> flat (Zod.ZOptional s).
Proof.
  intros H p v. cbn [Zod.run]. destruct (Zod.is_undefined v) eqn:E.
  - apply is_undefined_true in E. subst v. reflexivity.
  - apply H.
Qed.

Lemma parsed_prop_flat p shape props k sk :
  NoDup (map fst shape) -> In (k, sk) shape -> flat sk ->
  prop (snd (Zod.run p (Zod.ZObject shape) (VObject props))) k = prop (VObject props) k.
Proof.
  intros Hnodup Hin Hflat. rewrite (run_ZObject_prop p shape props k sk Hnodup Hin).
  apply Hflat.
Qed.

Lemma run_ZObject_data p shape props :
  snd (Zod.run p (Zod.ZObject shape) (VObject props))
  = VObject (data_props (snd (Zod.run p (Zod.ZObject shape) (VObject props)))).
Proof.
  destruct shape as [|[k sk] rest]; [reflexivity|].
  rewrite run_ZObject_cons. reflexivity.
Qed.

Ltac nodup_keys :=
  cbn [map fst];
  repeat (constructor; [cbn [In]; intros H;
                        repeat (destruct H as [H|H]; [discriminate H|]); exact H|]);
  constructor.

Ltac in_shape := cbn [In]; repeat (first [left; reflexivity | right]).

Lemma create_parsed_body (args input : value) :
  Zod.safeParse CreateDatamartDefinitionInputSchema args = Zod.Valid input ->
  datamart_body input = datamart_body args.
Proof.
  intros H. apply safeParse_valid in H. destruct H as [Hissues <-].
  apply create_issues in Hissues.
  destruct Hissues as ((props & ->) & _ & _ & _ & _ & Hopt).
  unfold CreateDatamartDefinitionInputSchema.
  set (inner := [("bigqueryConnectionId", Zod.ZNumber);
                 ("queryMode", Zod.ZEnum ["insert"]);
                 ("query", Zod.ZString 0);
                 ("destinationDataset", Zod.ZString 0);
                 ("destinationTable", Zod.ZString 0);
                 ("writeDisposition", Zod.ZEnum ["append"; "truncate"])]).
  set (shape := [("name", Zod.ZString 1);
                 ("dataWarehouseType", Zod.ZEnum ["bigquery"]);
                 ("description", Zod.ZOptional (Zod.ZString 0));
                 ("isRunnableConcurrently", Zod.ZBoolean);
                 ("datamartBigqueryOption",
                  Zod.ZDescribe "required if dataWarehouseType is bigquery"
                    (Zod.ZOptional (Zod.ZObject inner)))]).
  assert (Hshape : NoDup (map fst shape)) by (subst shape; nodup_keys).
  assert (Hinner : NoDup (map fst inner)) by (subst inner; nodup_keys).
  unfold datamart_body.
  rewrite (parsed_prop_flat [] shape props "name" (Zod.ZString 1) Hshape)
    by (first [solve [subst shape; in_shape] | solve [apply flat_ZString]]).
  rewrite (parsed_prop_flat [] shape props "dataWarehouseType" (Zod.ZEnum ["bigquery"])
             Hshape)
    by (first [solve [subst shape; in_shape] | solve [apply flat_ZEnum]]).
  rewrite (parsed_prop_flat [] shape props "description" (Zod.ZOptional (Zod.ZString 0))
             Hshape)
    by (first [solve [subst shape; in_shape] | solve [apply flat_ZOptional, flat_ZString]]).
  rewrite (parsed_prop_flat [] shape props "isRunnableConcurrently" Zod.ZBoolean Hshape)
    by (first [solve [subst shape; in_shape] | solve [apply flat_ZBoolean]]).
  rewrite (run_ZObject_prop [] shape props "datamartBigqueryOption" _ Hshape)
    by (subst shape; in_shape).
  rewrite run_ZDescribe, run_ZOptional.
  destruct Hopt as [Hopt|((oprops & Hopt) & _)]; rewrite Hopt;
    cbn [Zod.is_undefined]; [reflexivity|].
  unfold opt_prop. rewrite run_ZObject_data. cbn [nullish].
  rewrite <- run_ZObject_data.
  rewrite (parsed_prop_flat _ inner oprops "bigqueryConnectionId" Zod.ZNumber Hinner)
    by (first [solve [subst inner; in_shape] | solve [apply flat_ZNumber]]).
  rewrite (parsed_prop_flat _ inner oprops "queryMode" (Zod.ZEnum ["insert"]) Hinner)
    by (first [solve [subst inner; in_shape] | solve [apply flat_ZEnum]]).
  rewrite (parsed_prop_flat _ inner oprops "query" (Zod.ZString 0) Hinner)
    by (first [solve [subst inner; in_shape] | solve [apply flat_ZString]]).
  rewrite (parsed_prop_flat _ inner oprops "destinationDataset" (Zod.ZString 0) Hinner)
    by (first [solve [subst inner; in_shape] | solve [apply flat_ZString]]).
  rewrite (parsed_prop_flat _ inner oprops "destinationTable" (Zod.ZString 0) Hinner)
    by (first [solve [subst inner; in_shape] | solve [apply flat_ZString]]).
  rewrite (parsed_prop_flat _ inner oprops "writeDisposition"
             (Zod.ZEnum ["append"; "truncate"]) Hinner)
    by (first [solve [subst inner; in_shape] | solve [apply flat_ZEnum]]).
  reflexivity.
Qed.

(* ----------------------------------------------------------------- *)
(** *** The two schemas *)

Lemma list_issues args :
  fst (Zod.run [] ListConnectionsInputSchema args) = []
  <-> exists props t,
        args = VObject props
        /\ prop args "connectionType" = VString t
        /\ In t connection_types.
Proof.
  unfold ListConnectionsInputSchema. rewrite run_ZObject_issues. split.
  - intros (props & -> & HF). split_Forall. cbn [fst snd] in *.
    match goal with
    | H : fst (Zod.run _ (Zod.ZEnum _) _) = [] |- _ =>
        apply run_ZEnum_issues in H; destruct H as (t & Ht & Hin)
    end.
    exists props, t. auto.
  - intros (props & t & -> & Ht & Hin). exists props. split; [reflexivity|].
    constructor; [|constructor]. cbn [fst snd]. apply run_ZEnum_issues. eauto.
Qed.

Lemma list_parsed (props : list (string * value)) (t : string) :
  prop (VObject props) "connectionType" = VString t ->
  In t connection_types ->
  Zod.safeParse ListConnectionsInputSchema (VObject props)
  = Zod.Valid (VObject [("connectionType", VString t)]).
Proof.
  intros Ht Hin. apply safeParse_valid. split.
  - apply list_issues. eauto.
  - unfold ListConnectionsInputSchema. rewrite run_ZObject_cons, run_ZObject_nil.
    cbn [snd data_props]. rewrite flat_ZEnum, Ht. reflexivity.
Qed.

Lemma safeParse_invalid_cons s v issues :
  Zod.safeParse s v = Zod.Invalid issues -> exists issue more, issues = issue :: more.
Proof.
  unfold Zod.safeParse. destruct (Zod.run [] s v) as [[|i more] data]; [discriminate|].
  intros H. injection H as <-. eauto.
Qed.

Lemma create_valid_iff args :
  (exists input, Zod.safeParse CreateDatamartDefinitionInputSchema args = Zod.Valid input)
  <-> create_input_ok args.
Proof.
  rewrite <- create_issues. split.
  - intros [input H]. apply safeParse_valid in H. tauto.
  - intros H. eexists. apply safeParse_valid. split; [exact H|reflexivity].
Qed.

Lemma sales_input_ok : create_input_ok sales_input.
Proof.
  unfold create_input_ok, sales_input.
  split; [eexists; reflexivity|].
  split; [exists "daily_sales"; split; [reflexivity|discriminate]|].
  split; [reflexivity|].
  split; [right; eexists; reflexivity|].
  split; [eexists; reflexivity|].
  right. unfold bigquery_option_ok.
  split; [eexists; reflexivity|].
  split; [eexists; reflexivity|].
  split; [reflexivity|].
  split; [eexists; reflexivity|].
  split; [eexists; reflexivity|].
  split; [eexists; reflexivity|].
  left. reflexivity.
Qed.

(** The create-definition schema accepts an object without the nested
    option block, and what it hands on gives the same request body. *)
Lemma CreateDatamartDefinitionInputSchema_accepts (props : list (string * value))
  (n : string) (b : bool) :
  prop (VObject props) "name" = VString n ->
  n <> "" ->
  prop (VObject props) "dataWarehouseType" = VString "bigquery" ->
  (prop (VObject props) "description" = VUndefined
   \/ exists d, prop (VObject props) "description" = VString d) ->
  prop (VObject props) "isRunnableConcurrently" = VBool b ->
  prop (VObject props) "datamartBigqueryOption" = VUndefined ->
  exists input,
    Zod.safeParse CreateDatamartDefinitionInputSchema (VObject props) = Zod.Valid input
    /\ nullish input = false
    /\ datamart_body input = datamart_body (VObject props).
Proof.
  intros Hname Hn Hdwt Hdesc Hconc Hopt.
  assert (Hok : create_input_ok (VObject props)).
  { unfold create_input_ok, string_or_absent, is_string.
    split; [eauto|]. split; [eauto|]. split; [exact Hdwt|].
    split; [exact Hdesc|]. split; [eauto|]. left. exact Hopt. }
  destruct (proj2 (create_valid_iff (VObject props)) Hok) as [input Hparse].
  exists input. split; [exact Hparse|].
  split; [|exact (create_parsed_body (VObject props) input Hparse)].
  apply safeParse_valid in Hparse. destruct Hparse as [_ <-].
  unfold CreateDatamartDefinitionInputSchema. rewrite run_ZObject_data. reflexivity.
Qed.

(** C8.  A create-definition call with [dataWarehouseType = "bigquery"], a
    non-empty name, a boolean [isRunnableConcurrently], a description that is
    a string or absent, and no [datamartBigqueryOption] passes validation,
    and the POST to [/datamart_definitions] is made: it is the one request
    of the call. *)
Theorem create_without_bigquery_option :
  forall (Remote : Type) (server : Remote -> Request -> option Response * Remote)
    (fuel : nat) (props : list (string * value)) (n : string) (b : bool) (w : World),
    prop (VObject props) "name" = VString n ->
    n <> "" ->
    prop (VObject props) "dataWarehouseType" = VString "bigquery" ->
    (prop (VObject props) "description" = VUndefined
     \/ exists d, prop (VObject props) "description" = VString d) ->
    prop (VObject props) "isRunnableConcurrently" = VBool b ->
    prop (VObject props) "datamartBigqueryOption" = VUndefined ->
    (exists input,
        Zod.safeParse CreateDatamartDefinitionInputSchema (VObject props)
        = Zod.Valid input)
    /\ exists e,
         calls (snd (CallToolRequest_handler server fuel
                       (mkCall "create_datamart_definition" (VObject props)) w))
         = (calls w ++ [e])%list
         /\ sent e = datamart_request (TROCCO_API_KEY w) (VObject props)
         /\ request_url (sent e) = "https://trocco.io/api/datamart_definitions"
         /\ init_method (request_init (sent e)) = "POST".
Proof.
  intros Remote server fuel props n b w Hname Hn Hdwt Hdesc Hconc Hopt.
  destruct (CreateDatamartDefinitionInputSchema_accepts props n b
              Hname Hn Hdwt Hdesc Hconc Hopt) as (input & Hparse & Hinput & Hbody).
  split; [exists input; exact Hparse|].
  exists (mkExchange (datamart_request (TROCCO_API_KEY w) (VObject props))
            (fst (server (remote w)
                    (datamart_request (TROCCO_API_KEY w) (VObject props))))).
  split; [|split; [reflexivity|split; reflexivity]].
  unfold CallToolRequest_handler. cbn [arguments name truthy negb].
  change (String.eqb "create_datamart_definition" "list_connections") with false.
  change (String.eqb "create_datamart_definition" "create_datamart_definition")
    with true.
  cbv iota. unfold Zod_parse. rewrite Hparse. unfold bind at 1. unfold ret at 1.
  unfold bind. rewrite createDatamartDefinition_run by assumption. cbv zeta.
  unfold datamart_request. rewrite Hbody.
  destruct (match settle _ with Return _ => _ | Throw _ => _ | OutOfFuel => _ end);
    reflexivity.
Qed.

(** C8 on the input without option block. *)
Lemma create_without_bigquery_option_witness :
  prop bare_input "name" = VString "daily_sales"
  /\ "daily_sales" <> ""
  /\ prop bare_input "dataWarehouseType" = VString "bigquery"
  /\ prop bare_input "description" = VUndefined
  /\ prop bare_input "isRunnableConcurrently" = VBool true
  /\ prop bare_input "datamartBigqueryOption" = VUndefined
  /\ exists e,
       calls (snd (CallToolRequest_handler (constant (mkResponse 201 (Some VNull))) 0
                     (mkCall "create_datamart_definition" bare_input)
                     (mkWorld tt None [])))
       = [e]
       /\ request_url (sent e) = "https://trocco.io/api/datamart_definitions"
       /\ init_method (request_init (sent e)) = "POST".
Proof.
  assert (Hn : "daily_sales" <> "") by discriminate.
  repeat (split; [first [reflexivity | exact Hn]|]).
  destruct (create_without_bigquery_option unit
              (constant (mkResponse 201 (Some VNull))) 0
              [("name", VString "daily_sales");
               ("dataWarehouseType", VString "bigquery");
               ("isRunnableConcurrently", VBool true)]
              "daily_sales" true (mkWorld tt None [])
              eq_refl Hn eq_refl (or_introl eq_refl) eq_refl eq_refl)
    as (_ & e & Hcalls & _ & Hurl & Hmethod).
  exists e. split; [exact Hcalls|]. split; assumption.
Defined.

(* ================================================================= *)
(** ** The trace of a pagination run *)

Section Trace.

Context {Remote : Type}.
Variable server : Remote -> Request -> option Response * Remote.
Variables (url : string) (params : list (string * value)) (options : RequestOptions).

Lemma withPagination_loop_chained (fuel : nat) :
  forall (acc : list value) (c : value) (w : World),
    exists new,
      calls (snd (withPagination_loop server fuel url params options acc c w))
      = (calls w ++ new)%list
      /\ chained (TROCCO_API_KEY w) url params options c new
      /\ (length new <= fuel)%nat
      /\ TROCCO_API_KEY (snd (withPagination_loop server fuel url params options acc c w))
         = TROCCO_API_KEY w.
Proof.
  induction fuel as [|fuel IH]; intros acc c w.
  - exists []. simpl. rewrite app_nil_r. auto.
  - rewrite withPagination_loop_step, fetch_page_run. cbv zeta.
    set (req := page_request (TROCCO_API_KEY w) url params options c).
    set (answer := fst (server (remote w) req)).
    set (w1 := after w (snd (server (remote w) req)) req answer).
    assert (Hone : exists new,
               calls w1 = (calls w ++ new)%list
               /\ chained (TROCCO_API_KEY w) url params options c new
               /\ (length new <= S fuel)%nat
               /\ TROCCO_API_KEY w1 = TROCCO_API_KEY w).
    { exists [mkExchange req answer]. simpl. repeat split; auto. lia. }
    destruct (read_page (settle answer)) as [[page_items next]| |] eqn:R;
      try exact Hone.
    cbn [fst snd]. destruct (nullish next) eqn:N; [exact Hone|].
    apply read_page_cursor in R.
    destruct (IH (acc ++ page_items)%list next w1) as (new & Hcalls & Hchain & Hlen & Hkey).
    exists (mkExchange req answer :: new).
    split; [|split; [|split]].
    + rewrite Hcalls. subst w1. cbn [calls after]. rewrite <- app_assoc. reflexivity.
    + cbn [chained sent received]. split; [reflexivity|].
      right. rewrite <- R. split; [exact N|exact Hchain].
    + simpl. lia.
    + rewrite Hkey. reflexivity.
Qed.

End Trace.

(** X1.  Whatever the server does, the requests of a [withPagination] run
    form a cursor chain: the first is the page request without cursor, each
    later one is the page request for the cursor the answer before it named,
    and no request follows an answer that names none.  There are never more
    requests than iterations allowed, all of them go to the same URL with the
    same options, and the API key of the environment is left as it was. *)
Theorem withPagination_chained :
  forall (Remote : Type) (server : Remote -> Request -> option Response * Remote)
    (fuel : nat) (url : string) (params : list (string * value))
    (options : RequestOptions) (w : World),
    exists new,
      calls (snd (withPagination server fuel url params options w))
      = (calls w ++ new)%list
      /\ chained (TROCCO_API_KEY w) url params options VNull new
      /\ (length new <= fuel)%nat
      /\ TROCCO_API_KEY (snd (withPagination server fuel url params options w))
         = TROCCO_API_KEY w.
Proof.
  intros. apply withPagination_loop_chained.
Qed.

(* ================================================================= *)
(** ** The trace of a tool call *)

Lemma safeParse_object (shape : list (string * Zod.schema)) (v data : value) :
  Zod.safeParse (Zod.ZObject shape) v = Zod.Valid data ->
  exists props, data = VObject props.
Proof.
  unfold Zod.safeParse.
  destruct v; try discriminate.
  destruct (Zod.run [] (Zod.ZObject shape) (VObject props)) as [issues out] eqn:E.
  cbn [Zod.run] in E. injection E as _ <-.
  destruct issues; [|discriminate].
  intros H. injection H as <-. eexists. reflexivity.
Qed.

Lemma chained_requests (key : option string) (url : string)
  (params : list (string * value)) (options : RequestOptions) :
  forall (log : list Exchange) (c : value),
    chained key url params options c log ->
    Forall (fun e => exists c', sent e = page_request key url params options c') log.
Proof.
  induction log as [|e rest IH]; intros c H; constructor.
  - destruct H as [H _]. exists c. exact H.
  - destruct H as [_ [->|[_ H]]]; [constructor|exact (IH _ H)].
Qed.

Section ToolCall.

Context {Remote : Type}.
Variable server : Remote -> Request -> option Response * Remote.

Lemma mapM_project_connection_world (raws : list value) (w : World (Remote := Remote)) :
  snd (mapM project_connection raws w) = w.
Proof.
  induction raws as [|r raws IH]; simpl; [reflexivity|].
  unfold bind. destruct (nullish r) eqn:N.
  - unfold project_connection, bind, get. rewrite N. reflexivity.
  - rewrite project_connection_run by assumption.
    destruct (mapM project_connection raws w) as [[out| |] w'] eqn:E;
      simpl in IH; subst w'; reflexivity.
Qed.

Lemma handler_list_connections (fuel : nat) (args input : value) (w : World) :
  truthy args = true ->
  Zod.safeParse ListConnectionsInputSchema args = Zod.Valid input ->
  CallToolRequest_handler server fuel (mkCall "list_connections" args) w
  = match withPagination server fuel (connections_url input) [] no_options w with
    | (Return raws, w') =>
        match mapM project_connection raws w' with
        | (Return out, w'') => (Return (text_content (VArray out)), w'')
        | (Throw e, w'') => (Throw e, w'')
        | (OutOfFuel, w'') => (OutOfFuel, w'')
        end
    | (Throw e, w') => (Throw e, w')
    | (OutOfFuel, w') => (OutOfFuel, w')
    end.
Proof.
  intros Hargs Hparse. unfold CallToolRequest_handler. cbn [arguments name].
  rewrite Hargs. cbn [negb].
  change (String.eqb "list_connections" "list_connections") with true. cbv iota.
  unfold Zod_parse. rewrite Hparse.
  destruct (safeParse_object _ _ _ Hparse) as [props ->].
  unfold bind at 1. unfold ret at 1. unfold bind at 1.
  rewrite listConnections_run by reflexivity. unfold bind at 1.
  destruct (withPagination server fuel _ [] no_options w) as [[raws| |] w'];
    reflexivity.
Qed.

Lemma handler_create_datamart_definition (fuel : nat) (args input : value)
  (w : World) :
  truthy args = true ->
  Zod.safeParse CreateDatamartDefinitionInputSchema args = Zod.Valid input ->
  CallToolRequest_handler server fuel (mkCall "create_datamart_definition" args) w
  = match createDatamartDefinition server input w with
    | (Return result, w') => (Return (text_content result), w')
    | (Throw e, w') => (Throw e, w')
    | (OutOfFuel, w') => (OutOfFuel, w')
    end.
Proof.
  intros Hargs Hparse. unfold CallToolRequest_handler. cbn [arguments name].
  rewrite Hargs. cbn [negb].
  change (String.eqb "create_datamart_definition" "list_connections") with false.
  change (String.eqb "create_datamart_definition" "create_datamart_definition")
    with true.
  cbv iota. unfold Zod_parse. rewrite Hparse.
  unfold bind at 1. unfold ret at 1. unfold bind at 1.
  destruct (createDatamartDefinition server input w) as [[result| |] w'];
    reflexivity.
Qed.

Lemma handler_invalid (fuel : nat) (tool : string) (args : value)
  (issues : list Zod.ZodIssue) (w : World) :
  truthy args = true ->
  (tool = "list_connections"
   /\ Zod.safeParse ListConnectionsInputSchema args = Zod.Invalid issues)
  \/ (tool = "create_datamart_definition"
      /\ Zod.safeParse CreateDatamartDefinitionInputSchema args = Zod.Invalid issues) ->
  CallToolRequest_handler server fuel (mkCall tool args) w
  = (Throw (ZodError issues), w).
Proof.
  intros Hargs [[-> Hparse]|[-> Hparse]];
    unfold CallToolRequest_handler; cbn [arguments name]; rewrite Hargs; cbn [negb].
  - change (String.eqb "list_connections" "list_connections") with true. cbv iota.
    unfold Zod_parse. rewrite Hparse. reflexivity.
  - change (String.eqb "create_datamart_definition" "list_connections") with false.
    change (String.eqb "create_datamart_definition" "create_datamart_definition")
      with true.
    cbv iota. unfold Zod_parse. rewrite Hparse. reflexivity.
Qed.

(** What a tool call adds to the log of calls: nothing; or, for valid
    [list_connections] arguments, a chain of page requests; or, for valid
    [create_datamart_definition] arguments, the one POST. *)
Lemma CallToolRequest_handler_trace (fuel : nat) (request : CallToolRequest)
  (w : World) :
  exists new,
    calls (snd (CallToolRequest_handler server fuel request w)) = (calls w ++ new)%list
    /\ TROCCO_API_KEY (snd (CallToolRequest_handler server fuel request w))
       = TROCCO_API_KEY w
    /\ (new = []
        \/ (truthy (arguments request) = true
            /\ name request = "list_connections"
            /\ exists input,
                 Zod.safeParse ListConnectionsInputSchema (arguments request)
                 = Zod.Valid input
                 /\ chained (TROCCO_API_KEY w) (connections_url input) [] no_options
                      VNull new)
        \/ (truthy (arguments request) = true
            /\ name request = "create_datamart_definition"
            /\ exists input,
                 Zod.safeParse CreateDatamartDefinitionInputSchema (arguments request)
                 = Zod.Valid input
                 /\ new = [mkExchange (datamart_request (TROCCO_API_KEY w) input)
                             (fst (server (remote w)
                                     (datamart_request (TROCCO_API_KEY w) input)))])).
Proof.
  destruct request as [tool args]. cbn [arguments name].
  match goal with
  | |- ?G =>
      assert (Hweak : forall o : outcome value,
                 CallToolRequest_handler server fuel (mkCall tool args) w = (o, w) -> G)
  end.
  { intros o Ho. rewrite Ho. exists []. rewrite app_nil_r. auto. }
  destruct (truthy args) eqn:Hargs.
  2:{ apply (Hweak (Throw (Error "Arguments are required"))).
      unfold CallToolRequest_handler. cbn [arguments name]. rewrite Hargs.
      reflexivity. }
  destruct (String.eqb tool "list_connections") eqn:Hlist.
  { apply String.eqb_eq in Hlist. subst tool.
    destruct (Zod.safeParse ListConnectionsInputSchema args) as [input|issues] eqn:Hparse.
    2:{ apply (Hweak (Throw (ZodError issues))). apply handler_invalid; auto. }
    rewrite (handler_list_connections fuel args input w Hargs Hparse).
    destruct (withPagination_chained Remote server fuel
                (connections_url input) [] no_options w)
      as (new & Hcalls & Hchain & _ & Hkey).
    exists new.
    destruct (withPagination server fuel (connections_url input) [] no_options w)
      as [[raws| |] w1]; cbn [snd] in *.
    - pose proof (mapM_project_connection_world raws w1) as Hw.
      destruct (mapM project_connection raws w1) as [[out| |] w2];
        cbn [snd] in *; subst w2;
        (split; [exact Hcalls|]); (split; [exact Hkey|]);
        right; left; eauto 10.
    - split; [exact Hcalls|]. split; [exact Hkey|]. right; left; eauto 10.
    - split; [exact Hcalls|]. split; [exact Hkey|]. right; left; eauto 10. }
  destruct (String.eqb tool "create_datamart_definition") eqn:Hcreate.
  { apply String.eqb_eq in Hcreate. subst tool.
    destruct (Zod.safeParse CreateDatamartDefinitionInputSchema args)
      as [input|issues] eqn:Hparse.
    2:{ apply (Hweak (Throw (ZodError issues))). apply handler_invalid; auto. }
    rewrite (handler_create_datamart_definition fuel args input w Hargs Hparse).
    destruct (safeParse_object _ _ _ Hparse) as [props ->].
    rewrite createDatamartDefinition_run by reflexivity. cbv zeta.
    eexists.
    destruct (match settle _ with Return _ => _ | Throw _ => _ | OutOfFuel => _ end);
      (split; [reflexivity|]); (split; [reflexivity|]); right; right; eauto 10. }
  apply (Hweak (Throw (Error ("Unknown tool name: " ++ tool)))).
  unfold CallToolRequest_handler. cbn [arguments name]. rewrite Hargs, Hlist, Hcreate.
  reflexivity.
Qed.

End ToolCall.

(* ================================================================= *)
(** ** Validation of create-definition arguments *)

(** X16.  [CreateDatamartDefinitionInputSchema] accepts exactly the
    objects of its input type: a non-empty string [name],
    [dataWarehouseType = "bigquery"], a [description] that is a string or
    absent, a boolean [isRunnableConcurrently] and a
    [datamartBigqueryOption] that is absent or complete and well-typed (a
    partial block is rejected).  The parsed input gives the same request
    body as the arguments; arguments outside the type make the call throw a
    [ZodError] with the world untouched. *)
Theorem create_datamart_definition_arguments :
  forall (Remote : Type) (server : Remote -> Request -> option Response * Remote)
    (fuel : nat) (args : value) (w : World),
    ((exists input,
         Zod.safeParse CreateDatamartDefinitionInputSchema args = Zod.Valid input)
     <-> create_input_ok args)
    /\ (forall input,
           Zod.safeParse CreateDatamartDefinitionInputSchema args = Zod.Valid input ->
           datamart_body input = datamart_body args)
    /\ (truthy args = true ->
        ~ create_input_ok args ->
        exists issue issues,
          CallToolRequest_handler server fuel
            (mkCall "create_datamart_definition" args) w
          = (Throw (ZodError (issue :: issues)), w)).
Proof.
  intros Remote server fuel args w. split; [apply create_valid_iff|].
  split; [intros input; apply create_parsed_body|].
  intros Hargs Hbad.
  destruct (Zod.safeParse CreateDatamartDefinitionInputSchema args)
    as [input|issues] eqn:Hparse.
  - exfalso. apply Hbad. apply create_valid_iff. eauto.
  - destruct (safeParse_invalid_cons _ _ _ Hparse) as (issue & more & ->).
    exists issue, more. apply handler_invalid; auto.
Qed.

(** X16 on sample data. *)
Lemma create_datamart_definition_arguments_witness :
  truthy nameless_input = true
  /\ ~ create_input_ok nameless_input
  /\ create_input_ok sales_input
  /\ exists issue issues,
       CallToolRequest_handler scripted 5
         (mkCall "create_datamart_definition" nameless_input) orders_world
       = (Throw (ZodError (issue :: issues)), orders_world).
Proof.
  assert (Hbad : ~ create_input_ok nameless_input).
  { intros (_ & (n & Hn & Hne) & _). simpl in Hn. injection Hn as <-.
    apply Hne. reflexivity. }
  destruct (create_datamart_definition_arguments (list Response) scripted 5
              nameless_input orders_world) as (_ & _ & Hreject).
  split; [reflexivity|]. split; [exact Hbad|].
  split; [exact sales_input_ok|].
  exact (Hreject eq_refl Hbad).
Defined.

Lemma create_input_ok_truthy args : create_input_ok args -> truthy args = true.
Proof. intros ((props & ->) & _). reflexivity. Qed.

(** X17.  [create_datamart_definition] makes exactly one request for any
    valid arguments, whatever the server answers: a [POST] to
    [https://trocco.io/api/datamart_definitions] whose body is the JSON of
    the snake_case object built from the arguments.  There is no second
    attempt and no follow-up request. *)
Theorem create_datamart_definition_request :
  forall (Remote : Type) (server : Remote -> Request -> option Response * Remote)
    (fuel : nat) (args : value) (w : World),
    create_input_ok args ->
    exists e,
      calls (snd (CallToolRequest_handler server fuel
                    (mkCall "create_datamart_definition" args) w))
      = (calls w ++ [e])%list
      /\ sent e = datamart_request (TROCCO_API_KEY w) args
      /\ received e = fst (server (remote w) (datamart_request (TROCCO_API_KEY w) args))
      /\ request_url (sent e) = "https://trocco.io/api/datamart_definitions"
      /\ init_method (request_init (sent e)) = "POST"
      /\ init_body (request_init (sent e)) = JSON_stringify (datamart_body args)
      /\ remote (snd (CallToolRequest_handler server fuel
                        (mkCall "create_datamart_definition" args) w))
         = snd (server (remote w) (datamart_request (TROCCO_API_KEY w) args)).
Proof.
  intros Remote server fuel args w Hok.
  pose proof (create_input_ok_truthy args Hok) as Hargs.
  destruct (proj2 (create_valid_iff args) Hok) as [input Hparse].
  pose proof (create_parsed_body args input Hparse) as Hbody.
  destruct (safeParse_object _ _ _ Hparse) as [props Hinput].
  rewrite (handler_create_datamart_definition server fuel args input w Hargs Hparse).
  rewrite createDatamartDefinition_run by (subst input; reflexivity). cbv zeta.
  assert (Hreq : datamart_request (TROCCO_API_KEY w) input
                 = datamart_request (TROCCO_API_KEY w) args)
    by (unfold datamart_request; rewrite Hbody; reflexivity).
  rewrite Hreq.
  exists (mkExchange (datamart_request (TROCCO_API_KEY w) args)
            (fst (server (remote w) (datamart_request (TROCCO_API_KEY w) args)))).
  assert (Hb : init_body (request_init (datamart_request (TROCCO_API_KEY w) args))
               = JSON_stringify (datamart_body args)) by reflexivity.
  destruct (match settle _ with Return _ => _ | Throw _ => _ | OutOfFuel => _ end);
    cbn [snd calls after remote sent received]; repeat split; exact Hb.
Qed.

(** X17 on sample data. *)
Lemma create_datamart_definition_request_witness :
  create_input_ok sales_input
  /\ exists e,
       calls (snd (CallToolRequest_handler (constant (mkResponse 500 None)) 0
                     (mkCall "create_datamart_definition" sales_input)
                     (mkWorld tt None [])))
       = [e]
       /\ init_method (request_init (sent e)) = "POST"
       /\ request_url (sent e) = "https://trocco.io/api/datamart_definitions".
Proof.
  pose proof sales_input_ok as Hok.
  split; [exact Hok|].
  destruct (create_datamart_definition_request unit (constant (mkResponse 500 None)) 0
              sales_input (mkWorld tt None []) Hok)
    as (e & Hcalls & _ & _ & Hurl & Hmethod & _).
  exists e. auto.
Defined.

(* ================================================================= *)
(** ** What every request of a tool call looks like *)

Lemma string_app_assoc (a b c : string) : (a ++ b) ++ c = a ++ b ++ c.
Proof. induction a as [|x a IH]; simpl; [reflexivity|]. rewrite IH. reflexivity. Qed.

Lemma prefix_app (p s : string) : String.prefix p (p ++ s) = true.
Proof.
  induction p as [|x p IH]; simpl; [destruct s; reflexivity|].
  destruct (ascii_dec x x); [exact IH|congruence].
Qed.

(** X7.  Every request a tool call makes, whatever the tool, the arguments
    and the server, has exactly the four headers [Accept], [Content-Type],
    [User-Agent: troccomcp/0.1.0] and [Authorization: Token <key>] with the
    key of the environment, and a URL under [https://trocco.io/api/]; the
    key itself is never changed. *)
Theorem tool_call_requests :
  forall (Remote : Type) (server : Remote -> Request -> option Response * Remote)
    (fuel : nat) (request : CallToolRequest) (w : World),
    exists new,
      calls (snd (CallToolRequest_handler server fuel request w)) = (calls w ++ new)%list
      /\ TROCCO_API_KEY (snd (CallToolRequest_handler server fuel request w))
         = TROCCO_API_KEY w
      /\ Forall (fun e =>
                   init_headers (request_init (sent e))
                   = trocco_headers (TROCCO_API_KEY w)
                   /\ String.prefix "https://trocco.io/api/" (request_url (sent e))
                      = true) new.
Proof.
  intros Remote server fuel request w.
  destruct (CallToolRequest_handler_trace server fuel request w)
    as (new & Hcalls & Hkey & Hnew).
  exists new. split; [exact Hcalls|]. split; [exact Hkey|].
  destruct Hnew as [->|[(_ & _ & input & Hparse & Hchain)|(_ & _ & input & _ & ->)]].
  - constructor.
  - apply chained_requests in Hchain.
    eapply Forall_impl; [|exact Hchain].
    intros e (c & ->). split; [reflexivity|].
    cbn [request_url page_request outgoing]. unfold page_url, connections_url.
    rewrite string_app_assoc.
    change "https://trocco.io/api/connections/"
      with ("https://trocco.io/api/" ++ "connections/").
    rewrite string_app_assoc. apply prefix_app.
  - constructor; [|constructor]. split; reflexivity.
Qed.

(** X8.  No request without valid input.  If a tool call made any request
    at all, then its arguments were present, its name was one of the two
    tools, and the arguments conformed to that tool's input type. *)
Theorem tool_call_network_only_when_valid :
  forall (Remote : Type) (server : Remote -> Request -> option Response * Remote)
    (fuel : nat) (request : CallToolRequest) (w : World),
    calls (snd (CallToolRequest_handler server fuel request w)) <> calls w ->
    truthy (arguments request) = true
    /\ ((name request = "list_connections"
         /\ exists t, prop (arguments request) "connectionType" = VString t
                      /\ In t connection_types)
        \/ (name request = "create_datamart_definition"
            /\ create_input_ok (arguments request))).
Proof.
  intros Remote server fuel request w Hgrew.
  destruct (CallToolRequest_handler_trace server fuel request w)
    as (new & Hcalls & _ & Hnew).
  destruct Hnew as [->|[(Hargs & Hname & input & Hparse & _)
                       |(Hargs & Hname & input & Hparse & _)]].
  - exfalso. apply Hgrew. rewrite Hcalls. apply app_nil_r.
  - split; [exact Hargs|]. left. split; [exact Hname|].
    apply safeParse_valid in Hparse. destruct Hparse as [Hissues _].
    apply list_issues in Hissues. destruct Hissues as (props & t & _ & Ht & Hin).
    eauto.
  - split; [exact Hargs|]. right. split; [exact Hname|].
    apply create_valid_iff. eauto.
Qed.

(** X8 on sample data. *)
Lemma tool_call_network_only_when_valid_witness :
  calls (snd (CallToolRequest_handler scripted 5 s3_call orders_world))
  <> calls orders_world
  /\ truthy (arguments s3_call) = true
  /\ name s3_call = "list_connections".
Proof.
  assert (H : calls (snd (CallToolRequest_handler scripted 5 s3_call orders_world))
              <> calls orders_world) by (vm_compute; discriminate).
  split; [exact H|].
  destruct (tool_call_network_only_when_valid (list Response) scripted 5 s3_call
              orders_world H) as [Hargs _].
  split; [exact Hargs|reflexivity].
Defined.

(* ================================================================= *)
(** ** The list tool *)

Lemma list_valid_iff args :
  (exists input, Zod.safeParse ListConnectionsInputSchema args = Zod.Valid input)
  <-> exists props t,
        args = VObject props
        /\ prop args "connectionType" = VString t
        /\ In t connection_types.
Proof.
  rewrite <- list_issues. split.
  - intros [input H]. apply safeParse_valid in H. tauto.
  - intros H. eexists. apply safeParse_valid. split; [exact H|reflexivity].
Qed.

(** X12.  [ListConnectionsInputSchema] accepts exactly the objects whose
    [connectionType] is one of the nine names, and hands on
    [{connectionType}] alone: further fields of the arguments are dropped,
    and the tool call is the same as without them. *)
Theorem list_connections_arguments :
  forall (Remote : Type) (server : Remote -> Request -> option Response * Remote)
    (fuel : nat) (args : value) (w : World),
    ((exists input, Zod.safeParse ListConnectionsInputSchema args = Zod.Valid input)
     <-> exists props t,
           args = VObject props
           /\ prop args "connectionType" = VString t
           /\ In t connection_types)
    /\ (forall props t,
           args = VObject props ->
           prop args "connectionType" = VString t ->
           In t connection_types ->
           Zod.safeParse ListConnectionsInputSchema args
           = Zod.Valid (VObject [("connectionType", VString t)])
           /\ CallToolRequest_handler server fuel (mkCall "list_connections" args) w
              = CallToolRequest_handler server fuel
                  (mkCall "list_connections"
                     (VObject [("connectionType", VString t)])) w).
Proof.
  intros Remote server fuel args w. split; [apply list_valid_iff|].
  intros props t -> Ht Hin.
  pose proof (list_parsed props t Ht Hin) as Hparse.
  split; [exact Hparse|].
  rewrite (handler_list_connections server fuel (VObject props) _ w eq_refl Hparse).
  rewrite (handler_list_connections server fuel
             (VObject [("connectionType", VString t)]) _ w eq_refl
             (list_parsed [("connectionType", VString t)] t eq_refl Hin)).
  reflexivity.
Qed.

(** X12 on sample data. *)
Lemma list_connections_arguments_witness :
  prop (arguments s3_call) "connectionType" = VString "s3"
  /\ In "s3" connection_types
  /\ Zod.safeParse ListConnectionsInputSchema (arguments s3_call)
     = Zod.Valid (VObject [("connectionType", VString "s3")]).
Proof.
  assert (Hin : In "s3" connection_types) by (do 5 right; left; reflexivity).
  split; [reflexivity|]. split; [exact Hin|].
  exact (proj1 (proj2 (list_connections_arguments (list Response) scripted 5
                         (arguments s3_call) orders_world)
                  _ "s3" eq_refl eq_refl Hin)).
Defined.

Lemma chained_cursors (key : option string) (url : string)
  (params : list (string * value)) (options : RequestOptions) :
  forall (log : list Exchange) (c : value),
    chained key url params options c log ->
    Forall (fun e => exists c',
                (c' = c \/ nullish c' = false)
                /\ sent e = page_request key url params options c') log.
Proof.
  induction log as [|e rest IH]; intros c H; constructor.
  - destruct H as [H _]. exists c. auto.
  - destruct H as [_ [->|[Hnext H]]]; [constructor|].
    eapply Forall_impl; [|exact (IH _ H)].
    intros e' (c' & [Heq|Hc'] & Hsent); exists c'; split; auto.
    right. rewrite Heq. exact Hnext.
Qed.

Lemma page_url_cursor (url : string) (c : value) :
  nullish c = false ->
  page_url url [] c = url ++ "?limit=5&cursor=" ++ urlencode (ToString c).
Proof.
  intros H. unfold page_url, page_query. rewrite H. reflexivity.
Qed.

(** X13.  [list_connections] only reads.  For a valid connection type [t]
    every request of the call is a [GET] without body, to
    [https://trocco.io/api/connections/t?limit=5] or to the same with
    [&cursor=<encoded cursor>], and there are at most as many as iterations
    allowed. *)
Theorem list_connections_read_only :
  forall (Remote : Type) (server : Remote -> Request -> option Response * Remote)
    (fuel : nat) (props : list (string * value)) (t : string) (w : World),
    prop (VObject props) "connectionType" = VString t ->
    In t connection_types ->
    exists new,
      calls (snd (CallToolRequest_handler server fuel
                    (mkCall "list_connections" (VObject props)) w))
      = (calls w ++ new)%list
      /\ (length new <= fuel)%nat
      /\ Forall (fun e =>
                   init_method (request_init (sent e)) = "GET"
                   /\ init_body (request_init (sent e)) = None
                   /\ (request_url (sent e)
                       = "https://trocco.io/api/connections/" ++ t ++ "?limit=5"
                       \/ exists c,
                            request_url (sent e)
                            = "https://trocco.io/api/connections/" ++ t
                              ++ "?limit=5&cursor=" ++ urlencode c)) new.
Proof.
  intros Remote server fuel props t w Ht Hin.
  pose proof (list_parsed props t Ht Hin) as Hparse.
  rewrite (handler_list_connections server fuel (VObject props) _ w eq_refl Hparse).
  destruct (withPagination_chained Remote server fuel
              (connections_url (VObject [("connectionType", VString t)])) []
              no_options w) as (new & Hcalls & Hchain & Hlen & _).
  exists new.
  assert (Hw : calls (snd (match withPagination server fuel
                                   (connections_url
                                      (VObject [("connectionType", VString t)]))
                                   [] no_options w with
                           | (Return raws, w') =>
                               match mapM project_connection raws w' with
                               | (Return out, w'') =>
                                   (Return (text_content (VArray out)), w'')
                               | (Throw e, w'') => (Throw e, w'')
                               | (OutOfFuel, w'') => (OutOfFuel, w'')
                               end
                           | (Throw e, w') => (Throw e, w')
                           | (OutOfFuel, w') => (OutOfFuel, w')
                           end))
               = (calls w ++ new)%list).
  { destruct (withPagination server fuel _ [] no_options w) as [[raws| |] w1];
      cbn [snd] in *; try exact Hcalls.
    pose proof (mapM_project_connection_world raws w1) as Hsame.
    destruct (mapM project_connection raws w1) as [[out| |] w2];
      cbn [snd] in *; subst w2; exact Hcalls. }
  split; [exact Hw|]. split; [exact Hlen|].
  apply chained_cursors in Hchain.
  eapply Forall_impl; [|exact Hchain].
  intros e (c & Hc & ->). split; [reflexivity|]. split; [reflexivity|].
  cbn [request_url page_request outgoing].
  change (connections_url (VObject [("connectionType", VString t)]))
    with ("https://trocco.io/api/connections/" ++ t).
  destruct Hc as [->|Hc].
  - left. rewrite page_url_first. apply string_app_assoc.
  - right. exists (ToString c). rewrite page_url_cursor by exact Hc.
    apply string_app_assoc.
Qed.

(** X13 on sample data. *)
Lemma list_connections_read_only_witness :
  In "s3" connection_types
  /\ exists new,
       calls (snd (CallToolRequest_handler scripted 5 s3_call failing_world)) = new
       /\ Forall (fun e => init_method (request_init (sent e)) = "GET"
                           /\ init_body (request_init (sent e)) = None) new.
Proof.
  assert (Hin : In "s3" connection_types) by (do 5 right; left; reflexivity).
  split; [exact Hin|].
  destruct (list_connections_read_only (list Response) scripted 5
              [("connectionType", VString "s3"); ("verbose", VBool true)] "s3"
              failing_world eq_refl Hin) as (new & Hcalls & _ & Hall).
  exists new. split; [exact Hcalls|].
  eapply Forall_impl; [|exact Hall]. intros e (H1 & H2 & _). auto.
Defined.

(* ================================================================= *)
(** ** The result of a tool call *)

Lemma mapM_project_connection_return {Remote : Type} (raws : list value) :
  forall (w w' : World (Remote := Remote)) (out : list value),
    mapM project_connection raws w = (Return out, w') ->
    out = map projected raws /\ Forall (fun r => nullish r = false) raws.
Proof.
  induction raws as [|r raws IH]; intros w w' out H; simpl in H.
  - unfold ret in H. injection H as <- _. auto.
  - unfold bind in H. destruct (nullish r) eqn:N.
    + unfold project_connection, bind, get in H. rewrite N in H. discriminate H.
    + rewrite project_connection_run in H by exact N.
      destruct (mapM project_connection raws w) as [[out'| |] w1] eqn:E;
        try discriminate H.
      unfold ret in H. injection H as <- _.
      destruct (IH _ _ _ E) as [-> HF]. auto.
Qed.

(** X9.  A tool call that returns, returns
    [{content: [{type: "text", text}]}] with one text block, whose text is
    the 2-space JSON of an array of [{id, name, description}] objects
    ([list_connections]) or of one object with the six fields of a datamart
    definition ([create_datamart_definition]); the text is always a string. *)
Theorem tool_call_result :
  forall (Remote : Type) (server : Remote -> Request -> option Response * Remote)
    (fuel : nat) (request : CallToolRequest) (w w' : World) (v : value),
    CallToolRequest_handler server fuel request w = (Return v, w') ->
    exists result text,
      JSON_stringify_pretty result = Some text
      /\ v = VObject [("content",
                      VArray [VObject [("type", VString "text");
                                       ("text", VString text)]])]
      /\ ((name request = "list_connections"
           /\ exists raws,
                result = VArray (map (fun r => VObject [("id", prop r "id");
                                                        ("name", prop r "name");
                                                        ("description",
                                                         prop r "description")]) raws))
          \/ (name request = "create_datamart_definition"
              /\ exists d,
                   result
                   = VObject
                       [("id", prop d "id");
                        ("name", prop d "name");
                        ("data_warehouse_type", prop d "data_warehouse_type");
                        ("description", prop d "description");
                        ("is_runnable_concurrently",
                         prop d "is_runnable_concurrently");
                        ("datamart_bigquery_option",
                         prop d "datamart_bigquery_option")])).
Proof.
  intros Remote server fuel [tool args] w w' v H.
  destruct (truthy args) eqn:Hargs.
  2:{ unfold CallToolRequest_handler in H. cbn [arguments name] in H.
      rewrite Hargs in H. discriminate H. }
  destruct (String.eqb tool "list_connections") eqn:Hlist.
  { apply String.eqb_eq in Hlist. subst tool.
    destruct (Zod.safeParse ListConnectionsInputSchema args) as [input|issues] eqn:Hparse.
    2:{ rewrite (handler_invalid server fuel "list_connections" args issues w Hargs)
          in H by auto. discriminate H. }
    rewrite (handler_list_connections server fuel args input w Hargs Hparse) in H.
    destruct (withPagination server fuel _ [] no_options w) as [[raws| |] w1];
      try discriminate H.
    destruct (mapM project_connection raws w1) as [[out| |] w2] eqn:E;
      try discriminate H.
    apply mapM_project_connection_return in E. destruct E as [-> _].
    injection H as <- _.
    exists (VArray (map projected raws)). eexists.
    split; [unfold JSON_stringify_pretty; cbn [SerializeJSONProperty]; reflexivity|].
    split; [reflexivity|].
    left. split; [reflexivity|]. exists raws. reflexivity. }
  destruct (String.eqb tool "create_datamart_definition") eqn:Hcreate.
  { apply String.eqb_eq in Hcreate. subst tool.
    destruct (Zod.safeParse CreateDatamartDefinitionInputSchema args)
      as [input|issues] eqn:Hparse.
    2:{ rewrite (handler_invalid server fuel "create_datamart_definition" args issues
                   w Hargs) in H by auto. discriminate H. }
    rewrite (handler_create_datamart_definition server fuel args input w Hargs Hparse)
      in H.
    destruct (safeParse_object _ _ _ Hparse) as [props ->].
    rewrite createDatamartDefinition_run in H by reflexivity. cbv zeta in H.
    destruct (settle _) as [d| |]; try discriminate H.
    destruct (nullish d); try discriminate H.
    injection H as <- _.
    eexists (VObject _). eexists.
    split; [unfold JSON_stringify_pretty; cbn [SerializeJSONProperty]; reflexivity|].
    split; [reflexivity|].
    right. split; [reflexivity|]. exists d. reflexivity. }
  unfold CallToolRequest_handler in H. cbn [arguments name] in H.
  rewrite Hargs, Hlist, Hcreate in H. discriminate H.
Qed.

(** X9 on sample data. *)
Lemma tool_call_result_witness :
  CallToolRequest_handler scripted 5 s3_call orders_world
  = (Return (text_content (VArray [projected orders_record])),
     snd (CallToolRequest_handler scripted 5 s3_call orders_world))
  /\ exists result text,
       JSON_stringify_pretty result = Some text
       /\ text_content (VArray [projected orders_record])
          = VObject [("content",
                      VArray [VObject [("type", VString "text");
                                       ("text", VString text)]])].
Proof.
  assert (H : CallToolRequest_handler scripted 5 s3_call orders_world
              = (Return (text_content (VArray [projected orders_record])),
                 snd (CallToolRequest_handler scripted 5 s3_call orders_world)))
    by (vm_compute; reflexivity).
  split; [exact H|].
  destruct (tool_call_result (list Response) scripted 5 s3_call orders_world _ _ H)
    as (result & text & Htext & Hv & _).
  exists result, text. auto.
Defined.

(* ----------------------------------------------------------------- *)
(** *** End to end *)

(** X14.  The [list_connections] tool end to end.  Against a server that
    holds the connections on [N] pages, the call returns the text block of
    the projected records of all pages in order, after the [N] page
    requests for the type's URL. *)
Theorem list_connections_end_to_end :
  forall (front : list (list value * string)) (last : list value)
    (rest : list Response) (fuel : nat) (props : list (string * value)) (t : string)
    (key : option string) (log : list Exchange),
    prop (VObject props) "connectionType" = VString t ->
    In t connection_types ->
    (length front < fuel)%nat ->
    Forall (fun r => nullish r = false) (concat (map items (paged front last))) ->
    let url := "https://trocco.io/api/connections/" ++ t in
    let run :=
      CallToolRequest_handler scripted fuel
        (mkCall "list_connections" (VObject props))
        (mkWorld (map ok_page (paged front last) ++ rest)%list key log) in
    fst run
    = Return
        (text_content
           (VArray
              (map (fun r => VObject [("id", prop r "id");
                                      ("name", prop r "name");
                                      ("description", prop r "description")])
                 (concat (map items (paged front last))))))
    /\ remote (snd run) = rest
    /\ requests (calls (snd run))
       = (requests log
          ++ map (page_request key url [] no_options)
               (VNull :: map (fun p => VString (snd p)) front))%list.
Proof.
  intros front last rest fuel props t key log Ht Hin Hfuel Hitems url run.
  pose proof (list_parsed props t Ht Hin) as Hparse.
  assert (Hrun : run
                 = (Return (text_content
                              (VArray (map projected
                                         (concat (map items (paged front last)))))),
                    mkWorld rest key
                      (log ++ dialogue key url [] no_options VNull
                                (paged front last))%list)).
  { subst run.
    rewrite (handler_list_connections scripted fuel (VObject props) _ _ eq_refl Hparse).
    change (connections_url (VObject [("connectionType", VString t)])) with url.
    unfold withPagination.
    rewrite withPagination_loop_scripted by exact Hfuel.
    cbn [app]. rewrite mapM_project_connection by exact Hitems. reflexivity. }
  rewrite Hrun. cbn [fst snd remote calls].
  split; [reflexivity|]. split; [reflexivity|].
  rewrite requests_app, requests_dialogue. reflexivity.
Qed.

(** X14 on sample data. *)
Lemma list_connections_end_to_end_witness :
  In "mysql" connection_types
  /\ (1 < 3)%nat
  /\ fst (CallToolRequest_handler scripted 3
            (mkCall "list_connections" (VObject [("connectionType", VString "mysql")]))
            (mkWorld [ok_page (mkPage [orders_record] (Some "c1"));
                      ok_page (mkPage [] None)] None []))
     = Return (text_content
                 (VArray [VObject [("id", VString "7"); ("name", VString "orders");
                                   ("description", VString "replica")]])).
Proof.
  assert (Hin : In "mysql" connection_types) by (do 4 right; left; reflexivity).
  assert (Hfuel : (1 < 3)%nat) by lia.
  split; [exact Hin|]. split; [exact Hfuel|].
  refine (proj1 (list_connections_end_to_end [([orders_record], "c1")] [] [] 3
                   [("connectionType", VString "mysql")] "mysql" None []
                   eq_refl Hin Hfuel _)).
  repeat constructor.
Defined.

(** X15.  An item that is [null] breaks the projection.  When the pages hold
    a [null] (or missing) item, [listConnections] throws a [TypeError] where
    it reads [connection.id], after all pages have been fetched; the records
    before it are not returned. *)
Theorem listConnections_null_item :
  forall (Remote : Type) (server : Remote -> Request -> option Response * Remote)
    (fuel : nat) (input : value) (before after_it : list value) (r : value)
    (w w' : World),
    nullish input = false ->
    withPagination server fuel (connections_url input) [] no_options w
    = (Return (before ++ r :: after_it)%list, w') ->
    Forall (fun x => nullish x = false) before ->
    nullish r = true ->
    exists message,
      listConnections server fuel input w = (Throw (TypeError message), w').
Proof.
  intros Remote server fuel input before after_it r w w' Hinput Hpages Hbefore Hr.
  rewrite listConnections_run by exact Hinput. unfold bind at 1. rewrite Hpages.
  clear Hpages. eexists.
  induction Hbefore as [|x before Hx _ IH]; cbn [app mapM]; unfold bind.
  - unfold project_connection, bind, get. rewrite Hr. reflexivity.
  - rewrite project_connection_run by exact Hx. unfold bind in IH. rewrite IH.
    reflexivity.
Qed.

(** X15 on sample data. *)
Lemma listConnections_null_item_witness :
  nullish VNull = true
  /\ exists message,
       fst (listConnections scripted 1 (VObject [("connectionType", VString "mysql")])
              (mkWorld [ok_page (mkPage [orders_record; VNull] None)] None []))
       = Throw (TypeError message).
Proof.
  split; [reflexivity|].
  assert (Hbefore : Forall (fun x => nullish x = false) [orders_record])
    by (repeat constructor).
  destruct (listConnections_null_item (list Response) scripted 1
              (VObject [("connectionType", VString "mysql")]) [orders_record] [] VNull
              (mkWorld [ok_page (mkPage [orders_record; VNull] None)] None [])
              (snd (withPagination scripted 1
                      (connections_url
                         (VObject [("connectionType", VString "mysql")]))
                      [] no_options
                      (mkWorld [ok_page (mkPage [orders_record; VNull] None)] None [])))
              eq_refl eq_refl Hbefore eq_refl) as [message H].
  exists message. rewrite H. reflexivity.
Defined.

(* ================================================================= *)
(** ** A page that fails *)

Section Failing.

Variables (url : string) (params : list (string * value)) (options : RequestOptions).

Lemma withPagination_loop_front (tail : list Response) (key : option string) :
  forall (front : list (list value * string)) (fuel : nat) (acc : list value)
    (c : value) (log : list Exchange),
    withPagination_loop scripted (length front + fuel) url params options acc c
      (mkWorld (map ok_page (cursor_pages front) ++ tail)%list key log)
    = withPagination_loop scripted fuel url params options
        (acc ++ concat (map fst front))%list (cursor_after c front)
        (mkWorld tail key
           (log ++ dialogue key url params options c (cursor_pages front))%list).
Proof.
  induction front as [|[its cur] front IH]; intros fuel acc c log.
  - cbn. rewrite !app_nil_r. reflexivity.
  - change (length ((its, cur) :: front) + fuel)%nat with (S (length front + fuel)).
    rewrite withPagination_loop_step.
    change (map ok_page (cursor_pages ((its, cur) :: front)) ++ tail)%list
      with (ok_page (mkPage its (Some cur))
            :: (map ok_page (cursor_pages front) ++ tail)%list).
    rewrite fetch_page_scripted.
    cbn [snd fst cursor_value next_cursor items nullish].
    rewrite IH.
    change (cursor_pages ((its, cur) :: front))
      with (mkPage its (Some cur) :: cursor_pages front).
    cbn [map concat dialogue cursor_value next_cursor items fst snd cursor_after
           fold_left].
    rewrite <- !app_assoc. reflexivity.
Qed.

Lemma length_dialogue (key : option string) (c : value)
  (pages : list PaginationResponse) :
  length (dialogue key url params options c pages) = length pages.
Proof.
  revert c. induction pages as [|p pages IH]; intros c; simpl; [reflexivity|].
  rewrite IH. reflexivity.
Qed.

End Failing.

Lemma failed_page_throws (r : Response) :
  failed_page r ->
  exists e,
    read_page (settle (Some r)) = Throw e
    /\ ((~ 200 <= status r <= 299
         /\ e = Error ("TROCCO API request failed: " ++ Number_toString (status r)))
        \/ (200 <= status r <= 299
            /\ exists message, e = SyntaxError message \/ e = TypeError message)).
Proof.
  intros H. unfold settle, decoded.
  destruct (ok r) eqn:Hok.
  - assert (Hr : 200 <= status r <= 299) by (apply ok_range; exact Hok).
    destruct H as [H|[H|(d & Hd & H)]].
    + contradiction.
    + rewrite H. eexists. split; [reflexivity|]. right. eauto.
    + rewrite Hd. cbn [read_page]. destruct (nullish d) eqn:N.
      * eexists. split; [reflexivity|]. right. eauto.
      * destruct H as [H|H]; [discriminate H|]. rewrite H.
        eexists. split; [reflexivity|]. right. eauto.
  - eexists. split; [reflexivity|]. left. split; [|reflexivity].
    intros Hr. apply ok_range in Hr. congruence.
Qed.

(** X3.  Pagination is all or nothing.  When the pages so far all named a
    cursor and the next response cannot be read as a page (a status outside
    200..299, a body that is not JSON, a null body, or [items] that cannot
    be iterated), [withPagination] ends with an exception and the items
    already gathered are lost: with [Error("TROCCO API request failed:
    <status>")] for the status, with a [SyntaxError] or [TypeError]
    otherwise.  The failing request was the last one made; the responses
    after it stay unread. *)
Theorem withPagination_failing_page :
  forall (front : list (list value * string)) (r : Response) (rest : list Response)
    (fuel : nat) (url : string) (params : list (string * value))
    (options : RequestOptions) (key : option string) (log : list Exchange),
    (length front < fuel)%nat ->
    failed_page r ->
    let run :=
      withPagination scripted fuel url params options
        (mkWorld (map ok_page (cursor_pages front) ++ r :: rest)%list key log) in
    remote (snd run) = rest
    /\ length (calls (snd run)) = (length log + length front + 1)%nat
    /\ ((~ 200 <= status r <= 299
         /\ fst run
            = Throw (Error ("TROCCO API request failed: "
                            ++ Number_toString (status r))))
        \/ (200 <= status r <= 299
            /\ exists message,
                 fst run = Throw (SyntaxError message)
                 \/ fst run = Throw (TypeError message))).
Proof.
  intros front r rest fuel url params options key log Hfuel Hbad run.
  destruct (failed_page_throws r Hbad) as (e & He & Hclass).
  assert (Hrun : run
                 = (Throw e,
                    mkWorld rest key
                      ((log ++ dialogue key url params options VNull
                                 (cursor_pages front))
                       ++ [mkExchange
                             (page_request key url params options
                                (cursor_after VNull front)) (Some r)])%list)).
  { subst run. unfold withPagination.
    replace fuel with (length front + S (fuel - length front - 1))%nat by lia.
    rewrite withPagination_loop_front.
    rewrite withPagination_loop_step, fetch_page_run. cbv zeta.
    cbn [remote TROCCO_API_KEY scripted fst snd after calls].
    rewrite He. reflexivity. }
  rewrite Hrun. cbn [fst snd remote calls].
  split; [reflexivity|]. split.
  - rewrite !length_app, length_dialogue. unfold cursor_pages.
    rewrite length_map. reflexivity.
  - destruct Hclass as [[H1 ->]|[H1 (m & [-> | ->])]]; [left|right|right]; eauto.
Qed.

(** X3 on sample data. *)
Lemma withPagination_failing_page_witness :
  (1 < 5)%nat
  /\ failed_page (mkResponse 503 None)
  /\ fst (withPagination scripted 5 s3_url [] no_options
            (mkWorld [ok_page (mkPage [VNumber 1] (Some "c1")); mkResponse 503 None]
               None []))
     = Throw (Error "TROCCO API request failed: 503")
  /\ length (calls (snd (withPagination scripted 5 s3_url [] no_options
                           (mkWorld [ok_page (mkPage [VNumber 1] (Some "c1"));
                                     mkResponse 503 None] None []))))
     = 2%nat.
Proof.
  assert (Hfuel : (1 < 5)%nat) by lia.
  assert (Hbad : failed_page (mkResponse 503 None)) by (left; simpl; lia).
  split; [exact Hfuel|]. split; [exact Hbad|].
  destruct (withPagination_failing_page [([VNumber 1], "c1")] (mkResponse 503 None) []
              5 s3_url [] no_options None [] Hfuel Hbad) as (_ & Hlen & _).
  split; [reflexivity|exact Hlen].
Defined.

(* ================================================================= *)
(** ** No bound on the iterations *)

(** X4.  The loop has no bound of its own.  Against a server that keeps
    answering with readable pages naming a cursor, a run allowed [fuel]
    iterations makes exactly [fuel] requests and is still not finished,
    whatever [fuel] is. *)
Theorem withPagination_unbounded :
  forall (Remote : Type) (server : Remote -> Request -> option Response * Remote)
    (url : string) (params : list (string * value)) (options : RequestOptions)
    (endless : Remote -> Prop),
    (forall s req,
        endless s ->
        endless (snd (server s req))
        /\ exists r d page_items,
             fst (server s req) = Some r
             /\ 200 <= status r <= 299
             /\ json_body r = Some d
             /\ iterate (prop d "items") = Some page_items
             /\ nullish (prop d "next_cursor") = false) ->
    forall (fuel : nat) (w : World),
      endless (remote w) ->
      fst (withPagination server fuel url params options w) = OutOfFuel
      /\ length (calls (snd (withPagination server fuel url params options w)))
         = (length (calls w) + fuel)%nat.
Proof.
  intros Remote server url params options endless Hserver fuel.
  unfold withPagination. generalize (@nil value) as acc. generalize VNull as c.
  induction fuel as [|fuel IH]; intros c acc w Hw.
  - cbn. split; [reflexivity|lia].
  - rewrite withPagination_loop_step, fetch_page_run. cbv zeta.
    set (req := page_request (TROCCO_API_KEY w) url params options c).
    destruct (Hserver (remote w) req Hw)
      as (Hnext & r & d & page_items & Hr & Hstatus & Hd & Hitems & Hcursor).
    rewrite Hr. unfold settle, decoded. apply ok_range in Hstatus.
    rewrite Hstatus, Hd. cbn [read_page].
    assert (Hnn : nullish d = false).
    { destruct d; try reflexivity; discriminate Hcursor. }
    rewrite Hnn, Hitems. cbn [fst snd]. rewrite Hcursor.
    destruct (IH (prop d "next_cursor") (acc ++ page_items)%list
                (after w (snd (server (remote w) req)) req (Some r)) Hnext)
      as [H1 H2].
    split; [exact H1|]. rewrite H2. cbn [calls after].
    rewrite length_app. simpl. lia.
Qed.

(** X4 on sample data. *)
Lemma withPagination_unbounded_witness :
  fst (withPagination (constant endless_page) 7 s3_url [] no_options
         (mkWorld tt None []))
  = OutOfFuel
  /\ length (calls (snd (withPagination (constant endless_page) 7 s3_url []
                           no_options (mkWorld tt None []))))
     = 7%nat.
Proof.
  apply (withPagination_unbounded unit (constant endless_page) s3_url [] no_options
           (fun _ => True)).
  - intros s req _. split; [exact I|].
    exists endless_page, (page_json (mkPage [VNumber 1] (Some "again"))), [VNumber 1].
    repeat split; simpl; lia.
  - exact I.
Defined.

(* ================================================================= *)
(** ** The base parameters *)

Lemma lookup_none_keys {A : Type} (k : string) (props : list (string * A)) :
  lookup k props = None <-> ~ In k (keys props).
Proof.
  induction props as [|[k0 v0] rest IH]; simpl; [tauto|].
  destruct (String.eqb k k0) eqn:E.
  - apply String.eqb_eq in E. subst k0. split; [discriminate|]. intros H.
    exfalso. apply H. left. reflexivity.
  - apply String.eqb_neq in E. rewrite IH. split.
    + intros H [H'|H']; [congruence|contradiction].
    + intros H H'. apply H. right. exact H'.
Qed.

Lemma set_prop_fresh {A : Type} (k : string) (v : A) (props : list (string * A)) :
  ~ In k (keys props) -> set_prop k v props = (props ++ [(k, v)])%list.
Proof.
  induction props as [|[k0 v0] rest IH]; simpl; intros H; [reflexivity|].
  destruct (String.eqb k k0) eqn:E.
  - apply String.eqb_eq in E. subst k0. exfalso. apply H. left. reflexivity.
  - rewrite IH; [reflexivity|]. intros H'. apply H. right. exact H'.
Qed.

Lemma spread_fresh {A : Type} (b : list (string * A)) :
  forall a, NoDup (keys (a ++ b)) -> spread a b = (a ++ b)%list.
Proof.
  unfold spread. induction b as [|[k v] b IH]; intros a H; simpl.
  - rewrite app_nil_r. reflexivity.
  - assert (Hk : ~ In k (keys a)).
    { unfold keys in *. rewrite map_app in H. simpl in H.
      apply NoDup_remove_2 in H. intros H'. apply H. apply in_or_app. left. exact H'. }
    rewrite set_prop_fresh by exact Hk.
    rewrite IH; [rewrite <- app_assoc; reflexivity|].
    rewrite <- app_assoc. exact H.
Qed.

(** X5.  What the spread makes of the base parameters (an object, so with
    each key once): [limit] is always ["5"], also when the caller gave
    another; a caller's [cursor] goes out with the first request and is
    replaced by the page cursor afterwards; every other parameter is passed
    on unchanged.  When the caller gave neither, the query is the base
    parameters followed by [limit] (and [cursor]). *)
Theorem page_query_base_params :
  forall (params : list (string * value)),
    NoDup (keys params) ->
    (forall c, lookup "limit" (page_query params c) = Some (VString "5"))
    /\ (forall c, nullish c = true ->
                  lookup "cursor" (page_query params c) = lookup "cursor" params)
    /\ (forall c, nullish c = false ->
                  lookup "cursor" (page_query params c) = Some c)
    /\ (forall c k, k <> "limit" -> k <> "cursor" ->
                    lookup k (page_query params c) = lookup k params)
    /\ (lookup "limit" params = None ->
        lookup "cursor" params = None ->
        page_query params VNull = (params ++ [("limit", VString "5")])%list
        /\ forall c, nullish c = false ->
                     page_query params c
                     = (params ++ [("limit", VString "5"); ("cursor", c)])%list).
Proof.
  intros params Hnodup.
  assert (Hsame : spread [] params = params) by (apply spread_fresh; exact Hnodup).
  unfold page_query. rewrite Hsame.
  split; [|split; [|split; [|split]]].
  - intros c. unfold spread. destruct (nullish c); simpl;
      rewrite !lookup_set_prop; reflexivity.
  - intros c Hc. rewrite Hc. unfold spread. simpl. rewrite lookup_set_prop. reflexivity.
  - intros c Hc. rewrite Hc. unfold spread. simpl. rewrite lookup_set_prop. reflexivity.
  - intros c k Hl Hc. apply String.eqb_neq in Hl. apply String.eqb_neq in Hc.
    unfold spread. destruct (nullish c); simpl; rewrite !lookup_set_prop;
      rewrite ?Hl, ?Hc; reflexivity.
  - intros Hl Hc. apply lookup_none_keys in Hl. apply lookup_none_keys in Hc.
    split.
    + unfold spread. simpl. apply set_prop_fresh. exact Hl.
    + intros c Hn. rewrite Hn. unfold spread. simpl.
      rewrite (set_prop_fresh "limit") by exact Hl.
      rewrite set_prop_fresh.
      * rewrite <- app_assoc. reflexivity.
      * unfold keys. rewrite map_app. intros H. apply in_app_or in H.
        destruct H as [H|[H|[]]]; [exact (Hc H)|discriminate H].
Qed.

(** X5 on sample data. *)
Lemma page_query_base_params_witness :
  NoDup (keys tagged_params)
  /\ lookup "cursor" (page_query tagged_params VNull) = Some (VString "stale")
  /\ lookup "cursor" (page_query tagged_params (VString "c1")) = Some (VString "c1")
  /\ lookup "limit" (page_query tagged_params VNull) = Some (VString "5")
  /\ lookup "type" (page_query tagged_params VNull) = Some (VString "x").
Proof.
  assert (H : NoDup (keys tagged_params)).
  { repeat constructor; simpl; intuition discriminate. }
  split; [exact H|].
  destruct (page_query_base_params tagged_params H) as (Hl & Hfirst & Hnext & Hother & _).
  split; [exact (Hfirst VNull eq_refl)|].
  split; [exact (Hnext (VString "c1") eq_refl)|].
  split; [exact (Hl VNull)|].
  apply (Hother VNull "type"); discriminate.
Defined.

(* ================================================================= *)
(** ** The cursor in the URL *)

Lemma list_ascii_app (a b : string) :
  list_ascii_of_string (a ++ b)
  = (list_ascii_of_string a ++ list_ascii_of_string b)%list.
Proof. induction a as [|x a IH]; simpl; [reflexivity|]. rewrite IH. reflexivity. Qed.

Lemma urlencode_char_safe (c : ascii) :
  forallb form_safe (list_ascii_of_string (urlencode_char c)) = true.
Proof.
  destruct c as [[|] [|] [|] [|] [|] [|] [|] [|]]; vm_compute; reflexivity.
Qed.

Lemma urlencode_safe (s : string) :
  forallb form_safe (list_ascii_of_string (urlencode s)) = true.
Proof.
  induction s as [|c s IH]; simpl; [reflexivity|].
  rewrite list_ascii_app, forallb_app, urlencode_char_safe, IH. reflexivity.
Qed.

(** X6.  A cursor cannot reach beyond its own query parameter.  With the
    default parameters the URL for a cursor [c] is
    [url?limit=5&cursor=<encoded c>], and the encoded text consists of
    letters, digits and [* - . _ + %] only: no [&], [=], [#], [?], [/] or
    space of the cursor gets into the URL as such. *)
Theorem page_url_cursor_encoded :
  forall (url : string) (c : value),
    nullish c = false ->
    page_url url [] c = url ++ "?limit=5&cursor=" ++ urlencode (ToString c)
    /\ forallb form_safe (list_ascii_of_string (urlencode (ToString c))) = true
    /\ form_safe "&" = false /\ form_safe "=" = false /\ form_safe "#" = false
    /\ form_safe "?" = false /\ form_safe "/" = false /\ form_safe " " = false.
Proof.
  intros url c Hc. split; [apply page_url_cursor; exact Hc|].
  split; [apply urlencode_safe|]. repeat split.
Qed.

(** X6 on sample data. *)
Lemma page_url_cursor_encoded_witness :
  nullish (VString "a&b=c d") = false
  /\ page_url s3_url [] (VString "a&b=c d")
     = "https://trocco.io/api/connections/s3?limit=5&cursor=a%26b%3Dc+d".
Proof.
  split; [reflexivity|].
  exact (proj1 (page_url_cursor_encoded s3_url (VString "a&b=c d") eq_refl)).
Defined.

(* ================================================================= *)
(** ** The errors of a tool call *)

Lemma settle_Error (answer : option Response) (m : string) :
  settle answer = Throw (Error m) ->
  exists r, answer = Some r /\ ~ 200 <= status r <= 299 /\ m = status_message r.
Proof.
  unfold settle, decoded. destruct answer as [r|]; [|discriminate].
  destruct (ok r) eqn:Hok.
  - destruct (json_body r); discriminate.
  - intros H. injection H as <-. exists r. split; [reflexivity|].
    split; [|reflexivity]. intros Hr. apply ok_range in Hr. congruence.
Qed.

Lemma read_page_Error (answer : option Response) (m : string) :
  read_page (settle answer) = Throw (Error m) ->
  exists r, answer = Some r /\ ~ 200 <= status r <= 299 /\ m = status_message r.
Proof.
  intros H. apply settle_Error.
  destruct (settle answer) as [d| |]; cbn [read_page] in H.
  - destruct (nullish d); [discriminate H|].
    destruct (iterate (prop d "items")); discriminate H.
  - injection H as ->. reflexivity.
  - discriminate H.
Qed.

Lemma withPagination_loop_Error {Remote : Type}
  (server : Remote -> Request -> option Response * Remote)
  (url : string) (params : list (string * value)) (options : RequestOptions)
  (fuel : nat) :
  forall (acc : list value) (c : value) (w w' : World) (m : string),
    withPagination_loop server fuel url params options acc c w = (Throw (Error m), w') ->
    exists front e r,
      calls w' = (calls w ++ front ++ [e])%list
      /\ received e = Some r
      /\ ~ 200 <= status r <= 299
      /\ m = status_message r.
Proof.
  induction fuel as [|fuel IH]; intros acc c w w' m H; [discriminate H|].
  rewrite withPagination_loop_step, fetch_page_run in H. cbv zeta in H.
  set (req := page_request (TROCCO_API_KEY w) url params options c) in *.
  destruct (read_page (settle (fst (server (remote w) req))))
    as [[page_items next]| |] eqn:R; try discriminate H.
  - cbn [fst snd] in H. destruct (nullish next); [discriminate H|].
    apply IH in H. destruct H as (front & e & r & Hcalls & He & Hr & Hm).
    exists (mkExchange req (fst (server (remote w) req)) :: front), e, r.
    split; [|auto]. rewrite Hcalls. cbn [calls after]. rewrite <- app_assoc.
    reflexivity.
  - injection H as -> <-. apply read_page_Error in R.
    destruct R as (r & Hr & Hstatus & Hm).
    exists [], (mkExchange req (fst (server (remote w) req))), r.
    cbn [calls after received app]. auto.
Qed.

Lemma mapM_project_connection_Throw {Remote : Type} (raws : list value) :
  forall (w w' : World (Remote := Remote)) (e : exn),
    mapM project_connection raws w = (Throw e, w') ->
    exists message, e = TypeError message.
Proof.
  induction raws as [|r raws IH]; intros w w' e H; simpl in H; [discriminate H|].
  unfold bind in H. destruct (nullish r) eqn:N.
  - unfold project_connection, bind, get in H. rewrite N in H.
    injection H as <- _. eauto.
  - rewrite project_connection_run in H by exact N.
    destruct (mapM project_connection raws w) as [[out| |] w1] eqn:E;
      try discriminate H.
    injection H as <- _. exact (IH _ _ _ E).
Qed.

(** X10.  The [Error]s a tool call can throw are three: the arguments are
    missing; the tool is unknown; or a response had a status outside
    200..299, and then the message names the status of the last response
    received.  In the first two cases nothing was sent. *)
Theorem tool_call_errors :
  forall (Remote : Type) (server : Remote -> Request -> option Response * Remote)
    (fuel : nat) (request : CallToolRequest) (w w' : World) (m : string),
    CallToolRequest_handler server fuel request w = (Throw (Error m), w') ->
    (m = "Arguments are required"
     /\ truthy (arguments request) = false /\ w' = w)
    \/ (m = "Unknown tool name: " ++ name request
        /\ name request <> "list_connections"
        /\ name request <> "create_datamart_definition"
        /\ w' = w)
    \/ (exists front e r,
           calls w' = (calls w ++ front ++ [e])%list
           /\ received e = Some r
           /\ ~ 200 <= status r <= 299
           /\ m = "TROCCO API request failed: " ++ Number_toString (status r)).
Proof.
  intros Remote server fuel [tool args] w w' m H. cbn [arguments name].
  destruct (truthy args) eqn:Hargs.
  2:{ unfold CallToolRequest_handler in H. cbn [arguments name] in H.
      rewrite Hargs in H. injection H as <- <-. left. auto. }
  destruct (String.eqb tool "list_connections") eqn:Hlist.
  { apply String.eqb_eq in Hlist. subst tool.
    destruct (Zod.safeParse ListConnectionsInputSchema args) as [input|issues] eqn:Hparse.
    2:{ rewrite (handler_invalid server fuel "list_connections" args issues w Hargs)
          in H by auto. discriminate H. }
    rewrite (handler_list_connections server fuel args input w Hargs Hparse) in H.
    destruct (withPagination server fuel _ [] no_options w) as [[raws| |] w1] eqn:P;
      try discriminate H.
    - destruct (mapM project_connection raws w1) as [[out| |] w2] eqn:E;
        try discriminate H.
      injection H as -> _. apply mapM_project_connection_Throw in E.
      destruct E as [message E]. discriminate E.
    - injection H as -> <-. right. right.
      exact (withPagination_loop_Error server _ [] no_options fuel [] VNull w w1 m P). }
  destruct (String.eqb tool "create_datamart_definition") eqn:Hcreate.
  { apply String.eqb_eq in Hcreate. subst tool.
    destruct (Zod.safeParse CreateDatamartDefinitionInputSchema args)
      as [input|issues] eqn:Hparse.
    2:{ rewrite (handler_invalid server fuel "create_datamart_definition" args issues
                   w Hargs) in H by auto. discriminate H. }
    rewrite (handler_create_datamart_definition server fuel args input w Hargs Hparse)
      in H.
    destruct (safeParse_object _ _ _ Hparse) as [props ->].
    rewrite createDatamartDefinition_run in H by reflexivity. cbv zeta in H.
    set (req := datamart_request (TROCCO_API_KEY w) (VObject props)) in *.
    destruct (settle (fst (server (remote w) req))) as [d| |] eqn:S;
      try discriminate H.
    - destruct (nullish d); discriminate H.
    - injection H as -> <-. apply settle_Error in S.
      destruct S as (r & Hr & Hstatus & Hm).
      right. right. exists [], (mkExchange req (fst (server (remote w) req))), r.
      cbn [calls after received app]. auto. }
  unfold CallToolRequest_handler in H. cbn [arguments name] in H.
  rewrite Hargs, Hlist, Hcreate in H. injection H as <- <-.
  right. left. apply String.eqb_neq in Hlist. apply String.eqb_neq in Hcreate. auto.
Qed.

(** X10 on sample data. *)
Lemma tool_call_errors_witness :
  CallToolRequest_handler scripted 5 s3_call failing_world
  = (Throw (Error "TROCCO API request failed: 500"),
     snd (CallToolRequest_handler scripted 5 s3_call failing_world))
  /\ exists front e r,
       calls (snd (CallToolRequest_handler scripted 5 s3_call failing_world))
       = (front ++ [e])%list
       /\ received e = Some r
       /\ ~ 200 <= status r <= 299.
Proof.
  assert (H : CallToolRequest_handler scripted 5 s3_call failing_world
              = (Throw (Error "TROCCO API request failed: 500"),
                 snd (CallToolRequest_handler scripted 5 s3_call failing_world)))
    by (vm_compute; reflexivity).
  split; [exact H|].
  destruct (tool_call_errors (list Response) scripted 5 s3_call failing_world _ _ H)
    as [(Hm & _)|[(Hm & _)|(front & e & r & Hcalls & He & Hr & _)]];
    [discriminate Hm|discriminate Hm|].
  exists front, e, r. auto.
Defined.

(* ================================================================= *)
(** ** The registry *)

(** X11.  The registry and the dispatcher agree.  A name is among the
    tools the [ListToolsRequestSchema] handler lists exactly when a call of
    it with arguments does not end in the unknown-tool error. *)
Theorem advertised_tools_are_dispatched :
  forall (Remote : Type) (server : Remote -> Request -> option Response * Remote)
    (zodToJsonSchema : Zod.schema -> value) (fuel : nat) (tool : string)
    (args : value) (w0 w : World (Remote := Remote)),
    truthy args = true ->
    (In tool (tool_names (fst (ListToolsRequest_handler zodToJsonSchema w0)))
     <-> fst (CallToolRequest_handler server fuel (mkCall tool args) w)
         <> Throw (Error ("Unknown tool name: " ++ tool))).
Proof.
  intros Remote server zodToJsonSchema fuel tool args w0 w Hargs.
  change (tool_names (fst (ListToolsRequest_handler zodToJsonSchema w0)))
    with ["list_connections"; "create_datamart_definition"].
  split.
  - intros Hin Hthrow.
    destruct (CallToolRequest_handler server fuel (mkCall tool args) w)
      as [o w'] eqn:H.
    cbn [fst] in Hthrow. subst o. apply tool_call_errors in H.
    cbn [arguments name] in H.
    destruct H as [(Hm & _)|[(_ & H1 & H2 & _)|(front & e & r & _ & _ & _ & Hm)]].
    + destruct Hin as [<-|[<-|[]]]; discriminate Hm.
    + destruct Hin as [Hin|[Hin|[]]]; congruence.
    + destruct Hin as [<-|[<-|[]]]; discriminate Hm.
  - intros Hnot.
    destruct (String.eqb tool "list_connections") eqn:Hlist;
      [apply String.eqb_eq in Hlist; left; congruence|].
    destruct (String.eqb tool "create_datamart_definition") eqn:Hcreate;
      [apply String.eqb_eq in Hcreate; right; left; congruence|].
    exfalso. apply Hnot. unfold CallToolRequest_handler. cbn [arguments name].
    rewrite Hargs, Hlist, Hcreate. reflexivity.
Qed.

(** X11 on sample data. *)
Lemma advertised_tools_are_dispatched_witness :
  truthy (VObject []) = true
  /\ fst (CallToolRequest_handler scripted 5 (mkCall "list_connections" (VObject []))
            orders_world)
     <> Throw (Error "Unknown tool name: list_connections").
Proof.
  split; [reflexivity|].
  apply (proj1 (advertised_tools_are_dispatched (list Response) scripted
                  (fun _ => VNull) 5 "list_connections" (VObject []) orders_world
                  orders_world eq_refl)).
  left. reflexivity.
Defined.

(* ================================================================= *)
(** ** The response to a create request *)

(** X18.  What [createDatamartDefinition] makes of a 2xx response.  A
    decoded body that is not null is reshaped into the six fields [id],
    [name], [data_warehouse_type], [description],
    [is_runnable_concurrently], [datamart_bigquery_option]: fields it does
    not have come out [undefined], fields beyond these are dropped.  A body
    that is [null], or not JSON at all, makes the call throw ([TypeError],
    [SyntaxError]) although the POST has been answered with success. *)
Theorem createDatamartDefinition_response :
  forall (Remote : Type) (server : Remote -> Request -> option Response * Remote)
    (input : value) (w : World) (r : Response) (remote' : Remote),
    nullish input = false ->
    let req := datamart_request (TROCCO_API_KEY w) input in
    server (remote w) req = (Some r, remote') ->
    200 <= status r <= 299 ->
    snd (createDatamartDefinition server input w) = after w remote' req (Some r)
    /\ (forall d,
           json_body r = Some d -> nullish d = false ->
           fst (createDatamartDefinition server input w)
           = Return
               (VObject
                  [("id", prop d "id");
                   ("name", prop d "name");
                   ("data_warehouse_type", prop d "data_warehouse_type");
                   ("description", prop d "description");
                   ("is_runnable_concurrently", prop d "is_runnable_concurrently");
                   ("datamart_bigquery_option", prop d "datamart_bigquery_option")]))
    /\ (forall d,
           json_body r = Some d -> nullish d = true ->
           exists message,
             fst (createDatamartDefinition server input w) = Throw (TypeError message))
    /\ (json_body r = None ->
        exists message,
          fst (createDatamartDefinition server input w) = Throw (SyntaxError message)).
Proof.
  intros Remote server input w r remote' Hinput req Hserver Hstatus.
  rewrite createDatamartDefinition_run by exact Hinput. cbv zeta. fold req.
  rewrite Hserver. cbn [fst snd]. unfold settle, decoded.
  apply ok_range in Hstatus. rewrite Hstatus.
  split; [destruct (json_body r) as [d|]; [destruct (nullish d)|]; reflexivity|].
  split; [|split].
  - intros d -> ->. reflexivity.
  - intros d -> ->. eexists. reflexivity.
  - intros ->. eexists. reflexivity.
Qed.

(** X18 on sample data. *)
Lemma createDatamartDefinition_response_witness :
  nullish bare_input = false
  /\ 200 <= status (mkResponse 201 (Some (VObject [("id", VNumber 9);
                                                     ("owner", VString "me")])))
      <= 299
  /\ fst (createDatamartDefinition
            (constant (mkResponse 201 (Some (VObject [("id", VNumber 9);
                                                      ("owner", VString "me")]))))
            bare_input (mkWorld tt None []))
     = Return (VObject [("id", VNumber 9);
                        ("name", VUndefined);
                        ("data_warehouse_type", VUndefined);
                        ("description", VUndefined);
                        ("is_runnable_concurrently", VUndefined);
                        ("datamart_bigquery_option", VUndefined)]).
Proof.
  assert (Hstatus : 200 <= status (mkResponse 201
                                     (Some (VObject [("id", VNumber 9);
                                                     ("owner", VString "me")])))
                    <= 299) by (simpl; lia).
  split; [reflexivity|]. split; [exact Hstatus|].
  destruct (createDatamartDefinition_response unit
              (constant (mkResponse 201 (Some (VObject [("id", VNumber 9);
                                                        ("owner", VString "me")]))))
              bare_input (mkWorld tt None []) _ tt eq_refl eq_refl Hstatus)
    as (_ & Hreturn & _).
  exact (Hreturn _ eq_refl eq_refl).
Defined.

(* ================================================================= *)
(** ** The second copy of the server *)

(** X19.  The second copy's [listConnections] is [withPagination] on the
    type's URL and nothing more: it returns the records as the server sent
    them.  The first copy makes the same requests, returns the projection
    of those records, and fails wherever the second fails. *)
Theorem part000_listConnections_unprojected :
  forall (Remote : Type) (server : Remote -> Request -> option Response * Remote)
    (fuel : nat) (input : value) (w : World),
    nullish input = false ->
    Part000.listConnections server fuel input w
    = withPagination server fuel (connections_url input) [] no_options w
    /\ snd (listConnections server fuel input w)
       = snd (Part000.listConnections server fuel input w)
    /\ (forall raws,
           fst (Part000.listConnections server fuel input w) = Return raws ->
           Forall (fun r => nullish r = false) raws ->
           fst (listConnections server fuel input w)
           = Return (map (fun r => VObject [("id", prop r "id");
                                            ("name", prop r "name");
                                            ("description", prop r "description")])
                       raws))
    /\ (forall e,
           fst (Part000.listConnections server fuel input w) = Throw e ->
           fst (listConnections server fuel input w) = Throw e).
Proof.
  intros Remote server fuel input w Hinput.
  assert (H0 : Part000.listConnections server fuel input w
               = withPagination server fuel (connections_url input) [] no_options w).
  { unfold Part000.listConnections, bind. rewrite get_defined by exact Hinput.
    reflexivity. }
  rewrite H0. rewrite listConnections_run by exact Hinput. unfold bind.
  destruct (withPagination server fuel (connections_url input) [] no_options w)
    as [[raws| |] w1]; cbn [fst snd].
  - split; [reflexivity|]. split; [apply mapM_project_connection_world|].
    split; [|discriminate].
    intros raws' H HF. injection H as <-.
    rewrite mapM_project_connection by exact HF. reflexivity.
  - split; [reflexivity|]. split; [reflexivity|]. split; [discriminate|].
    intros e' H. exact H.
  - split; [reflexivity|]. split; [reflexivity|]. split; discriminate.
Qed.

(** X19 on sample data. *)
Lemma part000_listConnections_unprojected_witness :
  nullish (VObject [("connectionType", VString "mysql")]) = false
  /\ fst (Part000.listConnections scripted 1
            (VObject [("connectionType", VString "mysql")]) orders_world)
     = Return [orders_record]
  /\ fst (listConnections scripted 1
            (VObject [("connectionType", VString "mysql")]) orders_world)
     = Return [VObject [("id", VString "7"); ("name", VString "orders");
                        ("description", VString "replica")]].
Proof.
  split; [reflexivity|]. split; [reflexivity|].
  destruct (part000_listConnections_unprojected (list Response) scripted 1
              (VObject [("connectionType", VString "mysql")]) orders_world eq_refl)
    as (_ & _ & Hproj & _).
  apply (Hproj [orders_record] eq_refl). repeat constructor.
Defined.

(** X20.  The second copy's dispatcher knows [list_connections] only: a
    call with arguments of any other name, [create_datamart_definition]
    included, is an unknown tool there.  On every call that does not name [create_datamart_definition]
    the two copies leave the same world behind (the same requests), and
    where the second copy throws, the first throws the same. *)
Theorem part000_dispatch :
  forall (Remote : Type) (server : Remote -> Request -> option Response * Remote)
    (fuel : nat) (request : CallToolRequest) (w : World),
    (name request <> "list_connections" ->
     truthy (arguments request) = true ->
     Part000.CallToolRequest_handler server fuel request w
     = (Throw (Error ("Unknown tool name: " ++ name request)), w))
    /\ (name request <> "create_datamart_definition" ->
        snd (Part000.CallToolRequest_handler server fuel request w)
        = snd (CallToolRequest_handler server fuel request w)
        /\ forall e,
             fst (Part000.CallToolRequest_handler server fuel request w) = Throw e ->
             fst (CallToolRequest_handler server fuel request w) = Throw e).
Proof.
  intros Remote server fuel [tool args] w. cbn [name arguments]. split.
  - intros Hname Hargs. unfold Part000.CallToolRequest_handler. cbn [arguments name].
    apply String.eqb_neq in Hname. rewrite Hargs, Hname. reflexivity.
  - intros Hname. apply String.eqb_neq in Hname.
    unfold Part000.CallToolRequest_handler, CallToolRequest_handler.
    cbn [arguments name]. destruct (truthy args); cbn [negb]; [|auto].
    destruct (String.eqb tool "list_connections"); [|rewrite Hname; auto].
    unfold Zod_parse.
    destruct (Zod.safeParse ListConnectionsInputSchema args) as [input|issues] eqn:Hparse;
      [|auto].
    destruct (safeParse_object _ _ _ Hparse) as [props ->].
    unfold bind, ret.
    destruct (part000_listConnections_unprojected Remote server fuel (VObject props) w
                eq_refl) as (_ & Hw & _ & He).
    destruct (Part000.listConnections server fuel (VObject props) w) as [[raws| |] w1];
      destruct (listConnections server fuel (VObject props) w) as [[out| |] w2];
      cbn [fst snd] in *; subst;
      try (specialize (He _ eq_refl); discriminate He);
      (split; [reflexivity|]); intros err H;
      first [discriminate H | exact H
            | pose proof (He _ eq_refl) as He'; injection He' as ->; exact H].
Qed.

(** X20 on sample data. *)
Lemma part000_dispatch_witness :
  name (mkCall "create_datamart_definition" bare_input) <> "list_connections"
  /\ truthy (arguments (mkCall "create_datamart_definition" bare_input)) = true
  /\ Part000.CallToolRequest_handler scripted 5
       (mkCall "create_datamart_definition" bare_input) orders_world
     = (Throw (Error "Unknown tool name: create_datamart_definition"), orders_world).
Proof.
  assert (Hname : name (mkCall "create_datamart_definition" bare_input)
                  <> "list_connections") by discriminate.
  split; [exact Hname|]. split; [reflexivity|].
  exact (proj1 (part000_dispatch (list Response) scripted 5
                  (mkCall "create_datamart_definition" bare_input) orders_world)
           Hname eq_refl).
Defined.

(* ================================================================= *)
(** ** The result of a run and its log *)

Lemma read_page_items (answer : option Response) (page_items : list value)
  (next : value) :
  read_page (settle answer) = Return (page_items, next) ->
  page_items = answer_items answer.
Proof.
  unfold settle, decoded, answer_items.
  destruct answer as [r|]; simpl; [|discriminate].
  destruct (ok r); simpl; [|discriminate].
  destruct (json_body r) as [data|]; simpl; [|discriminate].
  destruct (nullish data); [discriminate|].
  destruct (iterate (prop data "items")); [|discriminate].
  intros H; injection H; auto.
Qed.

Lemma withPagination_loop_items {Remote : Type}
  (server : Remote -> Request -> option Response * Remote)
  (url : string) (params : list (string * value)) (options : RequestOptions)
  (fuel : nat) :
  forall (acc : list value) (c : value) (w w' : World) (result : list value),
    withPagination_loop server fuel url params options acc c w = (Return result, w') ->
    exists new,
      calls w' = (calls w ++ new)%list
      /\ result = (acc ++ concat (map (fun e => answer_items (received e)) new))%list
      /\ Forall (fun e => exists r, received e = Some r /\ 200 <= status r <= 299) new.
Proof.
  induction fuel as [|fuel IH]; intros acc c w w' result H; [discriminate H|].
  rewrite withPagination_loop_step, fetch_page_run in H. cbv zeta in H.
  set (req := page_request (TROCCO_API_KEY w) url params options c) in *.
  destruct (read_page (settle (fst (server (remote w) req))))
    as [[page_items next]| |] eqn:R; try discriminate H.
  assert (Hok : exists r, fst (server (remote w) req) = Some r
                          /\ 200 <= status r <= 299).
  { revert R. unfold settle. destruct (fst (server (remote w) req)) as [r|];
      [|discriminate]. destruct (ok r) eqn:Hok; [|discriminate].
    intros _. exists r. split; [reflexivity|]. apply ok_range. exact Hok. }
  apply read_page_items in R. cbn [fst snd] in H.
  destruct (nullish next).
  - injection H as <- <-. exists [mkExchange req (fst (server (remote w) req))].
    cbn [calls after map concat received]. rewrite app_nil_r, <- R. auto.
  - apply IH in H. destruct H as (new & Hcalls & Hresult & Hall).
    exists (mkExchange req (fst (server (remote w) req)) :: new).
    split; [|split].
    + rewrite Hcalls. cbn [calls after]. rewrite <- app_assoc. reflexivity.
    + rewrite Hresult. cbn [map concat received]. rewrite <- R, <- app_assoc.
      reflexivity.
    + constructor; [exact Hok|exact Hall].
Qed.

(** X2.  Whatever the server does, the list a [withPagination] run returns
    is the concatenation, in the order of the requests, of the [items] of
    the answers it received: nothing is reordered, dropped or merged, and
    every one of those answers had a 2xx status. *)
Theorem withPagination_result_in_order :
  forall (Remote : Type) (server : Remote -> Request -> option Response * Remote)
    (fuel : nat) (url : string) (params : list (string * value))
    (options : RequestOptions) (w w' : World) (result : list value),
    withPagination server fuel url params options w = (Return result, w') ->
    exists new,
      calls w' = (calls w ++ new)%list
      /\ result = concat (map (fun e => answer_items (received e)) new)
      /\ Forall (fun e => exists r, received e = Some r /\ 200 <= status r <= 299) new.
Proof.
  intros Remote server fuel url params options w w' result H.
  exact (withPagination_loop_items server url params options fuel [] VNull w w'
           result H).
Qed.

(** X2 on sample data. *)
Lemma withPagination_result_in_order_witness :
  withPagination scripted 5 s3_url [] no_options
    (mkWorld [ok_page (mkPage [VNumber 1; VNumber 2] (Some "c1"));
              ok_page (mkPage [VNumber 3] None)] None [])
  = (Return [VNumber 1; VNumber 2; VNumber 3],
     snd (withPagination scripted 5 s3_url [] no_options
            (mkWorld [ok_page (mkPage [VNumber 1; VNumber 2] (Some "c1"));
                      ok_page (mkPage [VNumber 3] None)] None [])))
  /\ exists new,
       [VNumber 1; VNumber 2; VNumber 3]
       = concat (map (fun e => answer_items (received e)) new).
Proof.
  assert (H : withPagination scripted 5 s3_url [] no_options
                (mkWorld [ok_page (mkPage [VNumber 1; VNumber 2] (Some "c1"));
                          ok_page (mkPage [VNumber 3] None)] None [])
              = (Return [VNumber 1; VNumber 2; VNumber 3],
                 snd (withPagination scripted 5 s3_url [] no_options
                        (mkWorld [ok_page (mkPage [VNumber 1; VNumber 2] (Some "c1"));
                                  ok_page (mkPage [VNumber 3] None)] None [])))) 
    by reflexivity.
  split; [exact H|].
  destruct (withPagination_result_in_order (list Response) scripted 5 s3_url []
              no_options _ _ _ H) as (new & _ & Hresult & _).
  exists new. exact Hresult.
Defined.
